(** * query_trades_ml.py: the ML trade query client

    A shallow embedding of [src/query_trades_ml.py] (class [MLTradeQuery]):
    the record validator [verify_trade_data], the three transport
    operations [get_ml_trades], [get_ml_stats], [get_ml_status] and the
    exporter [export_trades], followed by the properties the specification
    states about them.

    Python values are modelled as the JSON-shaped objects the client
    receives: [None], booleans, arbitrary-precision integers, IEEE-754
    binary64 floats (the executable specification [SpecFloat] of the
    standard library, precision 53, maximal exponent 1024), strings, lists
    and dictionaries with string keys.  A Python exception is a value of
    [exn]; code that may raise returns a [result]. *)

From Stdlib Require Import ZArith List String Ascii Bool Lia Permutation.
From Stdlib Require Import Floats.SpecFloat.
From Stdlib Require Import Decimal DecimalString DecimalNat.
Import ListNotations.

Local Open Scope string_scope.
Local Open Scope Z_scope.

(* ================================================================== *)
(** ** Python values, exceptions and results *)

#[local] Set Warnings "-register-all".

Inductive pyval : Type :=
| VNone
| VBool (b : bool)
| VInt (z : Z)
| VFloat (f : spec_float)
| VStr (s : string)
| VList (l : list pyval)
| VDict (d : list (string * pyval)).

(** A [dict] with string keys, in insertion order.  Python keeps one
    entry per key, so a well-formed dictionary has no repeated key; the
    lookup below returns the first binding. *)
Definition dict : Type := list (string * pyval).

(** The exception classes the client can meet.  [HTTPError],
    [ConnectionError] and [RequestsJSONDecodeError] are subclasses of
    [requests.exceptions.RequestException]; the last one (requests 2.27
    and later) is a subclass of [json.JSONDecodeError] too. *)
Inductive exn : Type :=
| TypeError
| AttributeError
| KeyError (key : string)
| ValueError (msg : string)
| OverflowError
| ConnectionError (msg : string)
| HTTPError (msg : string)
| RequestsJSONDecodeError (msg : string)
| JSONDecodeError (msg : string)
| OSError.

Inductive result (A : Type) : Type :=
| Ok (a : A)
| Raise (e : exn).
Arguments Ok {A} a.
Arguments Raise {A} e.

Definition is_ok {A} (r : result A) : bool :=
  match r with Ok _ => true | Raise _ => false end.

(** [k in d], [d[k]] and [d.get(k, default)]. *)
Fixpoint dict_get (k : string) (d : dict) : option pyval :=
  match d with
  | [] => None
  | (k', v) :: d' => if String.eqb k k' then Some v else dict_get k d'
  end.

Definition contains (k : string) (d : dict) : bool :=
  match dict_get k d with Some _ => true | None => false end.

Definition getitem (d : dict) (k : string) : result pyval :=
  match dict_get k d with Some v => Ok v | None => Raise (KeyError k) end.

Definition get_default (d : dict) (k : string) (default : pyval) : pyval :=
  match dict_get k d with Some v => v | None => default end.

Definition keys (d : dict) : list string := map fst d.

(** Truth value of an object ([if x:], [x and y]). *)
Definition truthy (v : pyval) : bool :=
  match v with
  | VNone => false
  | VBool b => b
  | VInt z => negb (z =? 0)
  | VFloat (S754_zero _) => false
  | VFloat _ => true
  | VStr s => negb (String.eqb s "")
  | VList l => match l with [] => false | _ => true end
  | VDict d => match d with [] => false | _ => true end
  end.

(** [isinstance(v, (int, float))]: [bool] is a subclass of [int]. *)
Definition isinstance_int_float (v : pyval) : bool :=
  match v with
  | VBool _ | VInt _ | VFloat _ => true
  | _ => false
  end.

(** The text of [type(v)] inside an f-string. *)
Definition type_repr (v : pyval) : string :=
  match v with
  | VNone => "<class 'NoneType'>"
  | VBool _ => "<class 'bool'>"
  | VInt _ => "<class 'int'>"
  | VFloat _ => "<class 'float'>"
  | VStr _ => "<class 'str'>"
  | VList _ => "<class 'list'>"
  | VDict _ => "<class 'dict'>"
  end.

(** [v in l] for a list [l] of string literals: membership by [==],
    which holds only between two equal strings. *)
Definition in_strings (v : pyval) (l : list string) : bool :=
  match v with
  | VStr s => existsb (String.eqb s) l
  | _ => false
  end.

(* ================================================================== *)
(** ** Numbers: integers and binary64 floats *)

Definition float_of_Z (z : Z) : spec_float := binary_normalize 53 1024 z 0 false.

(** Conversion of an [int] operand to [float]: correctly rounded, and
    [OverflowError] when the rounded value is out of range. *)
Definition float_of_int (z : Z) : result spec_float :=
  match float_of_Z z with
  | S754_infinity _ => Raise OverflowError
  | f => Ok f
  end.

(** Comparison of a float with an integer.  Python compares the two
    exactly, without converting the integer; [None] is the unordered
    outcome of a NaN. *)
Definition float_cmp_int (f : spec_float) (k : Z) : option comparison :=
  match f with
  | S754_nan => None
  | S754_infinity s => Some (if s then Lt else Gt)
  | S754_zero _ => Some (0 ?= k)
  | S754_finite s m e =>
      let v := cond_Zopp s (Zpos m) in
      Some (match e with
            | Zneg p => v ?= k * 2 ^ Zpos p
            | _ => v * 2 ^ e ?= k
            end)
  end.

(** [v ? k] for an integer literal [k]: defined on [bool], [int] and
    [float]; every other operand type raises [TypeError]. *)
Definition py_cmp_int (v : pyval) (k : Z) : result (option comparison) :=
  match v with
  | VBool b => Ok (Some (Z.b2z b ?= k))
  | VInt z => Ok (Some (z ?= k))
  | VFloat f => Ok (float_cmp_int f k)
  | _ => Raise TypeError
  end.

Definition map_result {A B} (f : A -> B) (r : result A) : result B :=
  match r with Ok a => Ok (f a) | Raise e => Raise e end.

Definition cmp_le (c : option comparison) : bool :=
  match c with Some Lt | Some Eq => true | _ => false end.
Definition cmp_lt (c : option comparison) : bool :=
  match c with Some Lt => true | _ => false end.
Definition cmp_ge (c : option comparison) : bool :=
  match c with Some Gt | Some Eq => true | _ => false end.
Definition cmp_gt (c : option comparison) : bool :=
  match c with Some Gt => true | _ => false end.

(** [v <= k], [v < k], [k <= v], [v > k]. *)
Definition py_le_int (v : pyval) (k : Z) : result bool := map_result cmp_le (py_cmp_int v k).
Definition py_lt_int (v : pyval) (k : Z) : result bool := map_result cmp_lt (py_cmp_int v k).
Definition py_int_le (k : Z) (v : pyval) : result bool := map_result cmp_ge (py_cmp_int v k).
Definition py_gt_int (v : pyval) (k : Z) : result bool := map_result cmp_gt (py_cmp_int v k).

(** [x - v] for a float [x]. *)
Definition float_sub (x : spec_float) (v : pyval) : result spec_float :=
  match v with
  | VBool b => map_result (SFsub 53 1024 x) (float_of_int (Z.b2z b))
  | VInt z => map_result (SFsub 53 1024 x) (float_of_int z)
  | VFloat f => Ok (SFsub 53 1024 x f)
  | _ => Raise TypeError
  end.

(** An integer as an unrounded float operand: [SFdiv] on two of them is
    the correctly rounded quotient of the integers ([a / b] in Python). *)
Definition raw_float (z : Z) : spec_float :=
  match z with
  | Z0 => S754_zero false
  | Zpos p => S754_finite false p 0
  | Zneg p => S754_finite true p 0
  end.

(* ================================================================== *)
(** ** datetime and timedelta *)

(** A [datetime]: the wall-clock fields as microseconds since
    0001-01-01T00:00:00, and the UTC offset in microseconds of an aware
    value ([None] for a naive one). *)
Record datetime : Type := mkdatetime { wall_us : Z; utcoffset : option Z }.

(** A [timedelta], in microseconds. *)
Definition timedelta : Type := Z.

(** [a <= b]: comparing a naive with an aware value raises [TypeError]. *)
Definition datetime_le (a b : datetime) : result bool :=
  match utcoffset a, utcoffset b with
  | None, None => Ok (wall_us a <=? wall_us b)
  | Some oa, Some ob => Ok (wall_us a - oa <=? wall_us b - ob)
  | _, _ => Raise TypeError
  end.

(** [a - b], with the same restriction. *)
Definition datetime_sub (a b : datetime) : result timedelta :=
  match utcoffset a, utcoffset b with
  | None, None => Ok (wall_us a - wall_us b)
  | Some oa, Some ob => Ok ((wall_us a - oa) - (wall_us b - ob))
  | _, _ => Raise TypeError
  end.

(** [td.total_seconds()] is [microseconds / 10**6] in true division.
    A [timedelta] is bounded (below 10**9 days), so the division by the
    non-zero constant never raises: the quotient is taken directly. *)
Definition total_seconds (td : timedelta) : spec_float :=
  SFdiv 53 1024 (raw_float td) (raw_float 1000000).

(* ================================================================== *)
(** ** Strings *)

(** [s.replace('Z', '+00:00')]. *)
Fixpoint replace_Z (s : string) : string :=
  match s with
  | EmptyString => EmptyString
  | String c s' =>
      if Ascii.eqb c "Z"%char then "+00:00" ++ replace_Z s'
      else String c (replace_Z s')
  end.

(** [v.replace('Z', '+00:00')]: only [str] has the method. *)
Definition py_replace_Z (v : pyval) : result string :=
  match v with
  | VStr s => Ok (replace_Z s)
  | _ => Raise AttributeError
  end.

(** [s.rstrip('/')]. *)
Fixpoint rstrip_slash (s : string) : string :=
  match s with
  | EmptyString => EmptyString
  | String c s' =>
      match rstrip_slash s' with
      | EmptyString => if Ascii.eqb c "/"%char then EmptyString else String c EmptyString
      | r => String c r
      end
  end.

(** [s.lower()] on ASCII letters. *)
Definition lower_ascii (c : ascii) : ascii :=
  let n := nat_of_ascii c in
  if (Nat.leb 65 n && Nat.leb n 90)%bool then ascii_of_nat (n + 32) else c.

Fixpoint lower (s : string) : string :=
  match s with
  | EmptyString => EmptyString
  | String c s' => String (lower_ascii c) (lower s')
  end.

(** Decimal text of a natural number, as an f-string prints [{i+1}]. *)
Definition dec (n : nat) : string := NilEmpty.string_of_uint (Nat.to_uint n).

(* ================================================================== *)
(** ** The library functions the client calls *)

(** The functions of the Python runtime whose text output or grammar is
    fixed by the library, not by this repository:
    - [fromisoformat s] is [datetime.fromisoformat(s)] on a string:
      the parsed value, or the message of the [ValueError] it raises;
    - [py_str v] is the text of [{v}] inside an f-string;
    - [format_0f x] is the text of [{x:.0f}]. *)
Class Runtime : Type := {
  fromisoformat : string -> string + datetime;
  py_str : pyval -> string;
  format_0f : spec_float -> string
}.

Definition parse_datetime `{Runtime} (s : string) : result datetime :=
  match fromisoformat s with
  | inr d => Ok d
  | inl msg => Raise (ValueError msg)
  end.

(* ================================================================== *)
(** ** Local mutable state and exceptions *)

(** A computation over a mutable state [St] that may raise: it returns
    its outcome together with the state it leaves behind, so what was
    written before an exception is still there for a handler. *)
Definition M (St A : Type) : Type := St -> result A * St.

Definition ret {St A} (a : A) : M St A := fun s => (Ok a, s).

Definition bind {St A B} (m : M St A) (k : A -> M St B) : M St B :=
  fun s =>
    match m s with
    | (Ok a, s') => k a s'
    | (Raise e, s') => (Raise e, s')
    end.

Definition lift {St A} (r : result A) : M St A := fun s => (r, s).

Definition modify {St} (f : St -> St) : M St unit := fun s => (Ok tt, f s).

Notation "x <- m ;; k" := (bind m (fun x => k))
  (at level 61, m at next level, right associativity).
Notation "m ;; k" := (bind m (fun _ => k))
  (at level 61, right associativity).

(** [if b: body]. *)
Definition when {St} (b : bool) (body : M St unit) : M St unit :=
  if b then body else ret tt.

(** [a and b], where [b] is evaluated only when [a] holds. *)
Definition and_then {St} (a : bool) (b : M St bool) : M St bool :=
  if a then b else ret false.

(** [try: body except ValueError as e: handler(e)]. *)
Definition except_ValueError {St A} (body : M St A) (handler : string -> M St A) : M St A :=
  fun s =>
    match body s with
    | (Raise (ValueError msg), s') => handler msg s'
    | r => r
    end.

(** [for x in l: body(x)]. *)
Fixpoint for_each {St A} (l : list A) (body : A -> M St unit) : M St unit :=
  match l with
  | [] => ret tt
  | x :: l' => body x ;; for_each l' body
  end.

(** [for i, x in enumerate(l, start): body(i, x)]. *)
Fixpoint for_enumerate {St A} (start : nat) (l : list A) (body : nat -> A -> M St unit)
  : M St unit :=
  match l with
  | [] => ret tt
  | x :: l' => body start x ;; for_enumerate (S start) l' body
  end.

(* ================================================================== *)
(** ** The record validator: [verify_trade_data] *)

(** The two local lists [errors] and [warnings]. *)
Definition findings : Type := (list string * list string)%type.

Definition errors_append (msg : string) : M findings unit :=
  modify (fun '(errors, warnings) => ((errors ++ [msg])%list, warnings)).

Definition warnings_append (msg : string) : M findings unit :=
  modify (fun '(errors, warnings) => (errors, (warnings ++ [msg])%list)).

Definition required_fields : list string :=
  ["id"; "pair"; "entry_price"; "exit_price"; "pnl";
   "duration_seconds"; "entry_time"; "exit_time"; "success";
   "market_regime"; "trend_strength"; "volatility"; "created_at"].

Definition valid_regimes : list string := ["Consolidating"; "Trending"; "Volatile"].

(** [f"Trade {i+1}: ..."], for the 0-based index [i] of [enumerate]. *)
Definition trade_msg (i : nat) (body : string) : string :=
  "Trade " ++ dec (S i) ++ ": " ++ body.

Section Validator.
Context `{Runtime}.

(** Lines 178-180. *)
Definition check_required (i : nat) (trade : dict) : M findings unit :=
  for_each required_fields (fun field =>
    when (negb (contains field trade))
      (errors_append (trade_msg i ("Missing required field '" ++ field ++ "'")))).

(** Lines 183-184. *)
Definition check_entry_price (i : nat) (trade : dict) : M findings unit :=
  c <- and_then (contains "entry_price" trade)
         (v <- lift (getitem trade "entry_price") ;; lift (py_le_int v 0)) ;;
  when c
    (v <- lift (getitem trade "entry_price") ;;
     errors_append (trade_msg i ("Invalid entry_price (" ++ py_str v ++ ")"))).

(** Lines 186-187. *)
Definition check_exit_price (i : nat) (trade : dict) : M findings unit :=
  c <- and_then (contains "exit_price" trade)
         (v <- lift (getitem trade "exit_price") ;; lift (py_le_int v 0)) ;;
  when c
    (v <- lift (getitem trade "exit_price") ;;
     errors_append (trade_msg i ("Invalid exit_price (" ++ py_str v ++ ")"))).

(** Lines 189-190. *)
Definition check_pnl (i : nat) (trade : dict) : M findings unit :=
  c <- and_then (contains "pnl" trade)
         (v <- lift (getitem trade "pnl") ;; ret (negb (isinstance_int_float v))) ;;
  when c
    (v <- lift (getitem trade "pnl") ;;
     errors_append (trade_msg i ("Invalid pnl type (" ++ type_repr v ++ ")"))).

(** Lines 192-193. *)
Definition check_duration (i : nat) (trade : dict) : M findings unit :=
  c <- and_then (contains "duration_seconds" trade)
         (v <- lift (getitem trade "duration_seconds") ;; lift (py_lt_int v 0)) ;;
  when c
    (v <- lift (getitem trade "duration_seconds") ;;
     warnings_append (trade_msg i ("Negative duration (" ++ py_str v ++ "s)"))).

(** Lines 195-196: [not (0 <= x <= 1)] is [not (0 <= x and x <= 1)]. *)
Definition check_trend_strength (i : nat) (trade : dict) : M findings unit :=
  c <- and_then (contains "trend_strength" trade)
         (v <- lift (getitem trade "trend_strength") ;;
          lo <- lift (py_int_le 0 v) ;;
          inside <- and_then lo (lift (py_le_int v 1)) ;;
          ret (negb inside)) ;;
  when c
    (v <- lift (getitem trade "trend_strength") ;;
     warnings_append (trade_msg i ("Trend strength out of range (" ++ py_str v ++ ")"))).

(** Lines 198-199. *)
Definition check_volatility (i : nat) (trade : dict) : M findings unit :=
  c <- and_then (contains "volatility" trade)
         (v <- lift (getitem trade "volatility") ;; lift (py_lt_int v 0)) ;;
  when c
    (v <- lift (getitem trade "volatility") ;;
     warnings_append (trade_msg i ("Negative volatility (" ++ py_str v ++ ")"))).

(** Lines 202-204. *)
Definition check_market_regime (i : nat) (trade : dict) : M findings unit :=
  c <- and_then (contains "market_regime" trade)
         (v <- lift (getitem trade "market_regime") ;;
          ret (negb (in_strings v valid_regimes))) ;;
  when c
    (v <- lift (getitem trade "market_regime") ;;
     warnings_append (trade_msg i ("Unknown market regime (" ++ py_str v ++ ")"))).

(** Lines 215-218, with [entry_time] and [exit_time] already parsed. *)
Definition check_duration_consistency (i : nat) (trade : dict)
    (entry_time exit_time : datetime) : M findings unit :=
  when (contains "duration_seconds" trade)
    (delta <- lift (datetime_sub exit_time entry_time) ;;
     let calculated_duration := total_seconds delta in
     stored <- lift (getitem trade "duration_seconds") ;;
     diff <- lift (float_sub calculated_duration stored) ;;
     c <- lift (py_gt_int (VFloat (SFabs diff)) 1) ;;
     when c
       (warnings_append
          (trade_msg i ("Duration mismatch (calculated: " ++ format_0f calculated_duration
                        ++ "s, stored: " ++ py_str stored ++ "s)")))).

(** Lines 207-221. *)
Definition check_time_consistency (i : nat) (trade : dict) : M findings unit :=
  when (contains "entry_time" trade && contains "exit_time" trade)
    (except_ValueError
       (raw_entry <- lift (getitem trade "entry_time") ;;
        entry_text <- lift (py_replace_Z raw_entry) ;;
        entry_time <- lift (parse_datetime entry_text) ;;
        raw_exit <- lift (getitem trade "exit_time") ;;
        exit_text <- lift (py_replace_Z raw_exit) ;;
        exit_time <- lift (parse_datetime exit_text) ;;
        c <- lift (datetime_le exit_time entry_time) ;;
        when c
          (errors_append (trade_msg i "Exit time before or equal to entry time")) ;;
        check_duration_consistency i trade entry_time exit_time)
       (fun e => errors_append (trade_msg i ("Invalid datetime format: " ++ e)))).

(** The body of the loop over [enumerate(trades)], lines 173-221. *)
Definition check_trade (i : nat) (trade : dict) : M findings unit :=
  check_required i trade ;;
  check_entry_price i trade ;;
  check_exit_price i trade ;;
  check_pnl i trade ;;
  check_duration i trade ;;
  check_trend_strength i trade ;;
  check_volatility i trade ;;
  check_market_regime i trade ;;
  check_time_consistency i trade.

(** The returned report is a dictionary. *)
Definition verify_trade_data (trades : list dict) : result dict :=
  match trades with
  | [] => Ok [("valid", VBool false); ("errors", VList [VStr "No trades found"])]
  | _ =>
      match for_enumerate 0 trades check_trade ([], []) with
      | (Ok _, (errors, warnings)) =>
          Ok [("valid", VBool (Nat.eqb (List.length errors) 0));
              ("errors", VList (map VStr errors));
              ("warnings", VList (map VStr warnings));
              ("total_trades", VInt (Z.of_nat (List.length trades)))]
      | (Raise e, _) => Raise e
      end
  end.
End Validator.

(* ================================================================== *)
(** ** A reference runtime

    An executable instance of [Runtime], used to run the validator on
    concrete records.  [iso_fromisoformat] reads the regular forms
    [YYYY-MM-DD] and [YYYY-MM-DD?HH[:MM[:SS[.fff[fff]]]][(+|-)HH:MM]]
    with the range checks of the [datetime] constructor; [str_of] prints
    [None], booleans, integers and strings as Python does, a float by its
    exact decimal expansion and a string inside a container between
    single quotes without escapes; [fixed0] is [{x:.0f}]. *)

Definition digit_of (c : ascii) : option Z :=
  let n := nat_of_ascii c in
  if (Nat.leb 48 n && Nat.leb n 57)%bool then Some (Z.of_nat (n - 48)) else None.

(** Exactly [n] decimal digits, then the rest of the string. *)
Fixpoint take_digits (n : nat) (acc : Z) (s : string) : option (Z * string) :=
  match n with
  | O => Some (acc, s)
  | S n' =>
      match s with
      | String c s' =>
          match digit_of c with
          | Some d => take_digits n' (10 * acc + d) s'
          | None => None
          end
      | EmptyString => None
      end
  end.

Definition expect (c : ascii) (s : string) : option string :=
  match s with
  | String c' s' => if Ascii.eqb c c' then Some s' else None
  | EmptyString => None
  end.

Definition is_leap (y : Z) : bool :=
  ((y mod 4 =? 0) && (negb (y mod 100 =? 0) || (y mod 400 =? 0)))%bool.

Definition days_in_month (y m : Z) : Z :=
  if m =? 2 then (if is_leap y then 29 else 28)
  else if (m =? 4) || (m =? 6) || (m =? 9) || (m =? 11) then 30 else 31.

Definition days_before_year (y : Z) : Z :=
  let p := y - 1 in p * 365 + p / 4 - p / 100 + p / 400.

Fixpoint days_before_month (y : Z) (m : nat) : Z :=
  match m with
  | O => 0
  | S m' => days_before_month y m' + days_in_month y (Z.of_nat m)
  end.

(** [datetime(y, mo, d, h, mi, s, us, tzinfo)] with its range checks. *)
Definition make_datetime (y mo d h mi s us : Z) (tz : option Z) : string + datetime :=
  if negb ((1 <=? y) && (y <=? 9999)) then inl "year is out of range"
  else if negb ((1 <=? mo) && (mo <=? 12)) then inl "month must be in 1..12"
  else if negb ((1 <=? d) && (d <=? days_in_month y mo)) then inl "day is out of range for month"
  else if negb (h <=? 23) then inl "hour must be in 0..23"
  else if negb (mi <=? 59) then inl "minute must be in 0..59"
  else if negb (s <=? 59) then inl "second must be in 0..59"
  else
    let ordinal := days_before_year y + days_before_month y (Z.to_nat (mo - 1)) + d in
    inr (mkdatetime ((((ordinal - 1) * 86400 + h * 3600 + mi * 60 + s) * 1000000) + us) tz).

(** [.fff] or [.ffffff]. *)
Definition parse_fraction (s : string) : option (Z * string) :=
  match take_digits 6 0 s with
  | Some r => Some r
  | None =>
      match take_digits 3 0 s with
      | Some (ms, rest) => Some (ms * 1000, rest)
      | None => None
      end
  end.

(** [HH[:MM[:SS[.fff[fff]]]]]: hour, minute, second, microsecond, rest. *)
Definition parse_clock (s : string) : option (Z * Z * Z * Z * string) :=
  match take_digits 2 0 s with
  | None => None
  | Some (h, s1) =>
      match expect ":" s1 with
      | None => Some (h, 0, 0, 0, s1)
      | Some s2 =>
          match take_digits 2 0 s2 with
          | None => None
          | Some (mi, s3) =>
              match expect ":" s3 with
              | None => Some (h, mi, 0, 0, s3)
              | Some s4 =>
                  match take_digits 2 0 s4 with
                  | None => None
                  | Some (sec, s5) =>
                      match expect "." s5 with
                      | None => Some (h, mi, sec, 0, s5)
                      | Some s6 =>
                          match parse_fraction s6 with
                          | Some (us, s7) => Some (h, mi, sec, us, s7)
                          | None => None
                          end
                      end
                  end
              end
          end
      end
  end.

(** [(+|-)HH:MM] at the end of the string, as microseconds. *)
Definition parse_offset (s : string) : option (option Z) :=
  match s with
  | EmptyString => Some None
  | String c s1 =>
      let sign := if Ascii.eqb c "+" then Some 1
                  else if Ascii.eqb c "-" then Some (-1) else None in
      match sign, take_digits 2 0 s1 with
      | Some sg, Some (h, s2) =>
          match expect ":" s2 with
          | Some s3 =>
              match take_digits 2 0 s3 with
              | Some (mi, EmptyString) =>
                  if (h <=? 23) && (mi <=? 59)
                  then Some (Some (sg * (h * 3600 + mi * 60) * 1000000))
                  else None
              | _ => None
              end
          | None => None
          end
      | _, _ => None
      end
  end.

Definition iso_fromisoformat (s : string) : string + datetime :=
  let invalid : string + datetime := inl ("Invalid isoformat string: '" ++ s ++ "'") in
  match take_digits 4 0 s with
  | None => invalid
  | Some (y, s1) =>
      match expect "-" s1 with
      | None => invalid
      | Some s2 =>
          match take_digits 2 0 s2 with
          | None => invalid
          | Some (mo, s3) =>
              match expect "-" s3 with
              | None => invalid
              | Some s4 =>
                  match take_digits 2 0 s4 with
                  | None => invalid
                  | Some (d, EmptyString) => make_datetime y mo d 0 0 0 0 None
                  | Some (d, String _ s5) =>
                      match parse_clock s5 with
                      | None => invalid
                      | Some (h, mi, sec, us, s6) =>
                          match parse_offset s6 with
                          | None => invalid
                          | Some tz => make_datetime y mo d h mi sec us tz
                          end
                      end
                  end
              end
          end
      end
  end.

Definition dec_Z (z : Z) : string :=
  match z with
  | Z0 => "0"
  | Zpos p => NilEmpty.string_of_uint (Pos.to_uint p)
  | Zneg p => "-" ++ NilEmpty.string_of_uint (Pos.to_uint p)
  end.

(** [n] printed on at least [width] digits. *)
Fixpoint zero_pad (width : nat) (s : string) : string :=
  match Nat.sub width (String.length s) with
  | O => s
  | S _ => match width with
           | O => s
           | S w => "0" ++ zero_pad w s
           end
  end.

Fixpoint strip_trailing_zeros (s : string) : string :=
  match s with
  | EmptyString => EmptyString
  | String c s' =>
      match strip_trailing_zeros s' with
      | EmptyString => if Ascii.eqb c "0" then EmptyString else String c EmptyString
      | r => String c r
      end
  end.

Definition str_of_float (f : spec_float) : string :=
  match f with
  | S754_nan => "nan"
  | S754_infinity s => if s then "-inf" else "inf"
  | S754_zero s => if s then "-0.0" else "0.0"
  | S754_finite s m e =>
      (if s then "-" else "") ++
      match e with
      | Zneg k =>
          let q := Zpos m / 2 ^ Zpos k in
          let r := Zpos m mod 2 ^ Zpos k in
          let frac := strip_trailing_zeros (zero_pad (Pos.to_nat k) (dec_Z (r * 5 ^ Zpos k))) in
          dec_Z q ++ "." ++ (if String.eqb frac "" then "0" else frac)
      | _ => dec_Z (Zpos m * 2 ^ e) ++ ".0"
      end
  end.

Definition join (sep : string) (l : list string) : string :=
  match l with
  | [] => ""
  | x :: l' => fold_left (fun acc y => acc ++ sep ++ y) l' x
  end.

Fixpoint repr_of (v : pyval) : string :=
  match v with
  | VNone => "None"
  | VBool b => if b then "True" else "False"
  | VInt z => dec_Z z
  | VFloat f => str_of_float f
  | VStr s => "'" ++ s ++ "'"
  | VList l => "[" ++ join ", " (map repr_of l) ++ "]"
  | VDict d =>
      "{" ++ join ", "
        ((fix items (d : list (string * pyval)) : list string :=
            match d with
            | [] => []
            | (k, x) :: d' => ("'" ++ k ++ "': " ++ repr_of x) :: items d'
            end) d) ++ "}"
  end.

Definition str_of (v : pyval) : string :=
  match v with
  | VStr s => s
  | _ => repr_of v
  end.

(** [{x:.0f}]: the nearest integer, ties to even. *)
Definition fixed0 (f : spec_float) : string :=
  match f with
  | S754_nan => "nan"
  | S754_infinity s => if s then "-inf" else "inf"
  | S754_zero s => if s then "-0" else "0"
  | S754_finite s m e =>
      (if s then "-" else "") ++
      match e with
      | Zneg k =>
          let q := Zpos m / 2 ^ Zpos k in
          let r := Zpos m mod 2 ^ Zpos k in
          let half := 2 ^ (Zpos k - 1) in
          dec_Z (if r <? half then q
                 else if half <? r then q + 1
                 else if Z.even q then q else q + 1)
      | _ => dec_Z (Zpos m * 2 ^ e)
      end
  end.

#[export] Instance cpython : Runtime := {
  fromisoformat := iso_fromisoformat;
  py_str := str_of;
  format_0f := fixed0
}.

(** The scenario record of the specification. *)
Definition sample_trade : dict :=
  [("entry_price", VInt 10); ("exit_price", VInt 11);
   ("pnl", VFloat (S754_finite false 7205759403792794 (-56)));
   ("duration_seconds", VInt 120);
   ("entry_time", VStr "2024-01-01T00:00:00Z");
   ("exit_time", VStr "2024-01-01T00:02:00Z");
   ("created_at", VStr "2024-01-01T00:02:00Z");
   ("success", VBool true); ("market_regime", VStr "Trending");
   ("trend_strength", VFloat (S754_finite false 4503599627370496 (-53)));
   ("volatility", VFloat (S754_finite false 7205759403792794 (-55)));
   ("id", VInt 1); ("pair", VStr "SOLUSDC")].

(** [d[k] = v] on a dictionary literal: the binding is replaced in place
    or added at the end. *)
Fixpoint setitem (d : dict) (k : string) (v : pyval) : dict :=
  match d with
  | [] => [(k, v)]
  | (k', v') :: d' => if String.eqb k k' then (k, v) :: d' else (k', v') :: setitem d' k v
  end.

Fixpoint delitem (d : dict) (k : string) : dict :=
  match d with
  | [] => []
  | (k', v') :: d' => if String.eqb k k' then d' else (k', v') :: delitem d' k
  end.

(* ================================================================== *)
(** ** The world outside the process *)

(** What one GET puts on the wire: the URL, the query parameters and the
    socket timeout in seconds ([None]: wait without limit). *)
Record request : Type := mkrequest {
  req_url : string;
  req_params : list (string * pyval);
  req_timeout : option Z
}.

(** An HTTP response; [json] is what [response.json()] returns or raises. *)
Record response : Type := mkresponse {
  status_code : Z;
  reason : string;
  json : result pyval
}.

(** The outcome of a GET: an exception of the transport (no connection,
    time out, too many redirects) or a response. *)
Inductive http_outcome : Type :=
| Failed (e : exn)
| Responded (r : response).

(** A file written by the exporter: the rows of a CSV file, each the
    texts of its cells, or the value handed to [json.dump]. *)
Inductive file_content : Type :=
| CsvRows (rows : list (list string))
| JsonDump (doc : list dict).

(** Standard output, the requests sent so far, the server (its answer
    may depend on how many requests came before), the files written,
    the text of [datetime.now().strftime("%Y%m%d_%H%M%S")], and the
    paths [open(path, 'w')] can open: a path in a directory that does
    not exist, or one the process may not write, cannot be opened. *)
Record world : Type := mkworld {
  stdout : list string;
  sent : list request;
  server : nat -> request -> http_outcome;
  files : list (string * file_content);
  clock : string;
  writable : string -> bool
}.

Definition print (line : string) : M world unit :=
  modify (fun w =>
    mkworld (stdout w ++ [line])%list (sent w) (server w) (files w) (clock w) (writable w)).

Definition now_stamp : M world string := fun w => (Ok (clock w), w).

(** [open(filename, 'w')]: the file is created or truncated. *)
Fixpoint file_put (name : string) (c : file_content) (fs : list (string * file_content))
  : list (string * file_content) :=
  match fs with
  | [] => [(name, c)]
  | (n, c') :: fs' => if String.eqb name n then (name, c) :: fs' else (n, c') :: file_put name c fs'
  end.

Fixpoint file_get (name : string) (fs : list (string * file_content)) : option file_content :=
  match fs with
  | [] => None
  | (n, c) :: fs' => if String.eqb name n then Some c else file_get name fs'
  end.

(** [open(name, 'w')] and the writing of [c]: [OSError]
    ([FileNotFoundError], [PermissionError], ...) when the path cannot
    be opened, and then nothing is created. *)
Definition write_file (name : string) (c : file_content) : M world unit :=
  fun w =>
    if writable w name then
      (Ok tt,
       mkworld (stdout w) (sent w) (server w) (file_put name c (files w)) (clock w)
               (writable w))
    else (Raise OSError, w).

(** One more row at the end of an open CSV file. *)
Definition append_row (name : string) (row : list string) : M world unit :=
  modify (fun w =>
    match file_get name (files w) with
    | Some (CsvRows rows) =>
        mkworld (stdout w) (sent w) (server w)
                (file_put name (CsvRows (rows ++ [row])%list) (files w)) (clock w)
                (writable w)
    | _ => w
    end).

(** [try: body except ...]: [handler e] is [None] when no clause matches
    the exception, which then propagates. *)
Definition try_except {St A} (body : M St A) (handler : exn -> option (M St A)) : M St A :=
  fun s =>
    match body s with
    | (Raise e, s') =>
        match handler e with
        | Some h => h s'
        | None => (Raise e, s')
        end
    | r => r
    end.

(* ================================================================== *)
(** ** The transport client *)

(** A [requests.Session] as this client uses it: the only thing the
    client does to the object is to assign its attribute [timeout]. *)
Record Session : Type := mkSession { timeout_attribute : option Z }.

Record MLTradeQuery : Type := mkMLTradeQuery {
  database_url : string;
  session : Session
}.

Definition DEFAULT_DATABASE_URL : string := "http://localhost:8080".
Definition DEFAULT_PAIR : string := "SOLUSDC".

(** [MLTradeQuery.__init__], lines 30-33. *)
Definition init (url : string) : MLTradeQuery :=
  mkMLTradeQuery (rstrip_slash url) (mkSession (Some 10)).

(** [Session.get(url, params=params, timeout=timeout)] of the requests
    library.  The socket timeout of a request is the [timeout] keyword
    of the call, [None] when the call does not give it; the library
    reads no timeout from the session object, so [timeout_attribute]
    does not reach the request. *)
Definition session_get (s : Session) (url : string) (params : list (string * pyval))
    (timeout : option Z) : M world response :=
  fun w =>
    let req := mkrequest url params timeout in
    let w' := mkworld (stdout w) (sent w ++ [req])%list (server w) (files w) (clock w)
                      (writable w) in
    match server w (List.length (sent w)) req with
    | Failed e => (Raise e, w')
    | Responded r => (Ok r, w')
    end.

(** [response.raise_for_status()]: [HTTPError] for a 4xx or 5xx status. *)
Definition raise_for_status (url : string) (r : response) : result unit :=
  if (400 <=? status_code r) && (status_code r <? 500) then
    Raise (HTTPError (dec (Z.to_nat (status_code r)) ++ " Client Error: " ++ reason r
                      ++ " for url: " ++ url))
  else if (500 <=? status_code r) && (status_code r <? 600) then
    Raise (HTTPError (dec (Z.to_nat (status_code r)) ++ " Server Error: " ++ reason r
                      ++ " for url: " ++ url))
  else Ok tt.

Definition is_RequestException (e : exn) : bool :=
  match e with
  | ConnectionError _ | HTTPError _ | RequestsJSONDecodeError _ => true
  | _ => false
  end.

Definition is_JSONDecodeError (e : exn) : bool :=
  match e with
  | RequestsJSONDecodeError _ | JSONDecodeError _ => true
  | _ => false
  end.

(** [str(e)]. *)
Definition exn_str (e : exn) : string :=
  match e with
  | KeyError k => "'" ++ k ++ "'"
  | ValueError m | ConnectionError m | HTTPError m
  | RequestsJSONDecodeError m | JSONDecodeError m => m
  | _ => ""
  end.

(** [data.get(k, default)] and [k in data] on a parsed body: only a
    [dict] has [get]; [in] is modelled on dictionaries, the one case
    reached after [get]. *)
Definition py_get (data : pyval) (k : string) (default : pyval) : result pyval :=
  match data with
  | VDict d => Ok (get_default d k default)
  | _ => Raise AttributeError
  end.

Definition py_contains (k : string) (data : pyval) : result bool :=
  match data with
  | VDict d => Ok (contains k d)
  | _ => Raise TypeError
  end.

Definition py_getitem (data : pyval) (k : string) : result pyval :=
  match data with
  | VDict d => getitem d k
  | _ => Raise TypeError
  end.

Section Client.
Context `{Runtime}.

(** The body shared by the three operations after the URL is built
    (lines 40-56, 62-78, 84-100): [empty] is [[]] for the trades and
    [None] for the statistics and the status. *)
Definition fetch (self : MLTradeQuery) (url : string) (params : list (string * pyval))
    (empty : pyval) : M world pyval :=
  try_except
    (response <- session_get (session self) url params None ;;
     lift (raise_for_status url response) ;;
     data <- lift (json response) ;;
     success <- lift (py_get data "success" VNone) ;;
     c <- and_then (truthy success) (lift (py_contains "data" data)) ;;
     if c then lift (py_getitem data "data")
     else
       (message <- lift (py_get data "message" (VStr "Unknown error")) ;;
        print ("❌ Error: " ++ py_str message) ;;
        ret empty))
    (fun e =>
       if is_RequestException e then
         Some (print ("❌ Network error: " ++ exn_str e) ;; ret empty)
       else if is_JSONDecodeError e then
         Some (print ("❌ JSON decode error: " ++ exn_str e) ;; ret empty)
       else None).

(** Lines 35-56. *)
Definition get_ml_trades (self : MLTradeQuery) (pair : string) (limit : Z) : M world pyval :=
  fetch self (database_url self ++ "/ml/trades/" ++ pair) [("limit", VInt limit)] (VList []).

(** Lines 58-78. *)
Definition get_ml_stats (self : MLTradeQuery) (pair : string) : M world pyval :=
  fetch self (database_url self ++ "/ml/stats/" ++ pair) [] VNone.

(** Lines 80-100. *)
Definition get_ml_status (self : MLTradeQuery) : M world pyval :=
  fetch self (database_url self ++ "/ml/status") [] VNone.
End Client.

(* ================================================================== *)
(** ** The exporter *)

Definition fieldnames : list string :=
  ["id"; "pair"; "entry_price"; "exit_price"; "pnl"; "duration_seconds";
   "entry_time"; "exit_time"; "success"; "market_regime"; "trend_strength";
   "volatility"; "created_at"].

Definition mem_string (k : string) (l : list string) : bool := existsb (String.eqb k) l.

(** [csv.DictWriter._dict_to_list] with the defaults of the constructor
    ([restval=''], [extrasaction='raise']): a key outside [fieldnames]
    raises [ValueError]; otherwise the row is
    [rowdict.get(key, '')] for each column in turn. *)
Definition dict_to_list (columns : list string) (rowdict : dict) : result (list pyval) :=
  let wrong_fields := filter (fun k => negb (mem_string k columns)) (keys rowdict) in
  match wrong_fields with
  | [] => Ok (map (fun key => get_default rowdict key (VStr "")) columns)
  | _ =>
      Raise (ValueError ("dict contains fields not in fieldnames: "
                         ++ join ", " (map (fun k => "'" ++ k ++ "'") wrong_fields)))
  end.

Section Exporter.
Context `{Runtime}.

(** The text of one cell as [csv.writer] prints it when no quoting is
    needed: [None] and the empty string give an empty cell. *)
Definition cell_text (v : pyval) : string :=
  match v with
  | VNone => ""
  | VStr s => s
  | _ => py_str v
  end.

(** Lines 240-250: the header is the names of the columns, and each
    row the texts of the values [dict_to_list] gives. *)
Definition export_csv (trades : list dict) (filename : string) : M world unit :=
  let filename := filename ++ ".csv" in
  write_file filename (CsvRows []) ;;
  append_row filename fieldnames ;;
  for_each trades (fun trade =>
    row <- lift (dict_to_list fieldnames trade) ;;
    append_row filename (map cell_text row)) ;;
  print ("📁 Exported " ++ dec (List.length trades) ++ " trades to " ++ filename).

(** Lines 252-256. *)
Definition export_json (trades : list dict) (filename : string) : M world unit :=
  let filename := filename ++ ".json" in
  write_file filename (JsonDump trades) ;;
  print ("📁 Exported " ++ dec (List.length trades) ++ " trades to " ++ filename).

(** [export_trades], lines 230-259. *)
Definition export_trades (trades : list dict) (format_type : string)
    (filename : option string) : M world unit :=
  match trades with
  | [] => print "📭 No trades to export."
  | first :: _ =>
      filename <- match filename with
                  | Some f => ret f
                  | None =>
                      timestamp <- now_stamp ;;
                      pair <- lift (getitem first "pair") ;;
                      ret ("ml_trades_" ++ py_str pair ++ "_" ++ timestamp)
                  end ;;
      if String.eqb (lower format_type) "csv" then export_csv trades filename
      else if String.eqb (lower format_type) "json" then export_json trades filename
      else print ("❌ Unsupported export format: " ++ format_type)
  end.
End Exporter.

(* ================================================================== *)
(** ** Reading a report *)

Fixpoint strings (l : list pyval) : list string :=
  match l with
  | [] => []
  | VStr s :: l' => s :: strings l'
  | _ :: l' => strings l'
  end.

(** The list of messages under key [k] of a report. *)
Definition report_list (k : string) (report : dict) : list string :=
  match dict_get k report with
  | Some (VList l) => strings l
  | _ => []
  end.

Definition report_errors : dict -> list string := report_list "errors".
Definition report_warnings : dict -> list string := report_list "warnings".

(** How many messages of [l] satisfy [f]. *)
Definition count_if (f : string -> bool) (l : list string) : nat :=
  List.length (filter f l).

(** [enumerate(l, start)] as a list of pairs. *)
Fixpoint enumerate {A} (start : nat) (l : list A) : list (nat * A) :=
  match l with
  | [] => []
  | x :: l' => (start, x) :: enumerate (S start) l'
  end.

(** What one computation on the two lists does when they start empty. *)
Definition outcome {A} (m : M findings A) : result A := fst (m ([], [])).
Definition errs {A} (m : M findings A) : list string := fst (snd (m ([], []))).
Definition warns {A} (m : M findings A) : list string := snd (snd (m ([], []))).

(** A computation that only appends to the two lists and does not
    look at them. *)
Definition appends {A} (m : M findings A) : Prop :=
  forall E W, m (E, W) = (outcome m, ((E ++ errs m)%list, (W ++ warns m)%list)).

Fixpoint digits_only (s : string) : bool :=
  match s with
  | EmptyString => true
  | String c s' =>
      match digit_of c with
      | Some _ => digits_only s'
      | None => false
      end
  end.

(** [s] does not begin with a decimal digit. *)
Definition no_leading_digit (s : string) : bool :=
  match s with
  | EmptyString => true
  | String c _ => match digit_of c with Some _ => false | None => true end
  end.

(** The messages of record [i] that carry one of the given texts right
    after the position. *)
Definition tagged (i : nat) (tags : list string) (m : string) : Prop :=
  exists tag rest, In tag tags /\ m = trade_msg i (tag ++ rest).

(** A test that accepts only messages of record [i] beginning with [T]. *)
Definition selects (f : string -> bool) (i : nat) (T : string) : Prop :=
  forall m, f m = true -> exists rest, m = trade_msg i (T ++ rest).

(** Two texts of which neither can be continued into the other. *)
Definition apart (a b : string) : Prop := forall r r', a ++ r <> b ++ r'.

(* ================================================================== *)
(** ** Integers as binary64 floats *)

(** The float of the non-zero integer [+n] or [-n] when it has at most
    53 bits: the mantissa is [n] shifted to 53 bits. *)
Definition canon (sg : bool) (n : positive) : spec_float :=
  S754_finite sg (Z.to_pos (Zpos n * 2 ^ (53 - Zpos (digits2_pos n))))
              (Zpos (digits2_pos n) - 53).

(** The integer with sign bit [sg] and magnitude [n]. *)
Definition signed (sg : bool) (n : positive) : Z := if sg then Zneg n else Zpos n.

(* ================================================================== *)
(** ** The texts of the messages *)

Definition error_tags : list string :=
  ["Missing required field '"; "Invalid entry_price ("; "Invalid exit_price (";
   "Invalid pnl type ("; "Exit time before or equal to entry time";
   "Invalid datetime format: "].

Definition warning_tags : list string :=
  ["Negative duration ("; "Trend strength out of range (";
   "Negative volatility ("; "Unknown market regime ("; "Duration mismatch ("].

Definition missing_msg (i : nat) (field : string) : string :=
  trade_msg i ("Missing required field '" ++ field ++ "'").

Definition exit_msg (i : nat) : string :=
  trade_msg i "Exit time before or equal to entry time".

Definition mismatch_msg `{Runtime} (i : nat) (calculated : spec_float) (stored : pyval) : string :=
  trade_msg i ("Duration mismatch (calculated: " ++ format_0f calculated
               ++ "s, stored: " ++ py_str stored ++ "s)").

(* ================================================================== *)
(** ** Records on which the validator returns *)







(* ================================================================== *)
(** ** Failures of a fetch, and the three operations together *)

(** The ways a fetch can fail: no response, a 4xx or 5xx status, a body
    that is not JSON, or a JSON object whose [success] is false. *)
Inductive transport_failure : http_outcome -> Prop :=
| network_failure (msg : string) :
    transport_failure (Failed (ConnectionError msg))
| error_status (r : response) :
    400 <= status_code r < 600 -> transport_failure (Responded r)
| malformed_json (r : response) (e : exn) :
    json r = Raise e -> is_JSONDecodeError e = true -> transport_failure (Responded r)
| success_false (r : response) (d : dict) :
    json r = Ok (VDict d) -> dict_get "success" d = Some (VBool false) ->
    transport_failure (Responded r).

(** The world after one request was sent and one line printed. *)
Definition after_failed_fetch (w : world) (req : request) (line : string) : world :=
  mkworld (stdout w ++ [line])%list (sent w ++ [req])%list (server w) (files w) (clock w)
          (writable w).

(** The three operations of the client, to speak of them together. *)
Inductive operation : Type :=
| GetTrades (pair : string) (limit : Z)
| GetStats (pair : string)
| GetStatus.

Definition run_operation `{Runtime} (self : MLTradeQuery) (op : operation) : M world pyval :=
  match op with
  | GetTrades p limit => get_ml_trades self p limit
  | GetStats p => get_ml_stats self p
  | GetStatus => get_ml_status self
  end.

(** The request an operation sends. *)
Definition request_of (self : MLTradeQuery) (op : operation) : request :=
  match op with
  | GetTrades p limit =>
      mkrequest (database_url self ++ "/ml/trades/" ++ p) [("limit", VInt limit)] None
  | GetStats p => mkrequest (database_url self ++ "/ml/stats/" ++ p) [] None
  | GetStatus => mkrequest (database_url self ++ "/ml/status") [] None
  end.

(** What an operation returns when it has no data. *)
Definition empty_result (op : operation) : pyval :=
  match op with
  | GetTrades _ _ => VList []
  | _ => VNone
  end.

(* ================================================================== *)
(** ** The rows of the CSV file *)

(** The row of a record: for each column in turn its value, or the
    empty string when the record has no such key. *)
Definition csv_row (t : dict) : list pyval :=
  map (fun key => get_default t key (VStr "")) fieldnames.

(** The cells of the row of a record, as they are written. *)
Definition csv_cells `{Runtime} (t : dict) : list string := map cell_text (csv_row t).

(** Every key of the record is one of the columns. *)
Definition known_fields (t : dict) : bool :=
  forallb (fun k => mem_string k fieldnames) (keys t).

(** The file name without its extension (lines 236-238). *)
Definition export_name `{Runtime} (first : dict) (filename : option string) (w : world) : string :=
  match filename with
  | Some f => f
  | None => "ml_trades_" ++ py_str (get_default first "pair" VNone) ++ "_" ++ clock w
  end.

(* ================================================================== *)
(** ** Concrete inputs *)

Definition trade_without_pair : dict := delitem sample_trade "pair".
Definition trade_boolean_pnl : dict := setitem sample_trade "pnl" (VBool true).
Definition trade_exit_equals_entry : dict :=
  setitem sample_trade "exit_time" (VStr "2024-01-01T00:00:00Z").
Definition trade_malformed_time : dict := setitem sample_trade "exit_time" (VStr "yesterday").
Definition trade_extra_field : dict := (sample_trade ++ [("note", VStr "manual")])%list.

(** An entry time that does not parse, and no exit time. *)
Definition trade_unmatched_time : dict :=
  delitem (setitem sample_trade "entry_time" (VStr "garbage")) "exit_time".



(** Two seconds between entry and exit, and a stored duration of
    0.9999999999999999 (the float just below 1): the two differ by
    more than one second, by 2^-53. *)
Definition just_below_one : spec_float := S754_finite false 9007199254740991 (-53).
Definition trade_rounding : dict :=
  setitem (setitem sample_trade "exit_time" (VStr "2024-01-01T00:00:02Z"))
          "duration_seconds" (VFloat just_below_one).

(** A stored duration too large for a float. *)
Definition trade_huge_duration : dict :=
  setitem sample_trade "duration_seconds" (VInt (10 ^ 400)).

(** A server that refuses every connection. *)
Definition unreachable : world :=
  mkworld [] [] (fun _ _ => Failed (ConnectionError "connection refused")) [] "20240101_000000"
    (fun _ => true).

(** [s] has a [/]. *)
Fixpoint has_slash (s : string) : bool :=
  match s with
  | EmptyString => false
  | String c s' => Ascii.eqb c "/"%char || has_slash s'
  end.

(** The same, in a working directory without subdirectories: a path
    with a [/] cannot be opened. *)
Definition flat_directory : world :=
  mkworld [] [] (fun _ _ => Failed (ConnectionError "connection refused")) [] "20240101_000000"
    (fun name => negb (has_slash name)).

(** A record whose pair has a [/]. *)
Definition trade_slash_pair : dict := setitem sample_trade "pair" (VStr "SOL/USDC").

(** A server that answers 300 Multiple Choices with a well-formed body. *)
Definition answers_300 : world :=
  mkworld [] []
    (fun _ _ => Responded (mkresponse 300 "Multiple Choices"
       (Ok (VDict [("success", VBool true); ("data", VList [VDict sample_trade])]))))
    [] "20240101_000000" (fun _ => true).

(** Modelled from the claim: [|delta - stored| > 1] second in exact
    arithmetic, for a time difference [delta] in microseconds and a
    stored number of seconds. *)
Definition exact_gap_exceeds_one (delta : timedelta) (stored : pyval) : option bool :=
  match stored with
  | VBool b => Some (1000000 <? Z.abs (delta - Z.b2z b * 1000000))
  | VInt z => Some (1000000 <? Z.abs (delta - z * 1000000))
  | VFloat (S754_zero _) => Some (1000000 <? Z.abs delta)
  | VFloat (S754_finite s m e) =>
      let v := cond_Zopp s (Zpos m) in
      Some (match e with
            | Zneg k => 1000000 * 2 ^ Zpos k <? Z.abs (delta * 2 ^ Zpos k - v * 1000000)
            | _ => 1000000 <? Z.abs (delta - v * 2 ^ e * 1000000)
            end)
  | _ => None
  end.

(* ================================================================== *)
(** ** Further definitions *)

(** [0 <= v <= 1], the chained comparison of line 195. *)
Definition in_unit_interval (v : pyval) : result bool :=
  match py_int_le 0 v with
  | Ok true => py_le_int v 1
  | Ok false => Ok false
  | Raise e => Raise e
  end.

(** A record that gives no error: the thirteen fields are present, the
    two prices are not [<= 0], pnl is a number, and the two timestamps
    are strings that parse, the exit strictly after the entry. *)
Definition error_free `{Runtime} (t : dict) : Prop :=
  (forall field, In field required_fields -> contains field t = true) /\
  (exists v, dict_get "entry_price" t = Some v /\ py_le_int v 0 = Ok false) /\
  (exists v, dict_get "exit_price" t = Some v /\ py_le_int v 0 = Ok false) /\
  (exists v, dict_get "pnl" t = Some v /\ isinstance_int_float v = true) /\
  (exists s_in s_out entry exit,
     dict_get "entry_time" t = Some (VStr s_in) /\
     dict_get "exit_time" t = Some (VStr s_out) /\
     fromisoformat (replace_Z s_in) = inr entry /\
     fromisoformat (replace_Z s_out) = inr exit /\
     datetime_le exit entry = Ok false).

Definition is_false (r : result bool) : bool :=
  match r with Ok false => true | _ => false end.

Definition is_true (r : result bool) : bool :=
  match r with Ok true => true | _ => false end.

(** [test] holds of the value under key [k], which is present. *)
Definition field_passes (k : string) (t : dict) (test : pyval -> bool) : bool :=
  match dict_get k t with
  | Some v => test v
  | None => false
  end.

(** The two timestamps are strings that parse, [exit_time <= entry_time]
    is false, and the computed duration is within one second of the
    stored one. *)
Definition times_agree `{Runtime} (t : dict) : bool :=
  match dict_get "entry_time" t, dict_get "exit_time" t, dict_get "duration_seconds" t with
  | Some (VStr s_in), Some (VStr s_out), Some stored =>
      match fromisoformat (replace_Z s_in), fromisoformat (replace_Z s_out) with
      | inr entry, inr exit =>
          is_false (datetime_le exit entry) &&
          match datetime_sub exit entry with
          | Ok delta =>
              match float_sub (total_seconds delta) stored with
              | Ok diff => negb (cmp_gt (float_cmp_int (SFabs diff) 1))
              | Raise _ => false
              end
          | Raise _ => false
          end
      | _, _ => false
      end
  | _, _, _ => false
  end.

(** A record that satisfies every rule of the validator. *)
Definition clean `{Runtime} (t : dict) : bool :=
  forallb (fun field => contains field t) required_fields &&
  field_passes "entry_price" t (fun v => is_false (py_le_int v 0)) &&
  field_passes "exit_price" t (fun v => is_false (py_le_int v 0)) &&
  field_passes "pnl" t isinstance_int_float &&
  field_passes "duration_seconds" t (fun v => is_false (py_lt_int v 0)) &&
  field_passes "trend_strength" t (fun v => is_true (in_unit_interval v)) &&
  field_passes "volatility" t (fun v => is_false (py_lt_int v 0)) &&
  field_passes "market_regime" t (fun v => in_strings v valid_regimes) &&
  times_agree t.

Definition trade_zero_price : dict := setitem sample_trade "entry_price" (VInt 0).
Definition one_and_a_half : spec_float := S754_finite false 6755399441055744 (-52).
Definition trade_trend_out_of_range : dict :=
  setitem sample_trade "trend_strength" (VFloat one_and_a_half).
Definition trade_unknown_regime : dict :=
  setitem sample_trade "market_regime" (VStr "Sideways").
Definition trade_string_pnl : dict := setitem sample_trade "pnl" (VStr "0.1").

(** The world after one request was sent and nothing printed. *)
Definition after_fetch (w : world) (req : request) : world :=
  mkworld (stdout w) (sent w ++ [req])%list (server w) (files w) (clock w) (writable w).

(** [n] times the character [/]. *)
Fixpoint slashes (n : nat) : string :=
  match n with
  | O => ""
  | S n' => String "/"%char (slashes n')
  end.

(** A server that answers 200 with the record of the specification. *)
Definition answers_200 : world :=
  mkworld [] []
    (fun _ _ => Responded (mkresponse 200 "OK"
       (Ok (VDict [("success", VBool true); ("data", VList [VDict sample_trade])]))))
    [] "20240101_000000" (fun _ => true).

(** A server that answers 200 with a body that is a JSON list. *)
Definition answers_list : world :=
  mkworld [] []
    (fun _ _ => Responded (mkresponse 200 "OK" (Ok (VList [VDict sample_trade]))))
    [] "20240101_000000" (fun _ => true).

(** The world after one line was printed. *)
Definition after_print (w : world) (line : string) : world :=
  mkworld (stdout w ++ [line])%list (sent w) (server w) (files w) (clock w) (writable w).

(** The world after file [name] was opened for writing and left with
    content [c]. *)
Definition after_write (w : world) (name : string) (c : file_content) : world :=
  mkworld (stdout w) (sent w) (server w) (file_put name c (files w)) (clock w) (writable w).

(** From [w] to [w'] nothing was sent and no file other than [name]
    changed. *)
Definition only_file_changed (name : string) (w w' : world) : Prop :=
  sent w' = sent w /\
  forall other, other <> name -> file_get other (files w') = file_get other (files w).

Definition touches_only {A} (name : string) (m : M world A) : Prop :=
  forall w, only_file_changed name w (snd (m w)).

(** The record of the specification with one more key, after a record
    that has the columns only. *)
Definition trades_second_extra : list dict := [sample_trade; trade_extra_field; sample_trade].

(* ================================================================== *)
(** ** The presenter *)

(** A computation that returns or raises and has no state. *)
Definition result_bind {A B} (r : result A) (k : A -> result B) : result B :=
  match r with
  | Ok a => k a
  | Raise e => Raise e
  end.

Notation "x <~ r ;; k" := (result_bind r (fun x => k))
  (at level 61, r at next level, right associativity).

(** The line feed. *)
Definition nl : string := String (ascii_of_nat 10) "".

(** [s * n] on a string. *)
Fixpoint repeat_string (s : string) (n : nat) : string :=
  match n with
  | O => ""
  | S n' => s ++ repeat_string s n'
  end.

(** [l * n] on a list. *)
Fixpoint repeat_list {A} (l : list A) (n : nat) : list A :=
  match n with
  | O => []
  | S n' => (l ++ repeat_list l n')%list
  end.

(** A text is held as its UTF-8 bytes; its characters are the code
    points: a byte [10xxxxxx] continues the character before it. *)
Definition is_continuation (c : ascii) : bool :=
  let n := nat_of_ascii c in (Nat.leb 128 n && Nat.ltb n 192)%bool.

(** The continuation bytes at the head of [s], and the characters of
    the rest. *)
Fixpoint split_points (s : string) : string * list string :=
  match s with
  | EmptyString => (EmptyString, [])
  | String c s' =>
      let (pending, points) := split_points s' in
      if is_continuation c then (String c pending, points)
      else (EmptyString, String c pending :: points)
  end.

Definition code_points (s : string) : list string :=
  match split_points s with
  | (EmptyString, points) => points
  | (pending, points) => pending :: points
  end.

(** [len(v)]. *)
Definition py_len (v : pyval) : result nat :=
  match v with
  | VStr s => Ok (List.length (code_points s))
  | VList l => Ok (List.length l)
  | VDict d => Ok (List.length d)
  | _ => Raise TypeError
  end.

(** The items [for x in v] goes through: the elements of a list, the
    keys of a dictionary, the characters of a string. *)
Definition py_iter (v : pyval) : result (list pyval) :=
  match v with
  | VStr s => Ok (map VStr (code_points s))
  | VList l => Ok l
  | VDict d => Ok (map VStr (keys d))
  | _ => Raise TypeError
  end.

(** [v * k] for an integer literal [k]: a product of numbers, or the
    repetition of a string or of a list. *)
Definition py_mul_int (v : pyval) (k : Z) : result pyval :=
  match v with
  | VBool b => Ok (VInt (Z.b2z b * k))
  | VInt z => Ok (VInt (z * k))
  | VFloat f => Ok (VFloat (SFmul 53 1024 f (float_of_Z k)))
  | VStr s => Ok (VStr (repeat_string s (Z.to_nat k)))
  | VList l => Ok (VList (repeat_list l (Z.to_nat k)))
  | _ => Raise TypeError
  end.

(** [a / b] on two integers, [b] not zero: the correctly rounded
    quotient, [OverflowError] when it is out of the float range. *)
Definition int_truediv (a b : Z) : result spec_float :=
  match SFdiv 53 1024 (raw_float a) (raw_float b) with
  | S754_infinity _ => Raise OverflowError
  | f => Ok f
  end.

(** [v / k] for a non-zero integer literal [k]. *)
Definition py_truediv_int (v : pyval) (k : Z) : result spec_float :=
  match v with
  | VBool b => int_truediv (Z.b2z b) k
  | VInt z => int_truediv z k
  | VFloat f => Ok (SFdiv 53 1024 f (float_of_Z k))
  | _ => Raise TypeError
  end.

(** The functions of the Python runtime the presenter prints with:
    - [format_f plus digits x] is the text of [{x:.<digits>f}], or of
      [{x:+.<digits>f}] when [plus] holds, for a float [x];
    - [strftime d] is [d.strftime('%Y-%m-%d %H:%M:%S')]. *)
Class Formatting : Type := {
  format_f : bool -> nat -> spec_float -> string;
  strftime : datetime -> string
}.

(** [{i:2d}] for a position [i]. *)
Definition format_2d (i : nat) : string :=
  if Nat.ltb i 10 then " " ++ dec i else dec i.

Section Presenter.
Context `{Runtime} `{Formatting}.

(** [{v:.<digits>f}] and [{v:+.<digits>f}]: an [int] or a [bool] is
    converted to [float] first; [str] does not know the format code
    and the other types take no format at all. *)
Definition format_number (plus : bool) (digits : nat) (v : pyval) : result string :=
  match v with
  | VBool b => x <~ float_of_int (Z.b2z b) ;; Ok (format_f plus digits x)
  | VInt z => x <~ float_of_int z ;; Ok (format_f plus digits x)
  | VFloat x => Ok (format_f plus digits x)
  | VStr _ => Raise (ValueError "Unknown format code 'f' for object of type 'str'")
  | _ => Raise TypeError
  end.

(** [datetime.fromisoformat(trade[k].replace('Z', '+00:00'))]. *)
Definition read_time (trade : pyval) (k : string) : result datetime :=
  raw <~ py_getitem trade k ;;
  text <~ py_replace_Z raw ;;
  parse_datetime text.

(** [{data[k] * 100:.<digits>f}%]. *)
Definition percent (plus : bool) (digits : nat) (data : pyval) (k : string) : result string :=
  v <~ py_getitem data k ;;
  x <~ py_mul_int v 100 ;;
  text <~ format_number plus digits x ;;
  Ok (text ++ "%").

(** [format_trade], lines 102-124. *)
Definition format_trade (trade : pyval) : result string :=
  entry_time <~ read_time trade "entry_time" ;;
  exit_time <~ read_time trade "exit_time" ;;
  created_at <~ read_time trade "created_at" ;;
  pnl <~ py_getitem trade "pnl" ;;
  pnl_percent <~ py_mul_int pnl 100 ;;
  duration <~ py_getitem trade "duration_seconds" ;;
  duration_minutes <~ py_truediv_int duration 60 ;;
  success <~ py_getitem trade "success" ;;
  let status_emoji := if truthy success then "✅" else "❌" in
  pnl <~ py_getitem trade "pnl" ;;
  gain <~ py_gt_int pnl 0 ;;
  pnl_emoji <~ (if gain then Ok "💰"
                else
                  pnl <~ py_getitem trade "pnl" ;;
                  loss <~ py_lt_int pnl 0 ;;
                  Ok (if loss then "💸" else "➡️")) ;;
  pair <~ py_getitem trade "pair" ;;
  entry_price <~ py_getitem trade "entry_price" ;;
  entry_text <~ format_number false 4 entry_price ;;
  exit_price <~ py_getitem trade "exit_price" ;;
  exit_text <~ format_number false 4 exit_price ;;
  pnl_text <~ format_number true 2 pnl_percent ;;
  market_regime <~ py_getitem trade "market_regime" ;;
  trend_strength <~ py_getitem trade "trend_strength" ;;
  trend_text <~ format_number false 3 trend_strength ;;
  volatility <~ py_getitem trade "volatility" ;;
  volatility_text <~ format_number false 3 volatility ;;
  Ok (status_emoji ++ " " ++ pnl_emoji ++ " " ++ py_str pair ++ " | "
      ++ "Entry: $" ++ entry_text ++ " | "
      ++ "Exit: $" ++ exit_text ++ " | "
      ++ "PnL: " ++ pnl_text ++ "% | "
      ++ "Duration: " ++ format_f false 1 duration_minutes ++ "m | "
      ++ "Regime: " ++ py_str market_regime ++ " | "
      ++ "Trend: " ++ trend_text ++ " | "
      ++ "Vol: " ++ volatility_text ++ " | "
      ++ "Time: " ++ strftime entry_time).

(** The three lines of the details of one record (lines 138-141). *)
Definition display_details (trade : pyval) : M world unit :=
  id <- lift (py_getitem trade "id") ;;
  print ("    ID: " ++ py_str id) ;;
  created <- lift (read_time trade "created_at") ;;
  print ("    Created: " ++ strftime created) ;;
  print "".

(** The body of the loop of [display_trades], lines 136-141. *)
Definition display_item (show_details : bool) (i : nat) (trade : pyval) : M world unit :=
  text <- lift (format_trade trade) ;;
  print (format_2d i ++ ". " ++ text) ;;
  when show_details (display_details trade).

(** [display_trades], lines 126-141. *)
Definition display_trades (trades : pyval) (show_details : bool) : M world unit :=
  if negb (truthy trades) then print "📭 No ML trades found for this pair."
  else
    n <- lift (py_len trades) ;;
    print (nl ++ "🤖 ML Trade History (" ++ dec n ++ " trades):") ;;
    print (repeat_string "=" 120) ;;
    items <- lift (py_iter trades) ;;
    for_enumerate 1 items (display_item show_details).

(** [display_stats], lines 143-151. *)
Definition display_stats (stats : pyval) : M world unit :=
  print (nl ++ "📊 ML Trade Statistics:") ;;
  print (repeat_string "=" 50) ;;
  total <- lift (py_getitem stats "total_trades") ;;
  print ("Total Trades: " ++ py_str total) ;;
  win_rate <- lift (percent false 1 stats "win_rate") ;;
  print ("Win Rate: " ++ win_rate) ;;
  avg_pnl <- lift (percent true 2 stats "avg_pnl") ;;
  print ("Average PnL: " ++ avg_pnl) ;;
  avg_win <- lift (percent true 2 stats "avg_win") ;;
  print ("Average Win: " ++ avg_win) ;;
  avg_loss <- lift (percent true 2 stats "avg_loss") ;;
  print ("Average Loss: " ++ avg_loss).

(** [display_ml_status], lines 153-162. *)
Definition display_ml_status (status : pyval) : M world unit :=
  print (nl ++ "🤖 ML System Status:") ;;
  print (repeat_string "=" 50) ;;
  enabled <- lift (py_getitem status "enabled") ;;
  print ("Enabled: " ++ (if truthy enabled then "✅" else "❌")) ;;
  min_confidence <- lift (percent false 1 status "min_confidence") ;;
  print ("Min Confidence: " ++ min_confidence) ;;
  max_position_size <- lift (percent false 1 status "max_position_size") ;;
  print ("Max Position Size: " ++ max_position_size) ;;
  total <- lift (py_getitem status "total_trades") ;;
  print ("Total Trades: " ++ py_str total) ;;
  win_rate <- lift (percent false 1 status "win_rate") ;;
  print ("Win Rate: " ++ win_rate) ;;
  avg_pnl <- lift (percent true 2 status "avg_pnl") ;;
  print ("Average PnL: " ++ avg_pnl).
End Presenter.

(* ================================================================== *)
(** ** A reference formatter

    An executable instance of [Formatting]: [fixed] prints a float
    with a fixed number of decimals, rounding the exact value half to
    even as the C library does; [strftime_seconds] prints the wall-clock
    fields of a [datetime], the year without padding as glibc prints
    [%Y]. *)

Definition fixed (plus : bool) (digits : nat) (f : spec_float) : string :=
  let sign (s : bool) := if s then "-" else if plus then "+" else "" in
  let scale := 10 ^ Z.of_nat digits in
  let text (n : Z) :=
    dec_Z (n / scale) ++
    match digits with
    | O => ""
    | _ => "." ++ zero_pad digits (dec_Z (n mod scale))
    end in
  match f with
  | S754_nan => sign false ++ "nan"
  | S754_infinity s => sign s ++ "inf"
  | S754_zero s => sign s ++ text 0
  | S754_finite s m e =>
      sign s ++
      match e with
      | Zneg k =>
          let q := (Zpos m * scale) / 2 ^ Zpos k in
          let r := (Zpos m * scale) mod 2 ^ Zpos k in
          let half := 2 ^ (Zpos k - 1) in
          text (if r <? half then q
                else if half <? r then q + 1
                else if Z.even q then q else q + 1)
      | _ => text (Zpos m * 2 ^ e * scale)
      end
  end.

(** The year of day [n] (counted from 0 at 0001-01-01) and the day in
    that year, from 0. *)
Definition year_of_day (n : Z) : Z * Z :=
  let n400 := n / 146097 in
  let r400 := n mod 146097 in
  let n100 := Z.min (r400 / 36524) 3 in
  let r100 := r400 - n100 * 36524 in
  let n4 := r100 / 1461 in
  let r4 := r100 mod 1461 in
  let n1 := Z.min (r4 / 365) 3 in
  (n400 * 400 + n100 * 100 + n4 * 4 + n1 + 1, r4 - n1 * 365).

(** The month (from 1) and the day in the month (from 1) of day [d]
    (from 0) of year [y]. *)
Fixpoint month_of_day (y : Z) (fuel : nat) (m : Z) (d : Z) : Z * Z :=
  match fuel with
  | O => (m, d + 1)
  | S fuel' =>
      if d <? days_in_month y m then (m, d + 1)
      else month_of_day y fuel' (m + 1) (d - days_in_month y m)
  end.

Definition two_digits (n : Z) : string := zero_pad 2 (dec_Z n).

Definition strftime_seconds (d : datetime) : string :=
  let seconds := wall_us d / 1000000 in
  let day := seconds / 86400 in
  let clock := seconds mod 86400 in
  let (y, yday) := year_of_day day in
  let (mo, md) := month_of_day y 11 1 yday in
  dec_Z y ++ "-" ++ two_digits mo ++ "-" ++ two_digits md ++ " "
  ++ two_digits (clock / 3600) ++ ":" ++ two_digits (clock mod 3600 / 60) ++ ":"
  ++ two_digits (clock mod 60).

#[export] Instance cpython_formatting : Formatting := {
  format_f := fixed;
  strftime := strftime_seconds
}.

(* ================================================================== *)
(** ** The command front-end: [main] *)

(** The two values [--export] accepts ([choices=["csv", "json"]]). *)
Inductive export_format : Type := ExportCsv | ExportJson.

Definition export_format_text (f : export_format) : string :=
  match f with
  | ExportCsv => "csv"
  | ExportJson => "json"
  end.

(** The namespace [parse_args] returns (lines 262-273). *)
Record Args : Type := mkArgs {
  args_pair : string;
  args_limit : Z;
  args_database_url : string;
  args_stats : bool;
  args_status : bool;
  args_verify : bool;
  args_details : bool;
  args_export : option export_format;
  args_output : option string
}.

(** The command line without options. *)
Definition default_args : Args :=
  mkArgs DEFAULT_PAIR 20 DEFAULT_DATABASE_URL false false false false None None.

(** How the process ends: [sys.exit(code)] or the end of [main]
    ([Exit 0]), or an exception nothing catches.  [Unmodelled] marks
    the one place where the model stops short of the source: [main]
    going on after [display_trades] with a value that is not a list of
    dictionaries, which is proved below not to happen. *)
Inductive termination : Type :=
| Exit (code : Z)
| Uncaught (e : exn)
| Unmodelled.

(** The exit status of the process: an uncaught exception gives 1. *)
Definition exit_status (t : termination) : option Z :=
  match t with
  | Exit code => Some code
  | Uncaught _ => Some 1
  | Unmodelled => None
  end.

(** A list of dictionaries, as [verify_trade_data] and [export_trades]
    take it. *)
Fixpoint dicts_of (l : list pyval) : option (list dict) :=
  match l with
  | [] => Some []
  | VDict d :: l' =>
      match dicts_of l' with
      | Some ds => Some (d :: ds)
      | None => None
      end
  | _ :: _ => None
  end.

Definition records_of (v : pyval) : option (list dict) :=
  match v with
  | VList l => dicts_of l
  | _ => None
  end.

Section FrontEnd.
Context `{Runtime} `{Formatting}.

(** Lines 292-295. *)
Definition show_stats (client : MLTradeQuery) (args : Args) : M world unit :=
  when (args_stats args)
    (stats <- get_ml_stats client (args_pair args) ;;
     when (truthy stats) (display_stats stats)).

(** Lines 298-301. *)
Definition show_status (client : MLTradeQuery) (args : Args) : M world unit :=
  when (args_status args)
    (status <- get_ml_status client ;;
     when (truthy status) (display_ml_status status)).

(** [for x in items: print(f"   • {x}")]. *)
Definition print_bullets (items : pyval) : M world unit :=
  l <- lift (py_iter items) ;;
  for_each l (fun x => print ("   • " ++ py_str x)).

(** Lines 304-323. *)
Definition show_verification (trades : list dict) (args : Args) : M world unit :=
  when (args_verify args)
    (print (nl ++ "🔍 Verifying trade data integrity...") ;;
     verification <- lift (verify_trade_data trades) ;;
     valid <- lift (getitem verification "valid") ;;
     (if truthy valid then print "✅ All trade data is valid!"
      else
        print "❌ Data validation errors found:" ;;
        errors <- lift (getitem verification "errors") ;;
        print_bullets errors) ;;
     warnings <- lift (getitem verification "warnings") ;;
     when (truthy warnings)
       (print (nl ++ "⚠️  Warnings:") ;;
        warnings <- lift (getitem verification "warnings") ;;
        print_bullets warnings) ;;
     print (nl ++ "📊 Verification Summary:") ;;
     total <- lift (getitem verification "total_trades") ;;
     print ("   Total trades checked: " ++ py_str total) ;;
     errors <- lift (getitem verification "errors") ;;
     n_errors <- lift (py_len errors) ;;
     print ("   Errors: " ++ dec n_errors) ;;
     warnings <- lift (getitem verification "warnings") ;;
     n_warnings <- lift (py_len warnings) ;;
     print ("   Warnings: " ++ dec n_warnings)).

(** Lines 326-327. *)
Definition run_export (trades : list dict) (args : Args) : M world unit :=
  match args_export args with
  | Some format => export_trades trades (export_format_text format) (args_output args)
  | None => ret tt
  end.

(** Lines 291-329, for the records [display_trades] has shown. *)
Definition after_display (client : MLTradeQuery) (args : Args) (trades : list dict)
  : M world unit :=
  show_stats client args ;;
  show_status client args ;;
  show_verification trades args ;;
  run_export trades args ;;
  print (nl ++ "✅ Query completed successfully!").

(** Lines 275-282. *)
Definition query_trades (client : MLTradeQuery) (args : Args) : M world pyval :=
  print ("🔍 Querying ML trades for " ++ args_pair args ++ "...") ;;
  print ("🌐 Database URL: " ++ args_database_url args) ;;
  get_ml_trades client (args_pair args) (args_limit args).

(** [main], lines 261-329, after [parse_args]. *)
Definition main (args : Args) (w : world) : termination * world :=
  let client := init (args_database_url args) in
  match query_trades client args w with
  | (Raise e, w1) => (Uncaught e, w1)
  | (Ok trades, w1) =>
      if negb (truthy trades) then
        (Exit 1, snd (print ("❌ No ML trades found for " ++ args_pair args) w1))
      else
        match display_trades trades (args_details args) w1 with
        | (Raise e, w2) => (Uncaught e, w2)
        | (Ok _, w2) =>
            match records_of trades with
            | None => (Unmodelled, w2)
            | Some records =>
                match after_display client args records w2 with
                | (Raise e, w3) => (Uncaught e, w3)
                | (Ok _, w3) => (Exit 0, w3)
                end
            end
        end
  end.
End FrontEnd.

(** A server that answers 200 to the request for the trades and fails
    afterwards. *)
Definition answers_once : world :=
  mkworld [] []
    (fun n _ =>
       match n with
       | O => Responded (mkresponse 200 "OK"
                (Ok (VDict [("success", VBool true); ("data", VList [VDict sample_trade])])))
       | _ => Failed (ConnectionError "connection refused")
       end)
    [] "20240101_000000" (fun _ => true).

(* ================================================================== *)
(** ** Records the presenter can print *)

(** A number [{v:.<n>f}] can print: an [int] within the float range, a
    [bool] or a [float]. *)
Definition formattable (v : pyval) : bool :=
  match v with
  | VBool _ | VFloat _ => true
  | VInt z => is_ok (float_of_int z)
  | _ => false
  end.

(** A number [{v * 100:.<n>f}] can print. *)
Definition percentable (v : pyval) : bool :=
  match v with
  | VBool _ | VFloat _ => true
  | VInt z => is_ok (float_of_int (z * 100))
  | _ => false
  end.

(** A number [v / 60] is defined on. *)
Definition dividable (v : pyval) : bool :=
  match v with
  | VBool _ | VFloat _ => true
  | VInt z => is_ok (int_truediv z 60)
  | _ => false
  end.

(** The value under [k] is a string that parses as a timestamp. *)
Definition parses `{Runtime} (k : string) (t : dict) : bool :=
  match dict_get k t with
  | Some (VStr s) =>
      match fromisoformat (replace_Z s) with
      | inr _ => true
      | inl _ => false
      end
  | _ => false
  end.

(** What [format_trade] needs of a record. *)
Definition displayable `{Runtime} (t : dict) : bool :=
  parses "entry_time" t && parses "exit_time" t && parses "created_at" t &&
  field_passes "pnl" t percentable &&
  field_passes "duration_seconds" t dividable &&
  contains "success" t && contains "pair" t &&
  field_passes "entry_price" t formattable &&
  field_passes "exit_price" t formattable &&
  contains "market_regime" t &&
  field_passes "trend_strength" t formattable &&
  field_passes "volatility" t formattable.

(** What [display_trades] needs of a record: with the details, [id]
    as well. *)
Definition showable `{Runtime} (show_details : bool) (t : dict) : bool :=
  displayable t && (negb show_details || contains "id" t).

(** The world after the given lines were printed. *)
Definition after_lines (w : world) (lines : list string) : world :=
  mkworld (stdout w ++ lines)%list (sent w) (server w) (files w) (clock w) (writable w).

(** A computation that does nothing to the world but print. *)
Definition prints_only {A} (m : M world A) : Prop :=
  forall w, exists lines, snd (m w) = after_lines w lines.

(** What [display_trades] needs of an item of the list. *)
Definition item_ok `{Runtime} (show_details : bool) (trade : pyval) : bool :=
  match trade with
  | VDict t => showable show_details t
  | _ => false
  end.

(** The lines [display_trades] prints for one record. *)
Definition lines_per_trade (show_details : bool) : nat :=
  if show_details then 4%nat else 1%nat.

(** What [display_stats] needs of the statistics. *)
Definition stats_ok (stats : pyval) : bool :=
  match stats with
  | VDict t =>
      contains "total_trades" t &&
      field_passes "win_rate" t percentable &&
      field_passes "avg_pnl" t percentable &&
      field_passes "avg_win" t percentable &&
      field_passes "avg_loss" t percentable
  | _ => false
  end.

(** What [display_ml_status] needs of the status. *)
Definition status_ok (status : pyval) : bool :=
  match status with
  | VDict t =>
      contains "enabled" t &&
      field_passes "min_confidence" t percentable &&
      field_passes "max_position_size" t percentable &&
      contains "total_trades" t &&
      field_passes "win_rate" t percentable &&
      field_passes "avg_pnl" t percentable
  | _ => false
  end.

(** The request [main] sends for the trades. *)
Definition trades_request (args : Args) : request :=
  request_of (init (args_database_url args)) (GetTrades (args_pair args) (args_limit args)).

(** The requests [main] sends when nothing stops it: the trades, then
    the statistics with [--stats], then the status with [--status]. *)
Definition requests_of (args : Args) : list request :=
  trades_request args
  :: ((if args_stats args
       then [request_of (init (args_database_url args)) (GetStats (args_pair args))]
       else [])
      ++ (if args_status args
          then [request_of (init (args_database_url args)) GetStatus]
          else []))%list.

(** The two lines [main] begins with. *)
Definition opening_lines (args : Args) : list string :=
  ["🔍 Querying ML trades for " ++ args_pair args ++ "...";
   "🌐 Database URL: " ++ args_database_url args].

(** One line of a list [main] prints. *)
Definition bullet `{Runtime} (m : string) : string := "   • " ++ py_str (VStr m).

(** What [--verify] prints for a report with the given number of
    records, errors and warnings. *)
Definition summary_lines `{Runtime} (n : nat) (errors warnings : list string) : list string :=
  let opening := [nl ++ "🔍 Verifying trade data integrity..."] in
  let errors_part :=
    match errors with
    | [] => ["✅ All trade data is valid!"]
    | _ => "❌ Data validation errors found:" :: map bullet errors
    end in
  let warnings_part :=
    match warnings with
    | [] => []
    | _ => (nl ++ "⚠️  Warnings:") :: map bullet warnings
    end in
  let counts :=
    [nl ++ "📊 Verification Summary:";
     "   Total trades checked: " ++ py_str (VInt (Z.of_nat n));
     "   Errors: " ++ dec (List.length errors);
     "   Warnings: " ++ dec (List.length warnings)] in
  (opening ++ errors_part ++ warnings_part ++ counts)%list.

(** The errors the validator can still report for records
    [display_trades] has printed. *)
Definition display_error_tags : list string :=
  ["Missing required field 'id'"; "Invalid entry_price ("; "Invalid exit_price (";
   "Exit time before or equal to entry time"].

(** A computation that sends the requests [reqs] in order, all of them
    when it returns and some of the first when it raises, and nothing
    else. *)
Definition sends {A} (m : M world A) (reqs : list request) : Prop :=
  forall w, exists n,
    (n <= List.length reqs)%nat /\
    sent (snd (m w)) = (sent w ++ firstn n reqs)%list /\
    (is_ok (fst (m w)) = true -> n = List.length reqs).

(** A computation that creates or changes no file. *)
Definition keeps_files {A} (m : M world A) : Prop :=
  forall w, files (snd (m w)) = files w.

(** The command line [--verify]. *)
Definition verify_args : Args :=
  mkArgs DEFAULT_PAIR 20 DEFAULT_DATABASE_URL false false true false None None.

(* ================================================================== *)
(** * Properties *)

(** ** Strings and message texts *)

Lemma string_app_assoc (a b c : string) : (a ++ b) ++ c = a ++ (b ++ c).
Proof. induction a as [|x a IH]; simpl; [reflexivity | now rewrite IH]. Qed.

Lemma string_app_inv_head (p a b : string) : p ++ a = p ++ b -> a = b.
Proof.
  induction p as [|x p IH]; simpl; intros E; [exact E|].
  injection E as E. auto.
Qed.

Lemma prefix_app (p r : string) : String.prefix p (p ++ r) = true.
Proof.
  induction p as [|x p IH]; simpl.
  - now destruct r.
  - destruct (ascii_dec x x); [exact IH | congruence].
Qed.

Lemma prefix_inv (p s : string) : String.prefix p s = true -> exists r, s = p ++ r.
Proof.
  revert s. induction p as [|x p IH]; intros s E.
  - exists s. reflexivity.
  - destruct s as [|y s]; simpl in E; [discriminate|].
    destruct (ascii_dec x y) as [->|]; [|discriminate].
    destruct (IH _ E) as [r ->]. exists r. reflexivity.
Qed.

Lemma string_of_uint_digits (d : uint) :
  digits_only (NilEmpty.string_of_uint d) = true.
Proof. induction d; simpl; auto. Qed.

Lemma dec_digits (n : nat) : digits_only (dec n) = true.
Proof. apply string_of_uint_digits. Qed.

Lemma dec_inj (n m : nat) : dec n = dec m -> n = m.
Proof.
  unfold dec. intros E. apply Unsigned.to_uint_inj.
  assert (Hs : Some (Nat.to_uint n) = Some (Nat.to_uint m)).
  { rewrite <- (NilEmpty.usu (Nat.to_uint n)), <- (NilEmpty.usu (Nat.to_uint m)).
    now rewrite E. }
  now injection Hs.
Qed.

(** A run of digits followed by something that is not a digit splits in
    one way only. *)
Lemma digits_split (u v x y : string) :
  digits_only u = true -> digits_only v = true ->
  no_leading_digit x = true -> no_leading_digit y = true ->
  x <> "" -> y <> "" ->
  u ++ x = v ++ y -> u = v /\ x = y.
Proof.
  revert v. induction u as [|a u IH]; intros v Hu Hv Hx Hy Nx Ny E.
  - destruct v as [|b v]; simpl in *; [auto|].
    destruct x as [|c x]; [congruence|]. injection E as -> _.
    simpl in Hx. destruct (digit_of b); discriminate.
  - destruct v as [|b v]; simpl in *.
    + destruct y as [|c y]; [congruence|]. injection E as <- _.
      simpl in Hy. destruct (digit_of a); discriminate.
    + injection E as -> E.
      destruct (digit_of b); [|discriminate].
      destruct (IH v Hu Hv Hx Hy Nx Ny E) as [-> ->]. auto.
Qed.

Lemma trade_msg_inj (i j : nat) (b b' : string) :
  trade_msg i b = trade_msg j b' -> i = j /\ b = b'.
Proof.
  unfold trade_msg. intros E.
  apply (string_app_inv_head "Trade ") in E.
  apply digits_split in E; try apply dec_digits; try reflexivity; try discriminate.
  destruct E as [E1 E2]. apply dec_inj in E1. injection E1 as ->.
  apply (string_app_inv_head ": ") in E2. auto.
Qed.

(** ** Counting messages *)

Lemma count_if_app (f : string -> bool) (l1 l2 : list string) :
  count_if f (l1 ++ l2)%list = (count_if f l1 + count_if f l2)%nat.
Proof. unfold count_if. now rewrite filter_app, length_app. Qed.

Lemma count_if_zero (f : string -> bool) (l : list string) :
  Forall (fun m => f m = false) l -> count_if f l = 0%nat.
Proof.
  unfold count_if. induction 1 as [|m l Hm _ IH]; simpl; [reflexivity|].
  now rewrite Hm.
Qed.

Lemma count_if_zero_inv (f : string -> bool) (l : list string) (m : string) :
  count_if f l = 0%nat -> In m l -> f m = false.
Proof.
  unfold count_if. induction l as [|x l IH]; simpl; intros E Hin; [contradiction|].
  destruct Hin as [->|Hin].
  - destruct (f m); [discriminate | reflexivity].
  - destruct (f x); [discriminate | auto].
Qed.

Lemma count_if_singleton (f : string -> bool) (m : string) :
  f m = true -> count_if f [m] = 1%nat.
Proof. unfold count_if. simpl. now intros ->. Qed.

Lemma trade_msg_app (i : nat) (a b : string) : trade_msg i (a ++ b) = trade_msg i a ++ b.
Proof. unfold trade_msg. now rewrite !string_app_assoc. Qed.

Lemma prefix_trade_msg (i : nat) (T rest : string) :
  String.prefix (trade_msg i T) (trade_msg i (T ++ rest)) = true.
Proof. rewrite trade_msg_app. apply prefix_app. Qed.

Lemma selects_prefix (i : nat) (T : string) :
  selects (String.prefix (trade_msg i T)) i T.
Proof.
  intros m E. apply prefix_inv in E. destruct E as [r ->]. exists r.
  unfold trade_msg. now rewrite !string_app_assoc.
Qed.


(** Messages of another record, or with texts apart from [T], are not
    selected. *)
Lemma count_if_tagged_other (f : string -> bool) (i j : nat) (T : string)
    (tags : list string) (l : list string) :
  selects f i T -> i <> j -> Forall (tagged j tags) l -> count_if f l = 0%nat.
Proof.
  intros Hf Hij Hl. apply count_if_zero. eapply Forall_impl; [|exact Hl].
  intros m (tag & rest & _ & ->).
  destruct (f _) eqn:E; [|reflexivity].
  apply Hf in E. destruct E as [r E]. apply trade_msg_inj in E.
  destruct E as [E _]. congruence.
Qed.

Lemma count_if_tagged_apart (f : string -> bool) (i : nat) (T : string)
    (tags : list string) (l : list string) :
  selects f i T -> Forall (fun tag => apart tag T) tags ->
  Forall (tagged i tags) l -> count_if f l = 0%nat.
Proof.
  intros Hf Ht Hl. apply count_if_zero. eapply Forall_impl; [|exact Hl].
  intros m (tag & rest & Hin & ->).
  destruct (f _) eqn:E; [|reflexivity].
  apply Hf in E. destruct E as [r E]. apply trade_msg_inj in E.
  destruct E as [_ E]. rewrite Forall_forall in Ht. elim (Ht _ Hin _ _ E).
Qed.

(** ** Binary64 arithmetic on integers *)

Lemma digits2_pos_bounds (p : positive) :
  2 ^ (Zpos (digits2_pos p) - 1) <= Zpos p < 2 ^ Zpos (digits2_pos p).
Proof.
  induction p as [p IH|p IH|]; simpl digits2_pos.
  - rewrite Pos2Z.inj_succ.
    replace (Z.succ (Zpos (digits2_pos p)) - 1) with (Z.succ (Zpos (digits2_pos p) - 1)) by lia.
    rewrite !Z.pow_succ_r by lia. lia.
  - rewrite Pos2Z.inj_succ.
    replace (Z.succ (Zpos (digits2_pos p)) - 1) with (Z.succ (Zpos (digits2_pos p) - 1)) by lia.
    rewrite !Z.pow_succ_r by lia. lia.
  - simpl. lia.
Qed.

Lemma digits2_pos_unique (p : positive) (d : Z) :
  2 ^ (d - 1) <= Zpos p < 2 ^ d -> Zpos (digits2_pos p) = d.
Proof.
  intros [Hlo Hhi]. destruct (digits2_pos_bounds p) as [Blo Bhi].
  assert (0 < d).
  { destruct (Z.lt_trichotomy d 0) as [Hd|[Hd|Hd]]; try lia.
    - rewrite Z.pow_neg_r in Hhi by lia. lia.
    - subst. simpl in Hhi. lia. }
  assert (d - 1 < Zpos (digits2_pos p)).
  { apply (Z.pow_lt_mono_r_iff 2); lia. }
  assert (Zpos (digits2_pos p) - 1 < d).
  { apply (Z.pow_lt_mono_r_iff 2); lia. }
  lia.
Qed.

Lemma digits2_pos_shift (n q : positive) (s : Z) :
  0 <= s -> Zpos q = Zpos n * 2 ^ s ->
  Zpos (digits2_pos q) = Zpos (digits2_pos n) + s.
Proof.
  intros Hs Hq. apply digits2_pos_unique. rewrite Hq.
  destruct (digits2_pos_bounds n) as [Blo Bhi].
  replace (Zpos (digits2_pos n) + s - 1) with ((Zpos (digits2_pos n) - 1) + s) by lia.
  rewrite !Z.pow_add_r by lia.
  assert (0 < 2 ^ s) by (apply Z.pow_pos_nonneg; lia).
  split; [apply Z.mul_le_mono_nonneg_r | apply Z.mul_lt_mono_pos_r]; lia.
Qed.

Lemma iter_pos_iter {A} (f : A -> A) (p : positive) (x : A) :
  iter_pos f p x = Pos.iter f x p.
Proof.
  revert x. induction p as [p IH|p IH|]; intros x; simpl.
  - rewrite !IH, !Pos.iter_swap. reflexivity.
  - now rewrite !IH.
  - reflexivity.
Qed.

Lemma shr_exact (k m : positive) (q : positive) :
  Zpos q = Zpos m * 2 ^ Zpos k ->
  iter_pos shr_1 k (Build_shr_record (Zpos q) false false) = Build_shr_record (Zpos m) false false.
Proof.
  rewrite iter_pos_iter. revert m q.
  induction k as [|k IH] using Pos.peano_ind; intros m q Hq.
  - simpl. assert (q = xO m) by lia. subst. reflexivity.
  - rewrite Pos.iter_succ. rewrite (IH (xO m) q).
    + reflexivity.
    + rewrite Hq, Pos2Z.inj_succ, Z.pow_succ_r by lia. lia.
Qed.

Lemma iter_xO (m k : positive) : Zpos (Pos.iter xO m k) = Zpos m * 2 ^ Zpos k.
Proof.
  induction k as [|k IH] using Pos.peano_ind.
  - simpl. lia.
  - rewrite Pos.iter_succ, Pos2Z.inj_succ, Z.pow_succ_r by lia.
    rewrite Pos2Z.inj_xO, IH. lia.
Qed.

Lemma fexp_small (d : Z) : 0 <= d -> fexp 53 1024 d = d - 53.
Proof. unfold fexp, emin. lia. Qed.

Lemma digits2_pos_pos (n : positive) : 1 <= Zpos (digits2_pos n).
Proof. lia. Qed.

Lemma scaled_pos (n : positive) (s : Z) : 0 <= s -> 0 < Zpos n * 2 ^ s.
Proof. intros Hs. apply Z.mul_pos_pos; [lia | apply Z.pow_pos_nonneg; lia]. Qed.

Lemma shr_fexp_exact (n q : positive) (s : Z) :
  0 <= s -> Zpos (digits2_pos n) <= 53 -> 53 <= Zpos (digits2_pos n) + s ->
  Zpos q = Zpos n * 2 ^ s ->
  shr_fexp 53 1024 (Zpos q) (- s) loc_Exact =
    (Build_shr_record (Zpos n * 2 ^ (53 - Zpos (digits2_pos n))) false false,
     Zpos (digits2_pos n) - 53).
Proof.
  intros Hs Hd Hds Hq. unfold shr_fexp. unfold Zdigits2.
  rewrite (digits2_pos_shift n q s Hs Hq).
  replace (Zpos (digits2_pos n) + s + - s) with (Zpos (digits2_pos n)) by lia.
  rewrite fexp_small by lia.
  unfold shr_record_of_loc, shr.
  destruct (Zpos (digits2_pos n) - 53 - - s) as [|p|p] eqn:Et; try lia.
  - f_equal; [|lia]. f_equal. rewrite Hq. f_equal. f_equal. lia.
  - pose proof (scaled_pos n (53 - Zpos (digits2_pos n)) ltac:(lia)) as Hpos.
    rewrite (shr_exact p (Z.to_pos (Zpos n * 2 ^ (53 - Zpos (digits2_pos n)))) q).
    + rewrite Z2Pos.id by exact Hpos. f_equal. lia.
    + rewrite Z2Pos.id by exact Hpos. rewrite Hq, <- Z.mul_assoc, <- Z.pow_add_r by lia.
      f_equal. f_equal. lia.
Qed.

Lemma binary_round_aux_exact (sg : bool) (n q : positive) (s : Z) :
  0 <= s -> Zpos (digits2_pos n) <= 53 -> 53 <= Zpos (digits2_pos n) + s ->
  Zpos q = Zpos n * 2 ^ s ->
  binary_round_aux 53 1024 sg (Zpos q) (- s) loc_Exact = canon sg n.
Proof.
  intros Hs Hd Hds Hq. unfold binary_round_aux.
  rewrite (shr_fexp_exact n q s Hs Hd Hds Hq).
  cbv [shr_m loc_of_shr_record round_nearest_even].
  pose proof (scaled_pos n (53 - Zpos (digits2_pos n)) ltac:(lia)) as Hpos.
  replace (Zpos (digits2_pos n) - 53) with (- (53 - Zpos (digits2_pos n))) at 1 by lia.
  rewrite <- (Z2Pos.id _ Hpos) at 1.
  rewrite (shr_fexp_exact n _ (53 - Zpos (digits2_pos n)));
    [ | lia | lia | lia | rewrite Z2Pos.id by exact Hpos; reflexivity ].
  cbv [shr_m]. unfold canon.
  destruct (Zpos n * 2 ^ (53 - Zpos (digits2_pos n))) as [|m|m] eqn:Em; try lia.
  simpl Z.to_pos.
  replace (Zpos (digits2_pos n) - 53 <=? 1024 - 53) with true; [reflexivity|].
  symmetry. apply Z.leb_le. lia.
Qed.

Lemma digits2_pos_le_53 (n : positive) : Zpos n < 2 ^ 53 -> Zpos (digits2_pos n) <= 53.
Proof.
  intros Hn. destruct (digits2_pos_bounds n) as [Blo _].
  assert (Zpos (digits2_pos n) - 1 < 53); [|lia].
  apply (Z.pow_lt_mono_r_iff 2); lia.
Qed.

Lemma shl_align_fst (m : positive) (e e' : Z) :
  e' <= e -> Zpos (fst (shl_align m e e')) = Zpos m * 2 ^ (e - e').
Proof.
  intros Hle. unfold shl_align.
  destruct (e' - e) as [|p|p] eqn:E; simpl fst.
  - replace (e - e') with 0 by lia. simpl. lia.
  - lia.
  - rewrite iter_xO. f_equal. f_equal. lia.
Qed.

Lemma binary_round_exact (sg : bool) (n q : positive) (s : Z) :
  0 <= s -> Zpos n < 2 ^ 53 -> Zpos q = Zpos n * 2 ^ s ->
  binary_round 53 1024 sg q (- s) = canon sg n.
Proof.
  intros Hs Hn Hq. pose proof (digits2_pos_le_53 n Hn) as Hd.
  unfold binary_round.
  rewrite (digits2_pos_shift n q s Hs Hq).
  replace (Zpos (digits2_pos n) + s + - s) with (Zpos (digits2_pos n)) by lia.
  rewrite fexp_small by lia.
  unfold shl_align.
  destruct (Zpos (digits2_pos n) - 53 - - s) as [|p|p] eqn:Et; cbv beta iota.
  - apply binary_round_aux_exact; auto; lia.
  - apply binary_round_aux_exact; auto; lia.
  - replace (Zpos (digits2_pos n) - 53) with (- (53 - Zpos (digits2_pos n))) by lia.
    apply binary_round_aux_exact; try lia.
    rewrite iter_xO, Hq, <- Z.mul_assoc, <- Z.pow_add_r by lia.
    f_equal. f_equal. lia.
Qed.

(** The float of a non-zero integer below 2^53. *)
Lemma float_of_Z_pos (n : positive) :
  Zpos n < 2 ^ 53 -> float_of_Z (Zpos n) = canon false n.
Proof.
  intros Hn. unfold float_of_Z, binary_normalize.
  apply (binary_round_exact false n n 0); simpl; lia.
Qed.

Lemma float_of_Z_neg (n : positive) :
  Zpos n < 2 ^ 53 -> float_of_Z (Zneg n) = canon true n.
Proof.
  intros Hn. unfold float_of_Z, binary_normalize.
  apply (binary_round_exact true n n 0); simpl; lia.
Qed.

(** The value a finite float stands for, scaled by [2^S] for [S] at
    least the opposite of its exponent. *)
Lemma canon_aligned (sg : bool) (n : positive) (ez : Z) :
  Zpos n < 2 ^ 53 -> ez <= Zpos (digits2_pos n) - 53 ->
  Zpos (fst (shl_align (Z.to_pos (Zpos n * 2 ^ (53 - Zpos (digits2_pos n))))
                       (Zpos (digits2_pos n) - 53) ez))
  = Zpos n * 2 ^ (- ez).
Proof.
  intros Hn Hez. pose proof (digits2_pos_le_53 n Hn) as Hd.
  rewrite shl_align_fst by lia.
  rewrite Z2Pos.id by (apply scaled_pos; lia).
  rewrite <- Z.mul_assoc, <- Z.pow_add_r by lia. f_equal. f_equal. lia.
Qed.

Lemma float_of_Z_signed (sg : bool) (n : positive) :
  Zpos n < 2 ^ 53 -> float_of_Z (signed sg n) = canon sg n.
Proof. destruct sg; [apply float_of_Z_neg | apply float_of_Z_pos]. Qed.

Lemma binary_normalize_exact (z : Z) (s : Z) :
  0 <= s -> Z.abs z < 2 ^ 53 ->
  binary_normalize 53 1024 (z * 2 ^ s) (- s) false = float_of_Z z.
Proof.
  intros Hs Hz. assert (Hp : 0 < 2 ^ s) by (apply Z.pow_pos_nonneg; lia).
  destruct z as [|n|n].
  - reflexivity.
  - rewrite float_of_Z_pos by lia.
    destruct (Zpos n * 2 ^ s) as [|q|q] eqn:Eq; try lia.
    unfold binary_normalize. apply binary_round_exact; auto; lia.
  - rewrite float_of_Z_neg by lia.
    destruct (Zneg n * 2 ^ s) as [|q|q] eqn:Eq; try lia.
    unfold binary_normalize. apply binary_round_exact; auto; lia.
Qed.

Lemma SFsub_canon (sa sb : bool) (a b : positive) :
  Zpos a < 2 ^ 53 -> Zpos b < 2 ^ 53 -> Z.abs (signed sa a - signed sb b) < 2 ^ 53 ->
  SFsub 53 1024 (canon sa a) (canon sb b) = float_of_Z (signed sa a - signed sb b).
Proof.
  intros Ha Hb Hab.
  pose proof (digits2_pos_le_53 a Ha) as Hda. pose proof (digits2_pos_le_53 b Hb) as Hdb.
  unfold canon, SFsub.
  set (ez := Z.min (Zpos (digits2_pos a) - 53) (Zpos (digits2_pos b) - 53)).
  rewrite (canon_aligned sa a ez Ha) by (unfold ez; lia).
  rewrite (canon_aligned sb b ez Hb) by (unfold ez; lia).
  replace (cond_Zopp sa (Zpos a * 2 ^ (- ez)) - cond_Zopp sb (Zpos b * 2 ^ (- ez)))
    with ((signed sa a - signed sb b) * 2 ^ (- ez))
    by (generalize (2 ^ (- ez)); intros X; destruct sa, sb; unfold signed, cond_Zopp;
        rewrite <- ?Pos2Z.opp_pos; ring).
  replace ez with (- (- ez)) at 2 by lia.
  apply binary_normalize_exact; [unfold ez; lia | exact Hab].
Qed.

Lemma float_of_Z_canon (z : Z) :
  z <> 0 -> Z.abs z < 2 ^ 53 -> float_of_Z z = canon (z <? 0) (Z.to_pos (Z.abs z)).
Proof.
  destruct z as [|n|n]; intros Hz Hb; [congruence | |]; simpl in *.
  - now apply float_of_Z_pos.
  - now apply float_of_Z_neg.
Qed.

Lemma SFsub_float_of_Z (a b : Z) :
  Z.abs a < 2 ^ 53 -> Z.abs b < 2 ^ 53 -> Z.abs (a - b) < 2 ^ 53 ->
  SFsub 53 1024 (float_of_Z a) (float_of_Z b) = float_of_Z (a - b).
Proof.
  intros Ha Hb Hab.
  destruct a as [|a|a], b as [|b|b];
    try reflexivity;
    repeat (rewrite float_of_Z_pos by (simpl in *; lia));
    repeat (rewrite float_of_Z_neg by (simpl in *; lia)).
  - change (0 - Zpos b) with (Zneg b). rewrite float_of_Z_neg by (simpl in *; lia). reflexivity.
  - change (0 - Zneg b) with (Zpos b). rewrite float_of_Z_pos by (simpl in *; lia). reflexivity.
  - change (Zpos a - 0) with (Zpos a). rewrite float_of_Z_pos by (simpl in *; lia). reflexivity.
  - apply (SFsub_canon false false a b); simpl in *; lia.
  - apply (SFsub_canon false true a b); simpl in *; lia.
  - change (Zneg a - 0) with (Zneg a). rewrite float_of_Z_neg by (simpl in *; lia). reflexivity.
  - apply (SFsub_canon true false a b); simpl in *; lia.
  - apply (SFsub_canon true true a b); simpl in *; lia.
Qed.

Lemma div_eucl_mul (a b : Z) : 0 < b -> Z.div_eucl (a * b) b = (a, 0).
Proof.
  intros Hb. destruct (Z.div_eucl (a * b) b) as [q r] eqn:E.
  assert (Hq : q = a * b / b) by (unfold Z.div; now rewrite E).
  assert (Hr : r = (a * b) mod b) by (unfold Z.modulo; now rewrite E).
  rewrite Z.div_mul in Hq by lia. rewrite Z.mod_mul in Hr by lia. congruence.
Qed.

Lemma digits_of_microseconds (n P : positive) :
  Zpos P = Zpos n * 1000000 ->
  Zpos (digits2_pos n) + 19 <= Zpos (digits2_pos P) <= Zpos (digits2_pos n) + 20.
Proof.
  intros HP. destruct (digits2_pos_bounds n) as [Nlo Nhi].
  destruct (digits2_pos_bounds P) as [Plo Phi].
  assert (H19 : 2 ^ 19 <= 1000000) by (vm_compute; discriminate).
  assert (H20 : 1000000 < 2 ^ 20) by reflexivity.
  assert (Hup : Zpos P < 2 ^ (Zpos (digits2_pos n) + 20)).
  { rewrite Z.pow_add_r by lia. rewrite HP.
    apply Z.mul_lt_mono_nonneg; lia. }
  assert (Hdown : 2 ^ (Zpos (digits2_pos n) - 1 + 19) <= Zpos P).
  { rewrite Z.pow_add_r by lia. rewrite HP.
    apply Z.mul_le_mono_nonneg; lia. }
  assert (Zpos (digits2_pos P) - 1 < Zpos (digits2_pos n) + 20)
    by (apply (Z.pow_lt_mono_r_iff 2); lia).
  assert (Zpos (digits2_pos n) - 1 + 19 < Zpos (digits2_pos P))
    by (apply (Z.pow_lt_mono_r_iff 2); lia).
  lia.
Qed.

Lemma SFdiv_microseconds (sg : bool) (n P : positive) :
  Zpos n < 2 ^ 53 -> Zpos P = Zpos n * 1000000 ->
  SFdiv 53 1024 (S754_finite sg P 0) (S754_finite false 1000000 0) = canon sg n.
Proof.
  intros Hn HP. pose proof (digits2_pos_le_53 n Hn) as Hd.
  pose proof (digits_of_microseconds n P HP) as Hd1.
  unfold SFdiv, SFdiv_core_binary.
  change (Zdigits2 (Zpos 1000000)) with 20. unfold Zdigits2.
  replace (Zpos (digits2_pos P) + 0 - (20 + 0)) with (Zpos (digits2_pos P) - 20) by lia.
  rewrite fexp_small by lia.
  replace (Z.min (Zpos (digits2_pos P) - 20 - 53) (0 - 0))
    with (- (73 - Zpos (digits2_pos P))) by lia.
  replace (0 - 0 - - (73 - Zpos (digits2_pos P))) with (73 - Zpos (digits2_pos P)) by lia.
  set (s := 73 - Zpos (digits2_pos P)).
  assert (Hs : 0 <= s) by (unfold s; lia).
  assert (Hm : match s with
               | Z0 => Zpos P
               | Zpos _ => Z.shiftl (Zpos P) s
               | Zneg _ => 0
               end = Zpos n * 2 ^ s * 1000000).
  { destruct s as [|p|p] eqn:Es; try lia.
    rewrite Z.shiftl_mul_pow2 by lia. lia. }
  rewrite Hm, div_eucl_mul by lia.
  change (new_location 1000000 0) with loc_Exact.
  rewrite xorb_false_r.
  pose proof (scaled_pos n s Hs) as Hpos.
  rewrite <- (Z2Pos.id _ Hpos).
  apply binary_round_aux_exact; try lia; unfold s; lia.
Qed.

(** A whole number of seconds, taken from microseconds, is exact. *)
Lemma total_seconds_whole (k : Z) :
  Z.abs k < 2 ^ 53 -> total_seconds (k * 1000000) = float_of_Z k.
Proof.
  intros Hk. unfold total_seconds.
  destruct k as [|n|n]; [reflexivity | |].
  - rewrite float_of_Z_pos by (simpl in *; lia).
    change (raw_float (Zpos n * 1000000)) with (S754_finite false (n * 1000000) 0).
    change (raw_float 1000000) with (S754_finite false 1000000 0).
    apply SFdiv_microseconds; simpl in *; lia.
  - rewrite float_of_Z_neg by (simpl in *; lia).
    change (raw_float (Zneg n * 1000000)) with (S754_finite true (n * 1000000) 0).
    change (raw_float 1000000) with (S754_finite false 1000000 0).
    apply SFdiv_microseconds; simpl in *; lia.
Qed.

Lemma mul_compare_r (a b c : Z) : 0 < c -> (a * c ?= b * c) = (a ?= b).
Proof.
  intros Hc. destruct (Z.compare_spec a b) as [->|Hlt|Hgt].
  - apply Z.compare_refl.
  - apply Z.compare_lt_iff. nia.
  - apply Z.compare_gt_iff. nia.
Qed.

Lemma float_cmp_int_one (z : Z) :
  Z.abs z < 2 ^ 53 -> float_cmp_int (SFabs (float_of_Z z)) 1 = Some (Z.abs z ?= 1).
Proof.
  intros Hz. destruct z as [|n|n]; [reflexivity | |];
    [rewrite float_of_Z_pos by (simpl in *; lia) | rewrite float_of_Z_neg by (simpl in *; lia)];
    unfold canon, SFabs, float_cmp_int, cond_Zopp;
    (assert (Hd : Zpos (digits2_pos n) <= 53) by (apply digits2_pos_le_53; simpl in *; lia));
    (assert (Hpos : 0 < Zpos n * 2 ^ (53 - Zpos (digits2_pos n))) by (apply scaled_pos; lia));
    rewrite Z2Pos.id by exact Hpos; f_equal; simpl Z.abs;
    (destruct (Zpos (digits2_pos n) - 53) as [|p|p] eqn:E; try lia).
  - replace (53 - Zpos (digits2_pos n)) with 0 by lia. simpl (2 ^ 0). f_equal; lia.
  - replace (53 - Zpos (digits2_pos n)) with (Zpos p) by lia.
    apply mul_compare_r. apply Z.pow_pos_nonneg; lia.
  - replace (53 - Zpos (digits2_pos n)) with 0 by lia. simpl (2 ^ 0). f_equal; lia.
  - replace (53 - Zpos (digits2_pos n)) with (Zpos p) by lia.
    apply mul_compare_r. apply Z.pow_pos_nonneg; lia.
Qed.

Lemma float_of_int_small (z : Z) :
  Z.abs z < 2 ^ 53 -> float_of_int z = Ok (float_of_Z z).
Proof.
  intros Hz. unfold float_of_int.
  destruct z as [|n|n]; [reflexivity | |].
  - rewrite float_of_Z_pos by (simpl in *; lia). reflexivity.
  - rewrite float_of_Z_neg by (simpl in *; lia). reflexivity.
Qed.

(** On integers below 2^52 the duration test is exact: the float
    subtraction and comparison give [|k - z| > 1]. *)
Lemma duration_test_exact (k z : Z) :
  Z.abs k < 2 ^ 52 -> Z.abs z < 2 ^ 52 ->
  float_sub (total_seconds (k * 1000000)) (VInt z) = Ok (float_of_Z (k - z)) /\
  cmp_gt (float_cmp_int (SFabs (float_of_Z (k - z))) 1) = (1 <? Z.abs (k - z)).
Proof.
  intros Hk Hz.
  assert (H53 : 2 ^ 53 = 2 * 2 ^ 52) by reflexivity.
  split.
  - unfold float_sub. rewrite float_of_int_small by lia. simpl map_result.
    rewrite total_seconds_whole by lia.
    rewrite SFsub_float_of_Z by lia. reflexivity.
  - rewrite float_cmp_int_one by lia. unfold cmp_gt.
    destruct (Z.abs (k - z) ?= 1) eqn:E; symmetry.
    + apply Z.ltb_ge. apply Z.compare_eq in E. lia.
    + apply Z.ltb_ge. rewrite Z.compare_lt_iff in E. lia.
    + apply Z.ltb_lt. rewrite Z.compare_gt_iff in E. lia.
Qed.

(** ** Computations that only append *)

Lemma appends_ret {A} (a : A) : appends (ret a).
Proof. intros E W. unfold ret, outcome, errs, warns. simpl. now rewrite !app_nil_r. Qed.

Lemma appends_lift {A} (r : result A) : appends (lift r).
Proof. intros E W. unfold lift, outcome, errs, warns. simpl. now rewrite !app_nil_r. Qed.

Lemma appends_errors_append (msg : string) : appends (errors_append msg).
Proof. intros E W. unfold outcome, errs, warns. simpl. now rewrite app_nil_r. Qed.

Lemma appends_warnings_append (msg : string) : appends (warnings_append msg).
Proof. intros E W. unfold outcome, errs, warns. simpl. now rewrite app_nil_r. Qed.

(** The run of [m] then [k] from empty lists, in terms of the runs of
    [m] and of [k]. *)
Lemma bind_run {A B} (m : M findings A) (k : A -> M findings B) :
  appends m -> (forall a, appends (k a)) ->
  bind m k ([], []) =
    match outcome m with
    | Ok a => (outcome (k a), ((errs m ++ errs (k a))%list, (warns m ++ warns (k a))%list))
    | Raise e => (Raise e, (errs m, warns m))
    end.
Proof.
  intros Hm Hk. unfold bind. unfold outcome at 1, errs at 1 3, warns at 1 3.
  destruct (m ([], [])) as [[a|e] [e1 w1]]; simpl; [|reflexivity].
  apply Hk.
Qed.

Lemma appends_bind {A B} (m : M findings A) (k : A -> M findings B) :
  appends m -> (forall a, appends (k a)) -> appends (bind m k).
Proof.
  intros Hm Hk E W.
  unfold outcome, errs, warns. rewrite (bind_run m k Hm Hk).
  unfold bind. rewrite (Hm E W).
  destruct (outcome m) as [a|e]; simpl.
  - rewrite (Hk a). now rewrite !app_assoc.
  - reflexivity.
Qed.

Lemma appends_when (b : bool) (body : M findings unit) :
  appends body -> appends (when b body).
Proof. destruct b; simpl; [auto | intros _; apply appends_ret]. Qed.

Lemma appends_and_then (a : bool) (b : M findings bool) :
  appends b -> appends (and_then a b).
Proof. destruct a; simpl; [auto | intros _; apply appends_ret]. Qed.

Lemma appends_for_each {A} (l : list A) (body : A -> M findings unit) :
  (forall x, appends (body x)) -> appends (for_each l body).
Proof.
  intros Hb. induction l as [|x l IH]; simpl.
  - apply appends_ret.
  - apply appends_bind; auto.
Qed.

Lemma appends_except_ValueError {A} (body : M findings A) (handler : string -> M findings A) :
  appends body -> (forall msg, appends (handler msg)) ->
  appends (except_ValueError body handler).
Proof.
  intros Hb Hh E W. unfold outcome, errs, warns, except_ValueError.
  rewrite (Hb E W), (Hb [] []). simpl.
  destruct (outcome body) as [a|e]; simpl; [reflexivity|].
  destruct e; simpl; try reflexivity.
  rewrite (Hh msg (E ++ errs body)%list (W ++ warns body)%list), (Hh msg (errs body) (warns body)).
  simpl. now rewrite <- !app_assoc.
Qed.

Ltac appends_tac :=
  repeat first
    [ apply appends_bind; [|intros ?]
    | apply appends_when
    | apply appends_and_then
    | apply appends_for_each; intros ?
    | apply appends_except_ValueError; [|intros ?]
    | apply appends_ret
    | apply appends_lift
    | apply appends_errors_append
    | apply appends_warnings_append ].

Lemma seq_run {B} (m : M findings unit) (k : M findings B) (b : B) :
  appends m -> appends k -> outcome (m ;; k) = Ok b ->
  outcome m = Ok tt /\ outcome k = Ok b /\
  errs (m ;; k) = (errs m ++ errs k)%list /\
  warns (m ;; k) = (warns m ++ warns k)%list.
Proof.
  intros Hm Hk. unfold outcome at 1, errs at 1, warns at 1.
  rewrite (bind_run m (fun _ => k) Hm (fun _ => Hk)).
  destruct (outcome m) as [[]|e]; simpl; [auto | discriminate].
Qed.

(** ** The loop over the records *)

Lemma for_enumerate_appends {A} (body : nat -> A -> M findings unit) :
  (forall i x, appends (body i x)) ->
  forall l start, appends (for_enumerate start l body).
Proof.
  intros Hb. induction l as [|x l IH]; intros start; simpl.
  - apply appends_ret.
  - apply appends_bind; auto.
Qed.

(** A run of the loop that ends normally ran every iteration normally,
    and left the findings of the iterations one after the other. *)
Lemma for_enumerate_run {A} (body : nat -> A -> M findings unit) :
  (forall i x, appends (body i x)) ->
  forall l start,
    outcome (for_enumerate start l body) = Ok tt ->
    Forall (fun ix => outcome (body (fst ix) (snd ix)) = Ok tt) (enumerate start l) /\
    errs (for_enumerate start l body)
      = flat_map (fun ix => errs (body (fst ix) (snd ix))) (enumerate start l) /\
    warns (for_enumerate start l body)
      = flat_map (fun ix => warns (body (fst ix) (snd ix))) (enumerate start l).
Proof.
  intros Hb. induction l as [|x l IH]; intros start Hrun; simpl.
  - repeat split. constructor.
  - simpl in Hrun.
    apply seq_run in Hrun; auto using for_enumerate_appends.
    destruct Hrun as (H1 & H2 & -> & ->).
    destruct (IH _ H2) as (F & -> & ->).
    repeat split. constructor; auto.
Qed.


Lemma enumerate_In {A} (l : list A) (start j : nat) (x : A) :
  In (j, x) (enumerate start l) ->
  (start <= j)%nat /\ nth_error l (j - start) = Some x.
Proof.
  revert start. induction l as [|y l IH]; intros start; simpl; [contradiction|].
  intros [E|Hin].
  - injection E as <- <-. rewrite Nat.sub_diag. auto.
  - apply IH in Hin. destruct Hin as [Hle Hn].
    split; [lia|]. replace (j - start)%nat with (S (j - S start)) by lia. exact Hn.
Qed.

Lemma enumerate_nth {A} (l : list A) (start i : nat) (x : A) :
  nth_error l i = Some x -> In ((start + i)%nat, x) (enumerate start l).
Proof.
  revert start i. induction l as [|y l IH]; intros start [|i]; simpl; try discriminate.
  - intros E. injection E as ->. left. f_equal. lia.
  - intros E. right. replace (start + S i)%nat with (S start + i)%nat by lia. auto.
Qed.

Lemma count_if_flat_map_zero {A} (f : string -> bool) (g : A -> list string) (l : list A) :
  (forall y, In y l -> count_if f (g y) = 0%nat) -> count_if f (flat_map g l) = 0%nat.
Proof.
  induction l as [|y l IH]; simpl; intros Hz; [reflexivity|].
  rewrite count_if_app, Hz by auto. simpl. auto.
Qed.

(** Among the findings of all iterations, the ones selected by [f] are
    those of iteration [i], when no other iteration produces any. *)
Lemma count_if_enumerate {A} (f : string -> bool) (g : nat * A -> list string)
    (l : list A) (start i : nat) (x : A) :
  nth_error l i = Some x ->
  (forall j y, In (j, y) (enumerate start l) -> j <> (start + i)%nat ->
               count_if f (g (j, y)) = 0%nat) ->
  count_if f (flat_map g (enumerate start l)) = count_if f (g ((start + i)%nat, x)).
Proof.
  revert start i. induction l as [|y l IH]; intros start [|i] Hn Hz; simpl in *; try discriminate.
  - injection Hn as ->. rewrite count_if_app, Nat.add_0_r.
    enough (E : count_if f (flat_map g (enumerate (S start) l)) = 0%nat) by lia.
    apply count_if_flat_map_zero. intros [j z] Hin. apply Hz; [auto|].
    apply enumerate_In in Hin. lia.
  - rewrite count_if_app.
    rewrite (Hz start y) by (auto; lia). simpl.
    replace (start + S i)%nat with (S start + i)%nat by lia.
    apply IH; [exact Hn|].
    intros j z Hin Hj. apply Hz; [auto | lia].
Qed.

(** ** One iteration of the validator *)

Lemma strings_map_VStr (l : list string) : strings (map VStr l) = l.
Proof. induction l; simpl; congruence. Qed.

Lemma tagged_weaken (i : nat) (tags tags' : list string) (l : list string) :
  incl tags tags' -> Forall (tagged i tags) l -> Forall (tagged i tags') l.
Proof.
  intros Hi. apply Forall_impl. intros m (tag & rest & Hin & ->).
  exists tag, rest. auto.
Qed.

Ltac unfold_checks :=
  unfold outcome, errs, warns, and_then, when, bind, lift, ret, contains, getitem,
    errors_append, warnings_append, modify.

Ltac split_matches :=
  repeat (simpl;
          match goal with
          | |- context [match ?x with _ => _ end] =>
              lazymatch x with
              | context [match _ with _ => _ end] => fail
              | _ => destruct x eqn:?
              end
          end).

Ltac try_tags tags :=
  lazymatch tags with
  | ?T :: ?more =>
      first [ exists T; eexists; split; [simpl; tauto | reflexivity]
            | try_tags more ]
  end.

Ltac tagged_tac :=
  repeat split; simpl;
  repeat first
    [ apply Forall_nil
    | apply Forall_cons;
      [ match goal with |- tagged _ ?tags _ => try_tags tags end | ] ].

Ltac apart_tac :=
  repeat first
    [ apply Forall_nil
    | apply Forall_cons; [ intros ? ?; simpl; discriminate | ] ].

(** [count_zero Hsel Hshape]: the messages described by [Hshape] are
    none of those selected by [Hsel]. *)
Ltac count_zero Hsel Hshape :=
  let Z := fresh "Z" in
  eassert (Z : count_if _ _ = 0%nat);
  [ eapply count_if_tagged_apart; [exact Hsel | | exact Hshape]; apart_tac
  | rewrite Z; clear Z ].

Section ValidatorFacts.
Context `{Runtime}.

Lemma check_required_appends i t : appends (check_required i t).
Proof. unfold check_required. appends_tac. Qed.

Lemma check_entry_price_appends i t : appends (check_entry_price i t).
Proof. unfold check_entry_price. appends_tac. Qed.

Lemma check_exit_price_appends i t : appends (check_exit_price i t).
Proof. unfold check_exit_price. appends_tac. Qed.

Lemma check_pnl_appends i t : appends (check_pnl i t).
Proof. unfold check_pnl. appends_tac. Qed.

Lemma check_duration_appends i t : appends (check_duration i t).
Proof. unfold check_duration. appends_tac. Qed.

Lemma check_trend_strength_appends i t : appends (check_trend_strength i t).
Proof. unfold check_trend_strength. appends_tac. Qed.

Lemma check_volatility_appends i t : appends (check_volatility i t).
Proof. unfold check_volatility. appends_tac. Qed.

Lemma check_market_regime_appends i t : appends (check_market_regime i t).
Proof. unfold check_market_regime. appends_tac. Qed.

Lemma check_duration_consistency_appends i t a b :
  appends (check_duration_consistency i t a b).
Proof. unfold check_duration_consistency. appends_tac. Qed.

Lemma check_time_consistency_appends i t : appends (check_time_consistency i t).
Proof.
  unfold check_time_consistency. appends_tac.
Qed.

Ltac check_appends :=
  first [ apply check_required_appends | apply check_entry_price_appends
        | apply check_exit_price_appends | apply check_pnl_appends
        | apply check_duration_appends | apply check_trend_strength_appends
        | apply check_volatility_appends | apply check_market_regime_appends
        | apply check_time_consistency_appends ].

Lemma check_trade_appends i t : appends (check_trade i t).
Proof.
  unfold check_trade.
  repeat (apply appends_bind; [check_appends | intros _]); check_appends.
Qed.

(** The findings of one iteration are those of its nine checks, in
    the order of the source, and each check ran normally. *)
Lemma check_trade_run i t :
  outcome (check_trade i t) = Ok tt ->
  (outcome (check_required i t) = Ok tt /\
   outcome (check_entry_price i t) = Ok tt /\
   outcome (check_exit_price i t) = Ok tt /\
   outcome (check_pnl i t) = Ok tt /\
   outcome (check_duration i t) = Ok tt /\
   outcome (check_trend_strength i t) = Ok tt /\
   outcome (check_volatility i t) = Ok tt /\
   outcome (check_market_regime i t) = Ok tt /\
   outcome (check_time_consistency i t) = Ok tt) /\
  errs (check_trade i t)
    = (errs (check_required i t) ++ errs (check_entry_price i t)
       ++ errs (check_exit_price i t) ++ errs (check_pnl i t)
       ++ errs (check_duration i t) ++ errs (check_trend_strength i t)
       ++ errs (check_volatility i t) ++ errs (check_market_regime i t)
       ++ errs (check_time_consistency i t))%list /\
  warns (check_trade i t)
    = (warns (check_required i t) ++ warns (check_entry_price i t)
       ++ warns (check_exit_price i t) ++ warns (check_pnl i t)
       ++ warns (check_duration i t) ++ warns (check_trend_strength i t)
       ++ warns (check_volatility i t) ++ warns (check_market_regime i t)
       ++ warns (check_time_consistency i t))%list.
Proof.
  unfold check_trade. intros Hrun.
  repeat
    (apply seq_run in Hrun;
     [ let H1 := fresh "O" in
       destruct Hrun as (H1 & Hrun & -> & ->)
     | check_appends
     | repeat (apply appends_bind; [check_appends | intros _]); check_appends ]).
  repeat split; assumption.
Qed.
(** The loop over the required fields: one message per absent field,
    in the order of the list. *)
Lemma for_each_when_errors {A} (l : list A) (p : A -> bool) (msg : A -> string) :
  outcome (for_each l (fun x => when (p x) (errors_append (msg x)))) = Ok tt /\
  errs (for_each l (fun x => when (p x) (errors_append (msg x)))) = map msg (filter p l) /\
  warns (for_each l (fun x => when (p x) (errors_append (msg x)))) = [].
Proof.
  induction l as [|x l (IH1 & IH2 & IH3)]; simpl; [repeat split|].
  unfold outcome, errs, warns.
  rewrite bind_run; [| appends_tac | intros _; appends_tac].
  destruct (p x); simpl; rewrite IH2; auto.
Qed.

Lemma check_required_run i t :
  outcome (check_required i t) = Ok tt /\
  errs (check_required i t)
    = map (missing_msg i) (filter (fun field => negb (contains field t)) required_fields) /\
  warns (check_required i t) = [].
Proof. apply for_each_when_errors. Qed.

Lemma check_required_shape i t :
  Forall (tagged i ["Missing required field '"]) (errs (check_required i t)) /\
  warns (check_required i t) = [].
Proof.
  destruct (check_required_run i t) as (_ & -> & ->). split; [|reflexivity].
  apply Forall_forall. intros m Hin. apply in_map_iff in Hin.
  destruct Hin as (field & <- & _).
  exists "Missing required field '", (field ++ "'"). split; [now left | reflexivity].
Qed.

Lemma check_entry_price_shape i t :
  Forall (tagged i ["Invalid entry_price ("]) (errs (check_entry_price i t)) /\
  warns (check_entry_price i t) = [].
Proof. unfold check_entry_price. unfold_checks. split_matches; tagged_tac. Qed.

Lemma check_exit_price_shape i t :
  Forall (tagged i ["Invalid exit_price ("]) (errs (check_exit_price i t)) /\
  warns (check_exit_price i t) = [].
Proof. unfold check_exit_price. unfold_checks. split_matches; tagged_tac. Qed.

Lemma check_pnl_shape i t :
  Forall (tagged i ["Invalid pnl type ("]) (errs (check_pnl i t)) /\
  warns (check_pnl i t) = [].
Proof. unfold check_pnl. unfold_checks. split_matches; tagged_tac. Qed.

Lemma check_duration_shape i t :
  errs (check_duration i t) = [] /\
  Forall (tagged i ["Negative duration ("]) (warns (check_duration i t)).
Proof. unfold check_duration. unfold_checks. split_matches; tagged_tac. Qed.

Lemma check_trend_strength_shape i t :
  errs (check_trend_strength i t) = [] /\
  Forall (tagged i ["Trend strength out of range ("]) (warns (check_trend_strength i t)).
Proof. unfold check_trend_strength. unfold_checks. split_matches; tagged_tac. Qed.

Lemma check_volatility_shape i t :
  errs (check_volatility i t) = [] /\
  Forall (tagged i ["Negative volatility ("]) (warns (check_volatility i t)).
Proof. unfold check_volatility. unfold_checks. split_matches; tagged_tac. Qed.

Lemma check_market_regime_shape i t :
  errs (check_market_regime i t) = [] /\
  Forall (tagged i ["Unknown market regime ("]) (warns (check_market_regime i t)).
Proof. unfold check_market_regime. unfold_checks. split_matches; tagged_tac. Qed.
Lemma check_time_consistency_shape i t :
  Forall (tagged i ["Exit time before or equal to entry time"; "Invalid datetime format: "])
         (errs (check_time_consistency i t)) /\
  Forall (tagged i ["Duration mismatch ("]) (warns (check_time_consistency i t)).
Proof.
  unfold check_time_consistency, check_duration_consistency, except_ValueError.
  unfold_checks. split_matches; tagged_tac.
Qed.

(** Every message of iteration [i] names position [i+1] and begins
    with one of the known texts. *)
Lemma check_trade_shape i t :
  outcome (check_trade i t) = Ok tt ->
  Forall (tagged i error_tags) (errs (check_trade i t)) /\
  Forall (tagged i warning_tags) (warns (check_trade i t)).
Proof.
  intros Hrun. destruct (check_trade_run i t Hrun) as (_ & -> & ->).
  destruct (check_required_shape i t) as [E1 ->].
  destruct (check_entry_price_shape i t) as [E2 ->].
  destruct (check_exit_price_shape i t) as [E3 ->].
  destruct (check_pnl_shape i t) as [E4 ->].
  destruct (check_duration_shape i t) as [-> W5].
  destruct (check_trend_strength_shape i t) as [-> W6].
  destruct (check_volatility_shape i t) as [-> W7].
  destruct (check_market_regime_shape i t) as [-> W8].
  destruct (check_time_consistency_shape i t) as [E9 W9].
  simpl. split; repeat (apply Forall_app; split);
    (eapply tagged_weaken; [|eassumption]);
    intros tag Hin; simpl in *; tauto.
Qed.

(** ** The report *)

(** The report of a non-empty input, in terms of the loop. *)
Lemma verify_trade_data_nonempty (trades : list dict) (report : dict) :
  trades <> [] -> verify_trade_data trades = Ok report ->
  outcome (for_enumerate 0 trades check_trade) = Ok tt /\
  report = [("valid", VBool (Nat.eqb (List.length (errs (for_enumerate 0 trades check_trade))) 0));
            ("errors", VList (map VStr (errs (for_enumerate 0 trades check_trade))));
            ("warnings", VList (map VStr (warns (for_enumerate 0 trades check_trade))));
            ("total_trades", VInt (Z.of_nat (List.length trades)))].
Proof.
  intros Hne. unfold verify_trade_data, outcome, errs, warns.
  destruct trades as [|t0 rest]; [congruence|].
  destruct (for_enumerate 0 (t0 :: rest) check_trade ([], [])) as [[[]|e] [E W]]; simpl;
    intros Hr; [|discriminate].
  injection Hr as <-. auto.
Qed.

(** The errors and warnings of a report are those of the iterations,
    one record after the other, and every iteration ran normally. *)
Lemma verify_trade_data_findings (trades : list dict) (report : dict) :
  trades <> [] -> verify_trade_data trades = Ok report ->
  Forall (fun it => outcome (check_trade (fst it) (snd it)) = Ok tt) (enumerate 0 trades) /\
  report_errors report
    = flat_map (fun it => errs (check_trade (fst it) (snd it))) (enumerate 0 trades) /\
  report_warnings report
    = flat_map (fun it => warns (check_trade (fst it) (snd it))) (enumerate 0 trades).
Proof.
  intros Hne Hr. destruct (verify_trade_data_nonempty _ _ Hne Hr) as [Hrun ->].
  destruct (for_enumerate_run check_trade check_trade_appends trades 0 Hrun) as (F & E & W).
  unfold report_errors, report_warnings, report_list. simpl.
  rewrite !strings_map_VStr. auto.
Qed.

(** The messages about record [i] in the report are the ones its own
    iteration produced. *)
Lemma verify_trade_data_record (trades : list dict) (report : dict) (i : nat) (t : dict) :
  verify_trade_data trades = Ok report -> nth_error trades i = Some t ->
  outcome (check_trade i t) = Ok tt /\
  forall f T, selects f i T ->
    count_if f (report_errors report) = count_if f (errs (check_trade i t)) /\
    count_if f (report_warnings report) = count_if f (warns (check_trade i t)).
Proof.
  intros Hr Hn.
  assert (Hne : trades <> []) by (intros ->; destruct i; discriminate).
  destruct (verify_trade_data_findings _ _ Hne Hr) as (F & -> & ->).
  rewrite Forall_forall in F.
  split; [exact (F _ (enumerate_nth trades 0 i t Hn))|].
  intros f T Hf.
  split;
    (rewrite (count_if_enumerate f _ trades 0 i t Hn); [reflexivity|]);
    intros j y Hin Hj; specialize (F _ Hin); simpl in F;
    destruct (check_trade_shape j y F) as [TE TW]; simpl.
  - eapply count_if_tagged_other; [exact Hf | | exact TE]. simpl in Hj. congruence.
  - eapply count_if_tagged_other; [exact Hf | | exact TW]. simpl in Hj. congruence.
Qed.

(** ** Required fields *)







(** ** The type check on pnl *)

Lemma check_pnl_numeric i t v :
  dict_get "pnl" t = Some v -> isinstance_int_float v = true ->
  errs (check_pnl i t) = [].
Proof.
  intros Hv Hnum. unfold check_pnl. unfold_checks. rewrite Hv. simpl.
  now rewrite Hnum.
Qed.

(** C10.  For every record whose pnl is present and is a boolean, the
    type check on pnl passes: the report holds no error
    [Trade <position>: Invalid pnl type (...)] for that record. *)
Theorem boolean_pnl_passes_type_check (trades : list dict) (report : dict)
    (i : nat) (t : dict) (b : bool) :
  verify_trade_data trades = Ok report ->
  nth_error trades i = Some t ->
  dict_get "pnl" t = Some (VBool b) ->
  isinstance_int_float (VBool b) = true /\
  forall e, In e (report_errors report) ->
    String.prefix ("Trade " ++ dec (i + 1) ++ ": Invalid pnl type (") e = false.
Proof.
  intros Hr Hn Hpnl. split; [reflexivity|].
  replace (i + 1)%nat with (S i) by lia.
  change ("Trade " ++ dec (S i) ++ ": Invalid pnl type (")
    with (trade_msg i "Invalid pnl type (").
  intros e. apply count_if_zero_inv.
  destruct (verify_trade_data_record _ _ _ _ Hr Hn) as [Hrun Hcount].
  pose proof (selects_prefix i "Invalid pnl type (") as Hsel.
  destruct (Hcount _ _ Hsel) as [-> _].
  destruct (check_trade_run i t Hrun) as (_ & -> & _).
  rewrite (check_pnl_numeric i t _ Hpnl eq_refl).
  destruct (check_duration_shape i t) as [-> _].
  destruct (check_trend_strength_shape i t) as [-> _].
  destruct (check_volatility_shape i t) as [-> _].
  destruct (check_market_regime_shape i t) as [-> _].
  rewrite !count_if_app.
  count_zero Hsel (proj1 (check_required_shape i t)).
  count_zero Hsel (proj1 (check_entry_price_shape i t)).
  count_zero Hsel (proj1 (check_exit_price_shape i t)).
  count_zero Hsel (proj1 (check_time_consistency_shape i t)).
  reflexivity.
Qed.

(** ** Time consistency *)

Lemma datetime_le_raises a b e : datetime_le a b = Raise e -> e = TypeError.
Proof.
  unfold datetime_le. destruct (utcoffset a), (utcoffset b); intros E; congruence.
Qed.

Lemma datetime_sub_raises a b e : datetime_sub a b = Raise e -> e = TypeError.
Proof.
  unfold datetime_sub. destruct (utcoffset a), (utcoffset b); intros E; congruence.
Qed.

Lemma float_sub_raises x v e :
  float_sub x v = Raise e -> e = TypeError \/ e = OverflowError.
Proof.
  unfold float_sub, float_of_int.
  destruct v; simpl; try (intros E; injection E as <-; auto; fail); try discriminate.
  - destruct (float_of_Z (Z.b2z b)); simpl; intros E; try discriminate.
    injection E as <-. auto.
  - destruct (float_of_Z z); simpl; intros E; try discriminate.
    injection E as <-. auto.
Qed.

(** What the time check does on a record whose two timestamps parse,
    in a run that ends normally. *)
Lemma check_time_consistency_parsed i t s_in s_out entry exit :
  dict_get "entry_time" t = Some (VStr s_in) ->
  dict_get "exit_time" t = Some (VStr s_out) ->
  fromisoformat (replace_Z s_in) = inr entry ->
  fromisoformat (replace_Z s_out) = inr exit ->
  outcome (check_time_consistency i t) = Ok tt ->
  exists c,
    datetime_le exit entry = Ok c /\
    errs (check_time_consistency i t) = (if c then [exit_msg i] else []) /\
    match dict_get "duration_seconds" t with
    | None => warns (check_time_consistency i t) = []
    | Some stored =>
        exists delta diff,
          datetime_sub exit entry = Ok delta /\
          float_sub (total_seconds delta) stored = Ok diff /\
          warns (check_time_consistency i t)
            = if cmp_gt (float_cmp_int (SFabs diff) 1)
              then [mismatch_msg i (total_seconds delta) stored] else []
    end.
Proof.
  intros Hin Hout Pin Pout.
  unfold check_time_consistency, check_duration_consistency, except_ValueError.
  unfold_checks. unfold parse_datetime. rewrite Hin, Hout. simpl.
  rewrite Pin, Pout. simpl.
  destruct (datetime_le exit entry) as [c|e] eqn:Hle; simpl;
    [|apply datetime_le_raises in Hle; subst e; discriminate].
  intros Hrun. exists c. split; [reflexivity|].
  destruct (dict_get "duration_seconds" t) as [stored|]; simpl in *.
  - destruct (datetime_sub exit entry) as [delta|e] eqn:Hsub; simpl in *;
      [|apply datetime_sub_raises in Hsub; subst e; destruct c; discriminate].
    destruct (float_sub (total_seconds delta) stored) as [diff|e] eqn:Hfs; simpl in *;
      [|apply float_sub_raises in Hfs; destruct Hfs; subst e; destruct c; discriminate].
    split; [destruct c, (cmp_gt (float_cmp_int (SFabs diff) 1)); reflexivity|].
    exists delta, diff. split; [reflexivity|]. split; [exact Hfs|].
    destruct c, (cmp_gt (float_cmp_int (SFabs diff) 1)); reflexivity.
  - destruct c; auto.
Qed.

(** The duration-mismatch warnings of record [i] in the report of a
    normal run, when its two timestamps parse and [duration_seconds]
    is present. *)
Lemma mismatch_warnings_of_record (trades : list dict) (report : dict) (i : nat) (t : dict)
    (s_in s_out : string) (entry exit : datetime) (stored : pyval) :
  verify_trade_data trades = Ok report ->
  nth_error trades i = Some t ->
  dict_get "entry_time" t = Some (VStr s_in) ->
  dict_get "exit_time" t = Some (VStr s_out) ->
  fromisoformat (replace_Z s_in) = inr entry ->
  fromisoformat (replace_Z s_out) = inr exit ->
  dict_get "duration_seconds" t = Some stored ->
  exists delta diff,
    datetime_sub exit entry = Ok delta /\
    float_sub (total_seconds delta) stored = Ok diff /\
    count_if (String.prefix (trade_msg i "Duration mismatch (")) (report_warnings report)
      = if cmp_gt (float_cmp_int (SFabs diff) 1) then 1%nat else 0%nat.
Proof.
  intros Hr Hn Hin Hout Pin Pout Hd.
  destruct (verify_trade_data_record _ _ _ _ Hr Hn) as [Hrun Hcount].
  pose proof (selects_prefix i "Duration mismatch (") as Hsel.
  destruct (Hcount _ _ Hsel) as [_ ->].
  destruct (check_trade_run i t Hrun) as (O & _ & ->).
  destruct O as (_ & _ & _ & _ & _ & _ & _ & _ & Ot).
  destruct (check_time_consistency_parsed i t _ _ _ _ Hin Hout Pin Pout Ot)
    as (c & _ & _ & Hw).
  rewrite Hd in Hw. destruct Hw as (delta & diff & Hsub & Hfs & Hw).
  exists delta, diff. split; [exact Hsub|]. split; [exact Hfs|].
  rewrite Hw.
  destruct (check_required_shape i t) as [_ ->].
  destruct (check_entry_price_shape i t) as [_ ->].
  destruct (check_exit_price_shape i t) as [_ ->].
  destruct (check_pnl_shape i t) as [_ ->].
  rewrite !count_if_app.
  count_zero Hsel (proj2 (check_duration_shape i t)).
  count_zero Hsel (proj2 (check_trend_strength_shape i t)).
  count_zero Hsel (proj2 (check_volatility_shape i t)).
  count_zero Hsel (proj2 (check_market_regime_shape i t)).
  destruct (cmp_gt (float_cmp_int (SFabs diff) 1)); [|reflexivity].
  rewrite count_if_singleton; [reflexivity|].
  exact (prefix_trade_msg i "Duration mismatch ("
           ("calculated: " ++ format_0f (total_seconds delta)
            ++ "s, stored: " ++ py_str stored ++ "s)")).
Qed.


(** C7, as the code has it.  For every record whose entry_time and
    exit_time parse and whose duration_seconds is present, the report
    of a normal run holds exactly one warning
    [Trade <position>: Duration mismatch (...)] when the binary64 value
    [abs(calculated_duration - duration_seconds)] that Python computes
    exceeds 1, and none otherwise; a computed difference of exactly 1
    gives no warning.  When the timestamps are a whole number [k] of
    seconds apart and duration_seconds is an integer [z], both below
    2^52 in magnitude, the test is exact: one warning when
    [|k - z| > 1], none otherwise. *)
Theorem duration_mismatch_warning (trades : list dict) (report : dict)
    (i : nat) (t : dict) (s_in s_out : string) (entry exit : datetime) (stored : pyval) :
  verify_trade_data trades = Ok report ->
  nth_error trades i = Some t ->
  dict_get "entry_time" t = Some (VStr s_in) ->
  dict_get "exit_time" t = Some (VStr s_out) ->
  fromisoformat (replace_Z s_in) = inr entry ->
  fromisoformat (replace_Z s_out) = inr exit ->
  dict_get "duration_seconds" t = Some stored ->
  exists delta diff,
    datetime_sub exit entry = Ok delta /\
    float_sub (total_seconds delta) stored = Ok diff /\
    count_if (String.prefix ("Trade " ++ dec (i + 1) ++ ": Duration mismatch ("))
             (report_warnings report)
      = (if cmp_gt (float_cmp_int (SFabs diff) 1) then 1%nat else 0%nat) /\
    (float_cmp_int (SFabs diff) 1 = Some Eq ->
     count_if (String.prefix ("Trade " ++ dec (i + 1) ++ ": Duration mismatch ("))
              (report_warnings report) = 0%nat) /\
    (forall k z,
       delta = k * 1000000 -> stored = VInt z ->
       Z.abs k < 2 ^ 52 -> Z.abs z < 2 ^ 52 ->
       count_if (String.prefix ("Trade " ++ dec (i + 1) ++ ": Duration mismatch ("))
                (report_warnings report)
         = (if 1 <? Z.abs (k - z) then 1%nat else 0%nat)).
Proof.
  intros Hr Hn Hin Hout Pin Pout Hd.
  replace (i + 1)%nat with (S i) by lia.
  change ("Trade " ++ dec (S i) ++ ": Duration mismatch (")
    with (trade_msg i "Duration mismatch (").
  destruct (mismatch_warnings_of_record _ _ _ _ _ _ _ _ _ Hr Hn Hin Hout Pin Pout Hd)
    as (delta & diff & Hsub & Hfs & Hc).
  exists delta, diff. repeat split; try assumption.
  - intros E. rewrite Hc, E. reflexivity.
  - intros k z -> -> Hk Hz.
    destruct (duration_test_exact k z Hk Hz) as [Hex Hgt].
    rewrite Hex in Hfs. injection Hfs as <-. now rewrite Hc, Hgt.
Qed.

(** ** Well-typed records are validated without an exception *)















(** The messages of record [i] selected by [f], check by check. *)
Lemma report_counts (trades : list dict) (report : dict) (i : nat) (t : dict)
    (f : string -> bool) (T : string) :
  verify_trade_data trades = Ok report -> nth_error trades i = Some t ->
  selects f i T ->
  count_if f (report_errors report)
    = (count_if f (errs (check_required i t)) + count_if f (errs (check_entry_price i t))
       + count_if f (errs (check_exit_price i t)) + count_if f (errs (check_pnl i t))
       + count_if f (errs (check_time_consistency i t)))%nat /\
  count_if f (report_warnings report)
    = (count_if f (warns (check_duration i t)) + count_if f (warns (check_trend_strength i t))
       + count_if f (warns (check_volatility i t)) + count_if f (warns (check_market_regime i t))
       + count_if f (warns (check_time_consistency i t)))%nat.
Proof.
  intros Hr Hn Hsel.
  destruct (verify_trade_data_record _ _ _ _ Hr Hn) as [Hrun Hcount].
  destruct (Hcount _ _ Hsel) as [-> ->].
  destruct (check_trade_run i t Hrun) as (_ & -> & ->).
  destruct (check_required_shape i t) as [_ ->].
  destruct (check_entry_price_shape i t) as [_ ->].
  destruct (check_exit_price_shape i t) as [_ ->].
  destruct (check_pnl_shape i t) as [_ ->].
  destruct (check_duration_shape i t) as [-> _].
  destruct (check_trend_strength_shape i t) as [-> _].
  destruct (check_volatility_shape i t) as [-> _].
  destruct (check_market_regime_shape i t) as [-> _].
  rewrite !count_if_app. change (count_if f []) with 0%nat. lia.
Qed.

(** Line 207: a record that lacks one of the two timestamps gets no
    time check at all. *)
Lemma check_time_consistency_skipped i t :
  contains "entry_time" t = false \/ contains "exit_time" t = false ->
  check_time_consistency i t ([], []) = (Ok tt, ([], [])).
Proof.
  intros Habsent. unfold check_time_consistency.
  assert (E : contains "entry_time" t && contains "exit_time" t = false)
    by (destruct Habsent as [-> | ->]; [reflexivity | apply andb_false_r]).
  rewrite E. reflexivity.
Qed.

Lemma skipped_time_check_in_report (trades : list dict) (report : dict) (i : nat) (t : dict) :
  verify_trade_data trades = Ok report -> nth_error trades i = Some t ->
  contains "entry_time" t = false \/ contains "exit_time" t = false ->
  count_if (String.prefix (trade_msg i "Invalid datetime format: ")) (report_errors report)
    = 0%nat.
Proof.
  intros Hr Hn Habsent.
  pose proof (selects_prefix i "Invalid datetime format: ") as Hsel.
  destruct (report_counts _ _ _ _ _ _ Hr Hn Hsel) as [-> _].
  count_zero Hsel (proj1 (check_required_shape i t)).
  count_zero Hsel (proj1 (check_entry_price_shape i t)).
  count_zero Hsel (proj1 (check_exit_price_shape i t)).
  count_zero Hsel (proj1 (check_pnl_shape i t)).
  unfold errs. rewrite (check_time_consistency_skipped i t Habsent). reflexivity.
Qed.



(** The findings of every record are in the report. *)
Lemma findings_in_report (trades : list dict) (report : dict) (i : nat) (t : dict) :
  verify_trade_data trades = Ok report -> nth_error trades i = Some t ->
  incl (errs (check_trade i t)) (report_errors report) /\
  incl (warns (check_trade i t)) (report_warnings report).
Proof.
  intros Hr Hn.
  assert (Hne : trades <> []) by (intros ->; destruct i; discriminate).
  destruct (verify_trade_data_findings _ _ Hne Hr) as (_ & -> & ->).
  split; intros m Hm; apply in_flat_map; exists (i, t);
    (split; [exact (enumerate_nth trades 0 i t Hn) | exact Hm]).
Qed.


(** C1 on the code.  On the empty input the returned dictionary has
    the two keys [valid] and [errors] only: [warnings] and
    [total_trades] are absent. *)
Theorem verify_trade_data_empty :
  verify_trade_data [] = Ok [("valid", VBool false); ("errors", VList [VStr "No trades found"])] /\
  (forall report, verify_trade_data [] = Ok report ->
     dict_get "valid" report = Some (VBool false) /\
     dict_get "errors" report = Some (VList [VStr "No trades found"]) /\
     dict_get "warnings" report = None /\
     dict_get "total_trades" report = None).
Proof.
  split; [reflexivity|]. intros report E. simpl in E. injection E as <-.
  repeat split.
Qed.


End ValidatorFacts.

(* ================================================================== *)
(** ** Facts about the transport client *)

Section ClientFacts.
Context `{Runtime}.

(** Every fetch sends exactly one request, with the timeout the call
    site gives: none. *)
Lemma fetch_sent (self : MLTradeQuery) (url : string) (params : list (string * pyval))
    (empty : pyval) (w : world) :
  sent (snd (fetch self url params empty w)) = (sent w ++ [mkrequest url params None])%list.
Proof.
  unfold fetch, try_except, bind, session_get, lift, ret, and_then, print, modify.
  destruct (server w _ _) as [e|r]; simpl.
  - destruct (is_RequestException e); simpl; [reflexivity|].
    destruct (is_JSONDecodeError e); reflexivity.
  - repeat (match goal with
            | |- context [match ?x with _ => _ end] =>
                lazymatch x with
                | context [match _ with _ => _ end] => fail
                | _ => destruct x eqn:?
                end
            end; simpl); reflexivity.
Qed.

(** C5 on the code.  [__init__] assigns [session.timeout = 10], but the
    GET of each of the three operations is sent without a timeout:
    the one request each of them adds to the wire has [req_timeout]
    [None], so nothing bounds the wait for the server. *)
Theorem requests_are_sent_without_timeout (url pair : string) (limit : Z) (w : world) :
  timeout_attribute (session (init url)) = Some 10 /\
  sent (snd (get_ml_trades (init url) pair limit w))
    = (sent w ++ [mkrequest (rstrip_slash url ++ "/ml/trades/" ++ pair)
                            [("limit", VInt limit)] None])%list /\
  sent (snd (get_ml_stats (init url) pair w))
    = (sent w ++ [mkrequest (rstrip_slash url ++ "/ml/stats/" ++ pair) [] None])%list /\
  sent (snd (get_ml_status (init url) w))
    = (sent w ++ [mkrequest (rstrip_slash url ++ "/ml/status") [] None])%list.
Proof.
  unfold get_ml_trades, get_ml_stats, get_ml_status.
  rewrite !fetch_sent. repeat split.
Qed.

(** A failed fetch prints one line and returns the empty result, after
    the one request. *)
Lemma fetch_failure (self : MLTradeQuery) (url : string) (params : list (string * pyval))
    (empty : pyval) (w : world) :
  transport_failure (server w (List.length (sent w)) (mkrequest url params None)) ->
  exists line,
    fetch self url params empty w
      = (Ok empty, after_failed_fetch w (mkrequest url params None) line).
Proof.
  unfold fetch, try_except, bind, session_get, lift, ret, and_then, print, modify,
    after_failed_fetch.
  intros Hf. inversion Hf as [msg Ho | r Hs Ho | r e Hj He Ho | r d Hj Hs Ho]; simpl.
  - eexists. reflexivity.
  - unfold raise_for_status.
    destruct ((400 <=? status_code r) && (status_code r <? 500)) eqn:E4; simpl;
      [eexists; reflexivity|].
    destruct ((500 <=? status_code r) && (status_code r <? 600)) eqn:E5; simpl;
      [eexists; reflexivity|].
    apply andb_false_iff in E4, E5. exfalso.
    destruct E4 as [E4|E4], E5 as [E5|E5]; lia.
  - destruct (raise_for_status url r) as [[]|e'] eqn:Er; simpl.
    + rewrite Hj. simpl.
      destruct (is_RequestException e); simpl; [eexists; reflexivity|].
      rewrite He. simpl. eexists. reflexivity.
    + unfold raise_for_status in Er.
      destruct ((400 <=? status_code r) && (status_code r <? 500));
        [injection Er as <-; simpl; eexists; reflexivity|].
      destruct ((500 <=? status_code r) && (status_code r <? 600));
        [injection Er as <-; simpl; eexists; reflexivity | discriminate].
  - destruct (raise_for_status url r) as [[]|e'] eqn:Er; simpl.
    + rewrite Hj. simpl. unfold get_default. rewrite Hs. simpl.
      eexists. reflexivity.
    + unfold raise_for_status in Er.
      destruct ((400 <=? status_code r) && (status_code r <? 500));
        [injection Er as <-; simpl; eexists; reflexivity|].
      destruct ((500 <=? status_code r) && (status_code r <? 600));
        [injection Er as <-; simpl; eexists; reflexivity | discriminate].
Qed.

(** C9, as the code has it.  When the GET fails (no response, a 4xx or
    5xx status, a body that is not JSON, or [success] false), each of
    the three operations sends that one request only, prints one line
    and returns the empty result ([[]] for the trades, [None] for the
    statistics and the status) without raising. *)
Theorem fetch_failure_is_reported (self : MLTradeQuery) (op : operation) (w : world) :
  transport_failure (server w (List.length (sent w)) (request_of self op)) ->
  exists line,
    run_operation self op w
      = (Ok (empty_result op), after_failed_fetch w (request_of self op) line).
Proof.
  destruct op; simpl; unfold get_ml_trades, get_ml_stats, get_ml_status;
    intros Hf; apply fetch_failure; exact Hf.
Qed.
End ClientFacts.

(* ================================================================== *)
(** ** Facts about the exporter *)

Lemma dict_get_Permutation (k : string) (t t' : dict) :
  NoDup (keys t) -> Permutation t t' -> dict_get k t' = dict_get k t.
Proof.
  intros Hnd Hp. induction Hp as [| [k1 v1] l l' Hp IH | [k1 v1] [k2 v2] l | l l' l'' H1 IH1 H2 IH2].
  - reflexivity.
  - simpl. inversion Hnd; subst. now rewrite IH.
  - simpl. destruct (String.eqb k k1) eqn:E1, (String.eqb k k2) eqn:E2; try reflexivity.
    apply String.eqb_eq in E1, E2. subst. inversion Hnd as [|? ? Hnin _]; subst.
    elim Hnin. now left.
  - rewrite IH2, IH1; auto.
    unfold keys in *. eapply Permutation_NoDup; [|exact Hnd].
    now apply Permutation_map.
Qed.

Lemma file_get_put (name : string) (c : file_content) (fs : list (string * file_content)) :
  file_get name (file_put name c fs) = Some c.
Proof.
  induction fs as [|[n c'] fs IH]; simpl.
  - now rewrite String.eqb_refl.
  - destruct (String.eqb name n) eqn:E; simpl; rewrite ?String.eqb_refl, ?E; auto.
Qed.

Lemma file_put_put (name : string) (c1 c2 : file_content) (fs : list (string * file_content)) :
  file_put name c2 (file_put name c1 fs) = file_put name c2 fs.
Proof.
  induction fs as [|[n c'] fs IH]; simpl.
  - now rewrite String.eqb_refl.
  - destruct (String.eqb name n) eqn:E; simpl; rewrite ?String.eqb_refl, ?E; congruence.
Qed.

Lemma filter_negb_nil {A} (f : A -> bool) (l : list A) :
  filter (fun k => negb (f k)) l = [] <-> forallb f l = true.
Proof.
  induction l as [|a l IH]; simpl; [tauto|].
  destruct (f a); simpl; [exact IH | split; discriminate].
Qed.

Lemma dict_to_list_known (t : dict) :
  known_fields t = true -> dict_to_list fieldnames t = Ok (csv_row t).
Proof.
  unfold known_fields, dict_to_list, csv_row. intros Hk.
  apply filter_negb_nil in Hk. now rewrite Hk.
Qed.

Lemma dict_to_list_extra (t : dict) :
  known_fields t = false -> exists msg, dict_to_list fieldnames t = Raise (ValueError msg).
Proof.
  unfold known_fields, dict_to_list. intros Hk.
  destruct (filter (fun k => negb (mem_string k fieldnames)) (keys t)) as [|k ks] eqn:E;
    [|eexists; reflexivity].
  apply filter_negb_nil in E. congruence.
Qed.

Section ExporterFacts.
Context `{Runtime}.

(** The loop over the records (lines 248-249) on an open file. *)
Lemma write_rows_known (name : string) (trades : list dict) :
  Forall (fun t => known_fields t = true) trades ->
  forall rows0 w,
    file_get name (files w) = Some (CsvRows rows0) ->
    for_each trades (fun trade =>
      row <- lift (dict_to_list fieldnames trade) ;; append_row name (map cell_text row)) w
    = (Ok tt,
       mkworld (stdout w) (sent w) (server w)
               (file_put name (CsvRows (rows0 ++ map csv_cells trades)%list) (files w))
               (clock w) (writable w)).
Proof.
  induction 1 as [|t trades Ht _ IH]; intros rows0 w Hopen; simpl.
  - unfold ret. rewrite app_nil_r. f_equal. destruct w as [o s sv fs c wr]; simpl in *. f_equal.
    clear -Hopen. induction fs as [|[n c'] fs IH]; simpl in *; [discriminate|].
    destruct (String.eqb name n) eqn:E.
    + apply String.eqb_eq in E. subst. congruence.
    + f_equal. auto.
  - unfold bind at 1. unfold bind at 1. unfold lift at 1.
    rewrite (dict_to_list_known t Ht). unfold append_row at 1, modify. rewrite Hopen.
    rewrite IH with (rows0 := (rows0 ++ [csv_cells t])%list); simpl.
    + rewrite file_put_put, <- app_assoc. reflexivity.
    + apply file_get_put.
Qed.

Lemma write_rows_extra (name : string) (trades : list dict) :
  Exists (fun t => known_fields t = false) trades ->
  forall w,
    exists msg w',
      for_each trades (fun trade =>
        row <- lift (dict_to_list fieldnames trade) ;; append_row name (map cell_text row)) w
      = (Raise (ValueError msg), w').
Proof.
  induction trades as [|t trades IH]; intros Hex w; [inversion Hex|].
  simpl. unfold bind at 1. unfold bind at 1. unfold lift at 1.
  destruct (known_fields t) eqn:Hk.
  - rewrite (dict_to_list_known t Hk).
    inversion Hex as [? ? Hbad | ? ? Hrest]; subst; [congruence|].
    apply IH. exact Hrest.
  - destruct (dict_to_list_extra t Hk) as [msg ->]. eauto.
Qed.

(** The choice of the file name (lines 236-238), when it succeeds. *)
Lemma export_name_run (first : dict) (filename : option string) (w : world)
    (k : string -> M world unit) :
  (filename = None -> contains "pair" first = true) ->
  bind (match filename with
        | Some f => ret f
        | None =>
            timestamp <- now_stamp ;;
            pair <- lift (getitem first "pair") ;;
            ret ("ml_trades_" ++ py_str pair ++ "_" ++ timestamp)
        end) k w = k (export_name first filename w) w.
Proof.
  intros Hpair. unfold export_name. destruct filename as [f|]; [reflexivity|].
  specialize (Hpair eq_refl). unfold contains in Hpair.
  unfold bind, now_stamp, lift, ret, getitem, get_default.
  destruct (dict_get "pair" first); [reflexivity | discriminate].
Qed.

(** The CSV export once the file is open: the header is written and
    the loop over the records starts. *)
Lemma export_csv_open (trades : list dict) (filename : string) (w : world) :
  writable w (filename ++ ".csv") = true ->
  export_csv trades filename w
    = bind (for_each trades (fun trade =>
              row <- lift (dict_to_list fieldnames trade) ;;
              append_row (filename ++ ".csv") (map cell_text row)))
        (fun _ => print ("📁 Exported " ++ dec (List.length trades) ++ " trades to "
                         ++ filename ++ ".csv"))
        (mkworld (stdout w) (sent w) (server w)
                 (file_put (filename ++ ".csv") (CsvRows [fieldnames]) (files w))
                 (clock w) (writable w)).
Proof.
  intros Hw. unfold export_csv.
  unfold bind at 1. unfold write_file at 1. rewrite Hw.
  unfold bind at 1. unfold append_row at 1, modify at 1. cbn [files].
  rewrite file_get_put. cbn [stdout sent server files clock writable app].
  now rewrite file_put_put.
Qed.

Lemma export_csv_closed (trades : list dict) (filename : string) (w : world) :
  writable w (filename ++ ".csv") = false ->
  export_csv trades filename w = (Raise OSError, w).
Proof.
  intros Hw. unfold export_csv. unfold bind at 1. unfold write_file at 1. now rewrite Hw.
Qed.

(** C4 on the code, which does not drop an unknown field.  For a
    non-empty list of records and the format csv, with a first record
    that has [pair] when no file name is given: when the file can be
    opened and the keys of every record are among the thirteen
    columns, the export succeeds and writes the header and one row per
    record, each with the thirteen columns in the fixed order; the row
    does not depend on the order of the keys of the record, and a
    missing field is an empty cell.  When the file can be opened and a
    record has a key outside the thirteen columns, the export raises
    the [ValueError] of [csv.DictWriter] instead of dropping the key;
    when the file cannot be opened it raises [OSError] and does
    nothing. *)
Theorem export_csv_columns (first : dict) (rest : list dict) (format_type : string)
    (filename : option string) (w : world) :
  String.eqb (lower format_type) "csv" = true ->
  (filename = None -> contains "pair" first = true) ->
  (writable w (export_name first filename w ++ ".csv") = true ->
   Forall (fun t => known_fields t = true) (first :: rest) ->
   exists w',
     export_trades (first :: rest) format_type filename w = (Ok tt, w') /\
     file_get (export_name first filename w ++ ".csv") (files w')
       = Some (CsvRows (fieldnames :: map csv_cells (first :: rest)))) /\
  (writable w (export_name first filename w ++ ".csv") = true ->
   Exists (fun t => known_fields t = false) (first :: rest) ->
   exists msg w',
     export_trades (first :: rest) format_type filename w = (Raise (ValueError msg), w')) /\
  (writable w (export_name first filename w ++ ".csv") = false ->
   export_trades (first :: rest) format_type filename w = (Raise OSError, w)) /\
  (forall t n key, nth_error fieldnames n = Some key ->
     nth_error (csv_cells t) n
       = Some (match dict_get key t with Some v => cell_text v | None => "" end)) /\
  (forall t t', NoDup (keys t) -> Permutation t t' -> csv_cells t' = csv_cells t).
Proof.
  intros Hcsv Hpair.
  repeat split.
  - intros Hw Hknown. unfold export_trades. rewrite (export_name_run _ _ _ _ Hpair), Hcsv.
    rewrite (export_csv_open _ _ _ Hw).
    set (name := export_name first filename w ++ ".csv").
    unfold bind at 1.
    rewrite (write_rows_known name (first :: rest) Hknown [fieldnames]);
      [|simpl; now rewrite file_get_put].
    unfold print, modify. eexists. split; [reflexivity|].
    simpl files. now rewrite !file_put_put, file_get_put.
  - intros Hw Hbad. unfold export_trades. rewrite (export_name_run _ _ _ _ Hpair), Hcsv.
    rewrite (export_csv_open _ _ _ Hw).
    set (name := export_name first filename w ++ ".csv").
    unfold bind at 1.
    match goal with
    | |- context [for_each _ _ ?w0] =>
        destruct (write_rows_extra name (first :: rest) Hbad w0) as (msg & w' & ->)
    end.
    eauto.
  - intros Hw. unfold export_trades. rewrite (export_name_run _ _ _ _ Hpair), Hcsv.
    now apply export_csv_closed.
  - intros t n key Hn. unfold csv_cells, csv_row, get_default.
    rewrite !nth_error_map, Hn. simpl. destruct (dict_get key t); reflexivity.
  - intros t t' Hnd Hp. unfold csv_cells, csv_row, get_default.
    f_equal. apply map_ext. intros key. now rewrite (dict_get_Permutation key t t' Hnd Hp).
Qed.
End ExporterFacts.

(* ================================================================== *)
(** ** Concrete runs *)


(** A record whose pnl is [True]. *)
Lemma boolean_pnl_passes_type_check_witness :
  exists report,
    verify_trade_data [trade_boolean_pnl] = Ok report /\
    forall e, In e (report_errors report) ->
      String.prefix ("Trade " ++ dec (0 + 1) ++ ": Invalid pnl type (") e = false.
Proof.
  eexists. split; [vm_compute; reflexivity|].
  apply (boolean_pnl_passes_type_check [trade_boolean_pnl] _ 0 trade_boolean_pnl true);
    [vm_compute; reflexivity | reflexivity | reflexivity].
Defined.


(** The same record: zero seconds computed, 120 stored. *)
Lemma duration_mismatch_warning_witness :
  exists report,
    verify_trade_data [trade_exit_equals_entry] = Ok report /\
    exists delta diff,
      datetime_sub (mkdatetime 63839664000000000 (Some 0))
                   (mkdatetime 63839664000000000 (Some 0)) = Ok delta /\
      float_sub (total_seconds delta) (VInt 120) = Ok diff /\
      count_if (String.prefix ("Trade " ++ dec (0 + 1) ++ ": Duration mismatch ("))
               (report_warnings report)
        = (if cmp_gt (float_cmp_int (SFabs diff) 1) then 1%nat else 0%nat) /\
      (float_cmp_int (SFabs diff) 1 = Some Eq ->
       count_if (String.prefix ("Trade " ++ dec (0 + 1) ++ ": Duration mismatch ("))
                (report_warnings report) = 0%nat) /\
      (forall k z,
         delta = k * 1000000 -> VInt 120 = VInt z ->
         Z.abs k < 2 ^ 52 -> Z.abs z < 2 ^ 52 ->
         count_if (String.prefix ("Trade " ++ dec (0 + 1) ++ ": Duration mismatch ("))
                  (report_warnings report)
           = (if 1 <? Z.abs (k - z) then 1%nat else 0%nat)).
Proof.
  eexists. split; [vm_compute; reflexivity|].
  apply (duration_mismatch_warning [trade_exit_equals_entry] _ 0
           trade_exit_equals_entry "2024-01-01T00:00:00Z" "2024-01-01T00:00:00Z"
           (mkdatetime 63839664000000000 (Some 0)) (mkdatetime 63839664000000000 (Some 0))
           (VInt 120));
    [vm_compute; reflexivity | reflexivity | reflexivity | reflexivity
    | vm_compute; reflexivity | vm_compute; reflexivity | reflexivity].
Defined.



(** A fetch of the trades from a server that cannot be reached. *)
Lemma fetch_failure_is_reported_witness :
  exists line,
    run_operation (init DEFAULT_DATABASE_URL) (GetTrades DEFAULT_PAIR 20) unreachable
      = (Ok (VList []),
         after_failed_fetch unreachable
           (request_of (init DEFAULT_DATABASE_URL) (GetTrades DEFAULT_PAIR 20)) line).
Proof.
  apply (fetch_failure_is_reported (init DEFAULT_DATABASE_URL) (GetTrades DEFAULT_PAIR 20)
           unreachable).
  simpl. apply network_failure.
Defined.

(** An export of two records, the second without [pair], and the
    export of a record with the further key [note]: the first
    succeeds, the second raises. *)
Lemma export_csv_columns_witness :
  (exists w',
     export_trades [sample_trade; trade_without_pair] "CSV" (Some "trades") unreachable
       = (Ok tt, w') /\
     file_get (export_name sample_trade (Some "trades") unreachable ++ ".csv") (files w')
       = Some (CsvRows (fieldnames :: map csv_cells [sample_trade; trade_without_pair]))) /\
  (exists msg w',
     export_trades [trade_extra_field] "csv" (Some "trades") unreachable
       = (Raise (ValueError msg), w')).
Proof.
  split.
  - apply (export_csv_columns sample_trade [trade_without_pair] "CSV" (Some "trades") unreachable);
      [reflexivity | discriminate | reflexivity | repeat constructor].
  - apply (export_csv_columns trade_extra_field [] "csv" (Some "trades") unreachable);
      [reflexivity | discriminate | reflexivity | constructor; reflexivity].
Defined.




(** C7 as stated fails: the exact difference exceeds one second, and
    the report has no duration warning, because the float subtraction
    rounds to 1.0; and a duration beyond the float range makes the
    check raise. *)
Lemma duration_mismatch_exact_counterexample :
  exact_gap_exceeds_one 2000000 (VFloat just_below_one) = Some true /\
  (exists report,
     verify_trade_data [trade_rounding] = Ok report /\
     count_if (String.prefix "Trade 1: Duration mismatch (") (report_warnings report) = 0%nat) /\
  verify_trade_data [trade_huge_duration] = Raise OverflowError.
Proof.
  split; [reflexivity|]. split; [|vm_compute; reflexivity].
  eexists. split; vm_compute; reflexivity.
Qed.

(** C9 as stated fails: a 300 status is not a 2xx status, and the
    fetch returns the data of the body without printing anything. *)
Lemma fetch_returns_data_on_status_300 :
  fst (get_ml_trades (init DEFAULT_DATABASE_URL) DEFAULT_PAIR 20 answers_300)
    = Ok (VList [VDict sample_trade]) /\
  stdout (snd (get_ml_trades (init DEFAULT_DATABASE_URL) DEFAULT_PAIR 20 answers_300)) = [].
Proof. split; vm_compute; reflexivity. Qed.

(** The runs that C4 does not describe: a record with a key outside
    the columns makes the export raise after the header was written,
    and a default file name with a [/] in it cannot be opened. *)
Lemma export_csv_raises_on_extra_field :
  fst (export_trades [trade_extra_field] "csv" (Some "trades") unreachable)
    = Raise (ValueError "dict contains fields not in fieldnames: 'note'") /\
  file_get "trades.csv"
    (files (snd (export_trades [trade_extra_field] "csv" (Some "trades") unreachable)))
    = Some (CsvRows [fieldnames]) /\
  export_trades [trade_slash_pair] "csv" None flat_directory = (Raise OSError, flat_directory).
Proof. repeat split; vm_compute; reflexivity. Qed.

(* ================================================================== *)
(** * Further properties *)

Section ValidatorMore.
Context `{Runtime}.

(** What each of the simple checks does from empty lists. *)
Lemma check_entry_price_eval i t :
  check_entry_price i t ([], []) =
    match dict_get "entry_price" t with
    | None => (Ok tt, ([], []))
    | Some v =>
        match py_le_int v 0 with
        | Ok true => (Ok tt, ([trade_msg i ("Invalid entry_price (" ++ py_str v ++ ")")], []))
        | Ok false => (Ok tt, ([], []))
        | Raise e => (Raise e, ([], []))
        end
    end.
Proof.
  unfold check_entry_price. unfold_checks.
  destruct (dict_get "entry_price" t) as [v|]; simpl; [|reflexivity].
  destruct (py_le_int v 0) as [[|]|e]; reflexivity.
Qed.

Lemma check_exit_price_eval i t :
  check_exit_price i t ([], []) =
    match dict_get "exit_price" t with
    | None => (Ok tt, ([], []))
    | Some v =>
        match py_le_int v 0 with
        | Ok true => (Ok tt, ([trade_msg i ("Invalid exit_price (" ++ py_str v ++ ")")], []))
        | Ok false => (Ok tt, ([], []))
        | Raise e => (Raise e, ([], []))
        end
    end.
Proof.
  unfold check_exit_price. unfold_checks.
  destruct (dict_get "exit_price" t) as [v|]; simpl; [|reflexivity].
  destruct (py_le_int v 0) as [[|]|e]; reflexivity.
Qed.

Lemma check_pnl_eval i t :
  check_pnl i t ([], []) =
    match dict_get "pnl" t with
    | None => (Ok tt, ([], []))
    | Some v =>
        if isinstance_int_float v then (Ok tt, ([], []))
        else (Ok tt, ([trade_msg i ("Invalid pnl type (" ++ type_repr v ++ ")")], []))
    end.
Proof.
  unfold check_pnl. unfold_checks.
  destruct (dict_get "pnl" t) as [v|]; simpl; [|reflexivity].
  destruct (isinstance_int_float v); reflexivity.
Qed.

Lemma check_duration_eval i t :
  check_duration i t ([], []) =
    match dict_get "duration_seconds" t with
    | None => (Ok tt, ([], []))
    | Some v =>
        match py_lt_int v 0 with
        | Ok true => (Ok tt, ([], [trade_msg i ("Negative duration (" ++ py_str v ++ "s)")]))
        | Ok false => (Ok tt, ([], []))
        | Raise e => (Raise e, ([], []))
        end
    end.
Proof.
  unfold check_duration. unfold_checks.
  destruct (dict_get "duration_seconds" t) as [v|]; simpl; [|reflexivity].
  destruct (py_lt_int v 0) as [[|]|e]; reflexivity.
Qed.

Lemma check_volatility_eval i t :
  check_volatility i t ([], []) =
    match dict_get "volatility" t with
    | None => (Ok tt, ([], []))
    | Some v =>
        match py_lt_int v 0 with
        | Ok true => (Ok tt, ([], [trade_msg i ("Negative volatility (" ++ py_str v ++ ")")]))
        | Ok false => (Ok tt, ([], []))
        | Raise e => (Raise e, ([], []))
        end
    end.
Proof.
  unfold check_volatility. unfold_checks.
  destruct (dict_get "volatility" t) as [v|]; simpl; [|reflexivity].
  destruct (py_lt_int v 0) as [[|]|e]; reflexivity.
Qed.

Lemma check_trend_strength_eval i t :
  check_trend_strength i t ([], []) =
    match dict_get "trend_strength" t with
    | None => (Ok tt, ([], []))
    | Some v =>
        match in_unit_interval v with
        | Ok false =>
            (Ok tt, ([], [trade_msg i ("Trend strength out of range (" ++ py_str v ++ ")")]))
        | Ok true => (Ok tt, ([], []))
        | Raise e => (Raise e, ([], []))
        end
    end.
Proof.
  unfold check_trend_strength, in_unit_interval. unfold_checks.
  destruct (dict_get "trend_strength" t) as [v|]; simpl; [|reflexivity].
  destruct (py_int_le 0 v) as [[|]|e]; simpl; try reflexivity.
  destruct (py_le_int v 1) as [[|]|e]; reflexivity.
Qed.

Lemma check_market_regime_eval i t :
  check_market_regime i t ([], []) =
    match dict_get "market_regime" t with
    | None => (Ok tt, ([], []))
    | Some v =>
        if in_strings v valid_regimes then (Ok tt, ([], []))
        else (Ok tt, ([], [trade_msg i ("Unknown market regime (" ++ py_str v ++ ")")]))
    end.
Proof.
  unfold check_market_regime. unfold_checks.
  destruct (dict_get "market_regime" t) as [v|]; simpl; [|reflexivity].
  destruct (in_strings v valid_regimes); reflexivity.
Qed.

(** Every check of a record of a returned report ran normally. *)
Lemma record_checks_ok (trades : list dict) (report : dict) (i : nat) (t : dict) :
  verify_trade_data trades = Ok report -> nth_error trades i = Some t ->
  outcome (check_required i t) = Ok tt /\
  outcome (check_entry_price i t) = Ok tt /\
  outcome (check_exit_price i t) = Ok tt /\
  outcome (check_pnl i t) = Ok tt /\
  outcome (check_duration i t) = Ok tt /\
  outcome (check_trend_strength i t) = Ok tt /\
  outcome (check_volatility i t) = Ok tt /\
  outcome (check_market_regime i t) = Ok tt /\
  outcome (check_time_consistency i t) = Ok tt.
Proof.
  intros Hr Hn. destruct (verify_trade_data_record _ _ _ _ Hr Hn) as [Hrun _].
  exact (proj1 (check_trade_run i t Hrun)).
Qed.

Lemma count_prefix_one (i : nat) (T rest : string) :
  count_if (String.prefix (trade_msg i T)) [trade_msg i (T ++ rest)] = 1%nat.
Proof. apply count_if_singleton, prefix_trade_msg. Qed.

Lemma entry_price_count (trades : list dict) (report : dict) (i : nat) (t : dict) (v : pyval) :
  verify_trade_data trades = Ok report -> nth_error trades i = Some t ->
  dict_get "entry_price" t = Some v ->
  exists c, py_le_int v 0 = Ok c /\
    count_if (String.prefix (trade_msg i "Invalid entry_price (")) (report_errors report)
      = if c then 1%nat else 0%nat.
Proof.
  intros Hr Hn Hv.
  pose proof (selects_prefix i "Invalid entry_price (") as Hsel.
  destruct (report_counts _ _ _ _ _ _ Hr Hn Hsel) as [-> _].
  destruct (record_checks_ok _ _ _ _ Hr Hn) as (_ & O & _).
  count_zero Hsel (proj1 (check_required_shape i t)).
  count_zero Hsel (proj1 (check_exit_price_shape i t)).
  count_zero Hsel (proj1 (check_pnl_shape i t)).
  count_zero Hsel (proj1 (check_time_consistency_shape i t)).
  unfold outcome in O. unfold errs. rewrite check_entry_price_eval, Hv in *.
  destruct (py_le_int v 0) as [[|]|e]; simpl in O; try discriminate; cbn [fst snd].
  - exists true. split; [reflexivity|].
    rewrite (count_prefix_one i "Invalid entry_price (" (py_str v ++ ")")). reflexivity.
  - exists false. split; reflexivity.
Qed.

Lemma exit_price_count (trades : list dict) (report : dict) (i : nat) (t : dict) (v : pyval) :
  verify_trade_data trades = Ok report -> nth_error trades i = Some t ->
  dict_get "exit_price" t = Some v ->
  exists c, py_le_int v 0 = Ok c /\
    count_if (String.prefix (trade_msg i "Invalid exit_price (")) (report_errors report)
      = if c then 1%nat else 0%nat.
Proof.
  intros Hr Hn Hv.
  pose proof (selects_prefix i "Invalid exit_price (") as Hsel.
  destruct (report_counts _ _ _ _ _ _ Hr Hn Hsel) as [-> _].
  destruct (record_checks_ok _ _ _ _ Hr Hn) as (_ & _ & O & _).
  count_zero Hsel (proj1 (check_required_shape i t)).
  count_zero Hsel (proj1 (check_entry_price_shape i t)).
  count_zero Hsel (proj1 (check_pnl_shape i t)).
  count_zero Hsel (proj1 (check_time_consistency_shape i t)).
  unfold outcome in O. unfold errs. rewrite check_exit_price_eval, Hv in *.
  destruct (py_le_int v 0) as [[|]|e]; simpl in O; try discriminate; cbn [fst snd].
  - exists true. split; [reflexivity|].
    rewrite (count_prefix_one i "Invalid exit_price (" (py_str v ++ ")")). reflexivity.
  - exists false. split; reflexivity.
Qed.

(** X1.  For a record whose entry_price (or exit_price) is present, the
    comparison [price <= 0] is defined and the report holds exactly one
    error [Trade <position>: Invalid <field> (...)] when it is true and
    none when it is false; a NaN price is not [<= 0] and gives none. *)
Theorem nonpositive_price_reported_once (trades : list dict) (report : dict)
    (i : nat) (t : dict) (field : string) (v : pyval) :
  verify_trade_data trades = Ok report ->
  nth_error trades i = Some t ->
  In field ["entry_price"; "exit_price"] ->
  dict_get field t = Some v ->
  exists c,
    py_le_int v 0 = Ok c /\
    count_if (String.prefix ("Trade " ++ dec (i + 1) ++ ": Invalid " ++ field ++ " ("))
             (report_errors report)
      = (if c then 1%nat else 0%nat) /\
    (v = VFloat S754_nan -> c = false).
Proof.
  intros Hr Hn Hf Hv. replace (i + 1)%nat with (S i) by lia.
  destruct Hf as [<-|[<-|[]]].
  - destruct (entry_price_count _ _ _ _ _ Hr Hn Hv) as (c & Hc & Hcount).
    exists c. repeat split; try assumption.
    intros ->. cbv in Hc. congruence.
  - destruct (exit_price_count _ _ _ _ _ Hr Hn Hv) as (c & Hc & Hcount).
    exists c. repeat split; try assumption.
    intros ->. cbv in Hc. congruence.
Qed.

(** X2.  The three range warnings.  For a record of a returned report:
    a present duration_seconds (volatility) gives exactly one warning
    [Negative duration] ([Negative volatility]) when it is [< 0] and
    none otherwise; a present trend_strength gives exactly one warning
    [Trend strength out of range] when [0 <= x <= 1] is false, and none
    when it is true. *)
Theorem range_warnings_reported_once (trades : list dict) (report : dict)
    (i : nat) (t : dict) :
  verify_trade_data trades = Ok report ->
  nth_error trades i = Some t ->
  (forall v, dict_get "duration_seconds" t = Some v ->
     exists c, py_lt_int v 0 = Ok c /\
       count_if (String.prefix ("Trade " ++ dec (i + 1) ++ ": Negative duration ("))
                (report_warnings report) = if c then 1%nat else 0%nat) /\
  (forall v, dict_get "volatility" t = Some v ->
     exists c, py_lt_int v 0 = Ok c /\
       count_if (String.prefix ("Trade " ++ dec (i + 1) ++ ": Negative volatility ("))
                (report_warnings report) = if c then 1%nat else 0%nat) /\
  (forall v, dict_get "trend_strength" t = Some v ->
     exists c, in_unit_interval v = Ok c /\
       count_if (String.prefix ("Trade " ++ dec (i + 1) ++ ": Trend strength out of range ("))
                (report_warnings report) = if c then 0%nat else 1%nat).
Proof.
  intros Hr Hn. replace (i + 1)%nat with (S i) by lia.
  destruct (record_checks_ok _ _ _ _ Hr Hn) as (_ & _ & _ & _ & Od & Ot & Ov & _).
  split; [|split]; intros v Hv.
  - change ("Trade " ++ dec (S i) ++ ": Negative duration (")
      with (trade_msg i "Negative duration (").
    pose proof (selects_prefix i "Negative duration (") as Hsel.
    destruct (report_counts _ _ _ _ _ _ Hr Hn Hsel) as [_ ->].
    count_zero Hsel (proj2 (check_trend_strength_shape i t)).
    count_zero Hsel (proj2 (check_volatility_shape i t)).
    count_zero Hsel (proj2 (check_market_regime_shape i t)).
    count_zero Hsel (proj2 (check_time_consistency_shape i t)).
    unfold outcome in Od. unfold warns. rewrite check_duration_eval, Hv in *.
    destruct (py_lt_int v 0) as [[|]|e]; simpl in Od; try discriminate; cbn [fst snd].
    + exists true. split; [reflexivity|].
      rewrite (count_prefix_one i "Negative duration (" (py_str v ++ "s)")). reflexivity.
    + exists false. split; reflexivity.
  - change ("Trade " ++ dec (S i) ++ ": Negative volatility (")
      with (trade_msg i "Negative volatility (").
    pose proof (selects_prefix i "Negative volatility (") as Hsel.
    destruct (report_counts _ _ _ _ _ _ Hr Hn Hsel) as [_ ->].
    count_zero Hsel (proj2 (check_duration_shape i t)).
    count_zero Hsel (proj2 (check_trend_strength_shape i t)).
    count_zero Hsel (proj2 (check_market_regime_shape i t)).
    count_zero Hsel (proj2 (check_time_consistency_shape i t)).
    unfold outcome in Ov. unfold warns. rewrite check_volatility_eval, Hv in *.
    destruct (py_lt_int v 0) as [[|]|e]; simpl in Ov; try discriminate; cbn [fst snd].
    + exists true. split; [reflexivity|].
      rewrite (count_prefix_one i "Negative volatility (" (py_str v ++ ")")). reflexivity.
    + exists false. split; reflexivity.
  - change ("Trade " ++ dec (S i) ++ ": Trend strength out of range (")
      with (trade_msg i "Trend strength out of range (").
    pose proof (selects_prefix i "Trend strength out of range (") as Hsel.
    destruct (report_counts _ _ _ _ _ _ Hr Hn Hsel) as [_ ->].
    count_zero Hsel (proj2 (check_duration_shape i t)).
    count_zero Hsel (proj2 (check_volatility_shape i t)).
    count_zero Hsel (proj2 (check_market_regime_shape i t)).
    count_zero Hsel (proj2 (check_time_consistency_shape i t)).
    unfold outcome in Ot. unfold warns. rewrite check_trend_strength_eval, Hv in *.
    destruct (in_unit_interval v) as [[|]|e]; simpl in Ot; try discriminate; cbn [fst snd].
    + exists true. split; reflexivity.
    + exists false. split; [reflexivity|].
      rewrite (count_prefix_one i "Trend strength out of range (" (py_str v ++ ")")). reflexivity.
Qed.

(** X3.  For a record of a returned report whose market_regime is
    present, the report holds exactly one warning
    [Trade <position>: Unknown market regime (...)] unless the value is
    one of the strings Consolidating, Trending, Volatile, in which case
    it holds none; a value that is not a string is always unknown. *)
Theorem unknown_market_regime_warned_once (trades : list dict) (report : dict)
    (i : nat) (t : dict) (v : pyval) :
  verify_trade_data trades = Ok report ->
  nth_error trades i = Some t ->
  dict_get "market_regime" t = Some v ->
  count_if (String.prefix ("Trade " ++ dec (i + 1) ++ ": Unknown market regime ("))
           (report_warnings report)
    = (if in_strings v valid_regimes then 0%nat else 1%nat) /\
  (in_strings v valid_regimes = true <->
   exists s, v = VStr s /\ In s ["Consolidating"; "Trending"; "Volatile"]).
Proof.
  intros Hr Hn Hv. replace (i + 1)%nat with (S i) by lia.
  change ("Trade " ++ dec (S i) ++ ": Unknown market regime (")
    with (trade_msg i "Unknown market regime (").
  split.
  - pose proof (selects_prefix i "Unknown market regime (") as Hsel.
    destruct (report_counts _ _ _ _ _ _ Hr Hn Hsel) as [_ ->].
    count_zero Hsel (proj2 (check_duration_shape i t)).
    count_zero Hsel (proj2 (check_trend_strength_shape i t)).
    count_zero Hsel (proj2 (check_volatility_shape i t)).
    count_zero Hsel (proj2 (check_time_consistency_shape i t)).
    unfold warns. rewrite check_market_regime_eval, Hv.
    destruct (in_strings v valid_regimes); cbn [fst snd]; [reflexivity|].
    rewrite (count_prefix_one i "Unknown market regime (" (py_str v ++ ")")). reflexivity.
  - unfold in_strings, valid_regimes. split.
    + destruct v as [| | | |s| |]; try discriminate. intros E.
      apply existsb_exists in E. destruct E as (x & Hin & E).
      apply String.eqb_eq in E. subst x. eauto.
    + intros (s & -> & Hin). apply existsb_exists. exists s.
      split; [exact Hin | apply String.eqb_refl].
Qed.

Lemma flat_map_nil {A B} (f : A -> list B) (l : list A) :
  flat_map f l = [] <-> forall x, In x l -> f x = [].
Proof.
  induction l as [|a l IH]; simpl.
  - split; [intros _ x [] | reflexivity].
  - split.
    + intros E x [<-|Hin]; apply app_eq_nil in E; destruct E as [E1 E2]; [exact E1|].
      now apply IH.
    + intros Hall. rewrite (Hall a) by now left. simpl. apply IH. auto.
Qed.

Lemma contains_Some (k : string) (t : dict) :
  contains k t = true -> exists v, dict_get k t = Some v.
Proof. unfold contains. destruct (dict_get k t); [eauto | discriminate]. Qed.

(** A time check that ran normally without an error parsed both
    timestamps and found the exit after the entry. *)
Lemma check_time_consistency_no_error i t :
  contains "entry_time" t = true -> contains "exit_time" t = true ->
  outcome (check_time_consistency i t) = Ok tt ->
  errs (check_time_consistency i t) = [] ->
  exists s_in s_out entry exit,
    dict_get "entry_time" t = Some (VStr s_in) /\
    dict_get "exit_time" t = Some (VStr s_out) /\
    fromisoformat (replace_Z s_in) = inr entry /\
    fromisoformat (replace_Z s_out) = inr exit /\
    datetime_le exit entry = Ok false.
Proof.
  intros Cin Cout Hrun He.
  assert (P : exists s_in s_out entry exit,
             dict_get "entry_time" t = Some (VStr s_in) /\
             dict_get "exit_time" t = Some (VStr s_out) /\
             fromisoformat (replace_Z s_in) = inr entry /\
             fromisoformat (replace_Z s_out) = inr exit).
  { destruct (contains_Some _ _ Cin) as [v_in Hin].
    destruct (contains_Some _ _ Cout) as [v_out Hout].
    revert Hrun He.
    unfold outcome, errs, check_time_consistency, except_ValueError.
    rewrite Cin, Cout. unfold_checks. unfold parse_datetime. rewrite Hin, Hout. simpl.
    destruct v_in as [| | | |s_in| |]; simpl; try discriminate.
    destruct (fromisoformat (replace_Z s_in)) as [msg|entry] eqn:Pin; simpl; [discriminate|].
    destruct v_out as [| | | |s_out| |]; simpl; try discriminate.
    destruct (fromisoformat (replace_Z s_out)) as [msg|exit] eqn:Pout; simpl; [discriminate|].
    intros _ _. exists s_in, s_out, entry, exit. auto. }
  destruct P as (s_in & s_out & entry & exit & Hin & Hout & Pin & Pout).
  destruct (check_time_consistency_parsed i t _ _ _ _ Hin Hout Pin Pout Hrun)
    as (c & Hc & Ec & _).
  rewrite Ec in He. destruct c; [discriminate|].
  exists s_in, s_out, entry, exit. auto 6.
Qed.

Lemma required_all_present i t :
  errs (check_required i t) = [] <->
  forall field, In field required_fields -> contains field t = true.
Proof.
  destruct (check_required_run i t) as (_ & -> & _). split.
  - intros E field Hin.
    destruct (contains field t) eqn:C; [reflexivity|]. exfalso.
    assert (Hf : In field (filter (fun f => negb (contains f t)) required_fields))
      by (apply filter_In; split; [exact Hin | now rewrite C]).
    apply (in_map (missing_msg i)) in Hf. rewrite E in Hf. exact Hf.
  - intros Hall.
    assert (E : filter (fun f => negb (contains f t)) required_fields = []).
    { induction required_fields as [|f l IH]; simpl; [reflexivity|].
      rewrite (Hall f) by now left. simpl. apply IH. intros g Hg. apply Hall. now right. }
    now rewrite E.
Qed.

(** The errors of one record, in a run that ended normally. *)
Lemma record_errors_nil_iff i t :
  outcome (check_trade i t) = Ok tt ->
  (errs (check_trade i t) = [] <-> error_free t).
Proof.
  intros Hrun. destruct (check_trade_run i t Hrun) as (O & -> & _).
  destruct O as (_ & Oe & Ox & Op & _ & _ & _ & _ & Ot).
  destruct (check_duration_shape i t) as [-> _].
  destruct (check_trend_strength_shape i t) as [-> _].
  destruct (check_volatility_shape i t) as [-> _].
  destruct (check_market_regime_shape i t) as [-> _].
  simpl. split.
  - intros E.
    apply app_eq_nil in E. destruct E as [Er E].
    apply app_eq_nil in E. destruct E as [Ee E].
    apply app_eq_nil in E. destruct E as [Ex E].
    apply app_eq_nil in E. destruct E as [Ep Et].
    pose proof (proj1 (required_all_present i t) Er) as Hall.
    split; [exact Hall|].
    assert (In_req : forall k, In k required_fields -> exists v, dict_get k t = Some v)
      by (intros k Hk; apply contains_Some, Hall, Hk).
    split; [|split; [|split]].
    + destruct (In_req "entry_price") as [v Hv]; [simpl; tauto|].
      exists v. split; [exact Hv|].
      unfold outcome in Oe. unfold errs in Ee. rewrite check_entry_price_eval, Hv in *.
      destruct (py_le_int v 0) as [[|]|e]; simpl in *; congruence.
    + destruct (In_req "exit_price") as [v Hv]; [simpl; tauto|].
      exists v. split; [exact Hv|].
      unfold outcome in Ox. unfold errs in Ex. rewrite check_exit_price_eval, Hv in *.
      destruct (py_le_int v 0) as [[|]|e]; simpl in *; congruence.
    + destruct (In_req "pnl") as [v Hv]; [simpl; tauto|].
      exists v. split; [exact Hv|].
      unfold errs in Ep. rewrite check_pnl_eval, Hv in *.
      destruct (isinstance_int_float v); simpl in *; congruence.
    + apply (check_time_consistency_no_error i t); auto; apply Hall; simpl; tauto.
  - intros (Hall & (ve & Hve & Le) & (vx & Hvx & Lx) & (vp & Hvp & Ip)
            & (s_in & s_out & entry & exit & Hin & Hout & Pin & Pout & Hle)).
    rewrite (proj2 (required_all_present i t) Hall).
    unfold errs at 1 2 3.
    rewrite check_entry_price_eval, Hve, Le, check_exit_price_eval, Hvx, Lx,
      check_pnl_eval, Hvp, Ip. simpl.
    destruct (check_time_consistency_parsed i t _ _ _ _ Hin Hout Pin Pout Ot)
      as (c & Hc & -> & _).
    assert (c = false) by congruence. subst c. reflexivity.
Qed.

(** X4.  What [valid] means.  In the report returned for a non-empty
    input, [valid] is true exactly when every record is free of errors:
    it has the thirteen required fields, prices that are not [<= 0], a
    numeric pnl, and entry and exit timestamps that parse with the exit
    strictly after the entry. *)
Theorem valid_iff_records_error_free (trades : list dict) (report : dict) :
  trades <> [] ->
  verify_trade_data trades = Ok report ->
  (dict_get "valid" report = Some (VBool true) <-> Forall error_free trades).
Proof.
  intros Hne Hr.
  destruct (verify_trade_data_findings _ _ Hne Hr) as (F & HE & _).
  destruct (verify_trade_data_nonempty _ _ Hne Hr) as [Hrun Hrep].
  destruct (for_enumerate_run check_trade check_trade_appends trades 0 Hrun) as (_ & Eloop & _).
  assert (Hv : dict_get "valid" report = Some (VBool true) <-> report_errors report = []).
  { rewrite HE, <- Eloop. rewrite Hrep at 1. simpl.
    destruct (errs (for_enumerate 0 trades check_trade)); simpl; split; congruence. }
  rewrite Hv, HE, flat_map_nil. rewrite Forall_forall in F. split.
  - intros Hall. apply Forall_forall. intros t Hin.
    apply In_nth_error in Hin. destruct Hin as [i Hn].
    pose proof (enumerate_nth trades 0 i t Hn) as Hit.
    apply (record_errors_nil_iff i t (F _ Hit)). exact (Hall _ Hit).
  - intros Hall [i t] Hin. simpl.
    apply (record_errors_nil_iff i t (F _ Hin)).
    rewrite Forall_forall in Hall. apply Hall.
    apply enumerate_In in Hin. eapply nth_error_In, Hin.
Qed.

(** X5.  Every message of a returned report names a record of the
    input: each error reads [Trade k: <text>...] with [1 <= k <= n] and
    [<text>] one of the six error texts, each warning likewise with one
    of the five warning texts, and [total_trades] is [n], the number of
    records. *)
Theorem messages_name_a_record (trades : list dict) (report : dict) :
  trades <> [] ->
  verify_trade_data trades = Ok report ->
  (forall m, In m (report_errors report) ->
     exists k text rest,
       (1 <= k <= List.length trades)%nat /\ In text error_tags /\
       m = "Trade " ++ dec k ++ ": " ++ text ++ rest) /\
  (forall m, In m (report_warnings report) ->
     exists k text rest,
       (1 <= k <= List.length trades)%nat /\ In text warning_tags /\
       m = "Trade " ++ dec k ++ ": " ++ text ++ rest) /\
  dict_get "total_trades" report = Some (VInt (Z.of_nat (List.length trades))).
Proof.
  intros Hne Hr.
  destruct (verify_trade_data_findings _ _ Hne Hr) as (F & -> & ->).
  rewrite Forall_forall in F.
  assert (Hpos : forall i t, In (i, t) (enumerate 0 trades) -> (1 <= S i <= List.length trades)%nat).
  { intros i t Hin. apply enumerate_In in Hin. destruct Hin as [_ Hn].
    assert (Hlt : (i - 0 < List.length trades)%nat)
      by (apply nth_error_Some; congruence).
    lia. }
  split; [|split].
  - intros m Hm. apply in_flat_map in Hm. destruct Hm as ([i t] & Hin & Hm). simpl in Hm.
    destruct (check_trade_shape i t (F _ Hin)) as [TE _].
    rewrite Forall_forall in TE. destruct (TE _ Hm) as (tag & rest & Htag & ->).
    exists (S i), tag, rest. split; [eapply Hpos, Hin|]. split; [exact Htag | reflexivity].
  - intros m Hm. apply in_flat_map in Hm. destruct Hm as ([i t] & Hin & Hm). simpl in Hm.
    destruct (check_trade_shape i t (F _ Hin)) as [_ TW].
    rewrite Forall_forall in TW. destruct (TW _ Hm) as (tag & rest & Htag & ->).
    exists (S i), tag, rest. split; [eapply Hpos, Hin|]. split; [exact Htag | reflexivity].
  - destruct (verify_trade_data_nonempty _ _ Hne Hr) as [_ ->]. reflexivity.
Qed.

(** A timestamp that does not parse: the whole effect of the time check. *)
Lemma check_time_consistency_malformed i t s_in msg :
  dict_get "entry_time" t = Some (VStr s_in) -> contains "exit_time" t = true ->
  (fromisoformat (replace_Z s_in) = inl msg \/
   exists entry s_out,
     fromisoformat (replace_Z s_in) = inr entry /\
     dict_get "exit_time" t = Some (VStr s_out) /\
     fromisoformat (replace_Z s_out) = inl msg) ->
  check_time_consistency i t ([], [])
    = (Ok tt, ([trade_msg i ("Invalid datetime format: " ++ msg)], [])).
Proof.
  intros Hin Cout Hbad.
  assert (Cin : contains "entry_time" t = true) by (unfold contains; now rewrite Hin).
  unfold check_time_consistency. rewrite Cin, Cout.
  unfold except_ValueError. unfold_checks. unfold parse_datetime.
  rewrite Hin. simpl.
  destruct Hbad as [Pin | (entry & s_out & Pin & Hout & Pout)].
  - rewrite Pin. reflexivity.
  - rewrite Pin, Hout. simpl. rewrite Pout. reflexivity.
Qed.

(** X7.  A malformed timestamp.  In a returned report, for a record
    that has both entry_time and exit_time: when entry_time is a string
    that does not parse, or parses while exit_time is a string that
    does not, the report holds for that record exactly one error
    [Invalid datetime format: <message of the parser>], no error about
    the order of the two times and no duration-mismatch warning.  A
    record that lacks entry_time or exit_time gets no time check: the
    report holds no [Invalid datetime format] error for it, whatever
    the timestamp that is present holds. *)
Theorem malformed_timestamp_reported_once (trades : list dict) (report : dict)
    (i : nat) (t : dict) :
  verify_trade_data trades = Ok report ->
  nth_error trades i = Some t ->
  (forall s_in msg,
     dict_get "entry_time" t = Some (VStr s_in) ->
     contains "exit_time" t = true ->
     (fromisoformat (replace_Z s_in) = inl msg \/
      exists entry s_out,
        fromisoformat (replace_Z s_in) = inr entry /\
        dict_get "exit_time" t = Some (VStr s_out) /\
        fromisoformat (replace_Z s_out) = inl msg) ->
     In ("Trade " ++ dec (i + 1) ++ ": Invalid datetime format: " ++ msg) (report_errors report) /\
     count_if (String.prefix ("Trade " ++ dec (i + 1) ++ ": Invalid datetime format: "))
              (report_errors report) = 1%nat /\
     count_if (String.prefix ("Trade " ++ dec (i + 1) ++ ": Exit time before or equal to entry time"))
              (report_errors report) = 0%nat /\
     count_if (String.prefix ("Trade " ++ dec (i + 1) ++ ": Duration mismatch ("))
              (report_warnings report) = 0%nat) /\
  (contains "entry_time" t = false \/ contains "exit_time" t = false ->
   count_if (String.prefix ("Trade " ++ dec (i + 1) ++ ": Invalid datetime format: "))
            (report_errors report) = 0%nat).
Proof.
  intros Hr Hn. replace (i + 1)%nat with (S i) by lia.
  split; [|exact (skipped_time_check_in_report _ _ _ _ Hr Hn)].
  intros s_in msg Hin Cout Hbad.
  pose proof (check_time_consistency_malformed i t s_in msg Hin Cout Hbad) as Ht.
  assert (He : errs (check_time_consistency i t)
               = [trade_msg i ("Invalid datetime format: " ++ msg)])
    by (unfold errs; now rewrite Ht).
  assert (Hw : warns (check_time_consistency i t) = []) by (unfold warns; now rewrite Ht).
  assert (Shape : Forall (tagged i ["Invalid datetime format: "])
                         (errs (check_time_consistency i t))).
  { rewrite He. constructor; [|constructor].
    exists "Invalid datetime format: ", msg. split; [now left | reflexivity]. }
  split; [|split; [|split]].
  - apply (proj1 (findings_in_report _ _ _ _ Hr Hn)).
    destruct (verify_trade_data_record _ _ _ _ Hr Hn) as [Hrun _].
    destruct (check_trade_run i t Hrun) as (_ & -> & _).
    rewrite He. repeat (apply in_or_app; right). now left.
  - change ("Trade " ++ dec (S i) ++ ": Invalid datetime format: ")
      with (trade_msg i "Invalid datetime format: ").
    pose proof (selects_prefix i "Invalid datetime format: ") as Hsel.
    destruct (report_counts _ _ _ _ _ _ Hr Hn Hsel) as [-> _].
    count_zero Hsel (proj1 (check_required_shape i t)).
    count_zero Hsel (proj1 (check_entry_price_shape i t)).
    count_zero Hsel (proj1 (check_exit_price_shape i t)).
    count_zero Hsel (proj1 (check_pnl_shape i t)).
    rewrite He. apply count_prefix_one.
  - change ("Trade " ++ dec (S i) ++ ": Exit time before or equal to entry time")
      with (trade_msg i "Exit time before or equal to entry time").
    pose proof (selects_prefix i "Exit time before or equal to entry time") as Hsel.
    destruct (report_counts _ _ _ _ _ _ Hr Hn Hsel) as [-> _].
    count_zero Hsel (proj1 (check_required_shape i t)).
    count_zero Hsel (proj1 (check_entry_price_shape i t)).
    count_zero Hsel (proj1 (check_exit_price_shape i t)).
    count_zero Hsel (proj1 (check_pnl_shape i t)).
    count_zero Hsel Shape. reflexivity.
  - change ("Trade " ++ dec (S i) ++ ": Duration mismatch (")
      with (trade_msg i "Duration mismatch (").
    pose proof (selects_prefix i "Duration mismatch (") as Hsel.
    destruct (report_counts _ _ _ _ _ _ Hr Hn Hsel) as [_ ->].
    count_zero Hsel (proj2 (check_duration_shape i t)).
    count_zero Hsel (proj2 (check_trend_strength_shape i t)).
    count_zero Hsel (proj2 (check_volatility_shape i t)).
    count_zero Hsel (proj2 (check_market_regime_shape i t)).
    rewrite Hw. reflexivity.
Qed.

(** X8.  The type check of pnl.  For a record of a returned report
    whose pnl is present, the report holds exactly one error
    [Invalid pnl type (<type>)] unless the value is an int, a float or
    a bool, in which case it holds none; the check itself never
    raises. *)
Theorem pnl_type_reported_once (trades : list dict) (report : dict)
    (i : nat) (t : dict) (v : pyval) :
  verify_trade_data trades = Ok report ->
  nth_error trades i = Some t ->
  dict_get "pnl" t = Some v ->
  count_if (String.prefix ("Trade " ++ dec (i + 1) ++ ": Invalid pnl type ("))
           (report_errors report)
    = (if isinstance_int_float v then 0%nat else 1%nat) /\
  (isinstance_int_float v = true <->
   (exists b, v = VBool b) \/ (exists z, v = VInt z) \/ (exists f, v = VFloat f)) /\
  (forall j u, outcome (check_pnl j u) = Ok tt).
Proof.
  intros Hr Hn Hv. replace (i + 1)%nat with (S i) by lia.
  change ("Trade " ++ dec (S i) ++ ": Invalid pnl type (")
    with (trade_msg i "Invalid pnl type (").
  split; [|split].
  - pose proof (selects_prefix i "Invalid pnl type (") as Hsel.
    destruct (report_counts _ _ _ _ _ _ Hr Hn Hsel) as [-> _].
    count_zero Hsel (proj1 (check_required_shape i t)).
    count_zero Hsel (proj1 (check_entry_price_shape i t)).
    count_zero Hsel (proj1 (check_exit_price_shape i t)).
    count_zero Hsel (proj1 (check_time_consistency_shape i t)).
    unfold errs. rewrite check_pnl_eval, Hv.
    destruct (isinstance_int_float v); cbn [fst snd]; [reflexivity|].
    rewrite (count_prefix_one i "Invalid pnl type (" (type_repr v ++ ")")). reflexivity.
  - destruct v; simpl; split; try discriminate; eauto;
      intros [[? E]|[[? E]|[? E]]]; discriminate.
  - intros j u. unfold outcome. rewrite check_pnl_eval.
    destruct (dict_get "pnl" u) as [x|]; [|reflexivity].
    destruct (isinstance_int_float x); reflexivity.
Qed.

Lemma field_passes_inv k t test :
  field_passes k t test = true -> exists v, dict_get k t = Some v /\ test v = true.
Proof. unfold field_passes. destruct (dict_get k t); [eauto | discriminate]. Qed.

Lemma is_false_inv r : is_false r = true -> r = Ok false.
Proof. destruct r as [[|]|]; simpl; congruence. Qed.

Lemma is_true_inv r : is_true r = true -> r = Ok true.
Proof. destruct r as [[|]|]; simpl; congruence. Qed.

Lemma check_time_consistency_clean i t :
  times_agree t = true -> check_time_consistency i t ([], []) = (Ok tt, ([], [])).
Proof.
  unfold times_agree.
  destruct (dict_get "entry_time" t) as [[| | | |s_in| |]|] eqn:Hin; try discriminate.
  destruct (dict_get "exit_time" t) as [[| | | |s_out| |]|] eqn:Hout; try discriminate.
  destruct (dict_get "duration_seconds" t) as [stored|] eqn:Hd; try discriminate.
  destruct (fromisoformat (replace_Z s_in)) as [?|entry] eqn:Pin; try discriminate.
  destruct (fromisoformat (replace_Z s_out)) as [?|exit] eqn:Pout; try discriminate.
  intros E. apply andb_true_iff in E. destruct E as [Hle E]. apply is_false_inv in Hle.
  destruct (datetime_sub exit entry) as [delta|] eqn:Hs; try discriminate.
  destruct (float_sub (total_seconds delta) stored) as [diff|] eqn:Hf; try discriminate.
  apply negb_true_iff in E.
  unfold check_time_consistency, check_duration_consistency, contains.
  rewrite Hin, Hout, Hd.
  unfold except_ValueError. unfold_checks. unfold parse_datetime. rewrite Hin, Hout, Hd. simpl.
  rewrite Pin, Pout. simpl. rewrite Hle. simpl. rewrite Hs. simpl. rewrite Hf. simpl.
  unfold py_gt_int. simpl. rewrite E. reflexivity.
Qed.

Lemma run_from_empty {A} (m : M findings A) : m ([], []) = (outcome m, (errs m, warns m)).
Proof. unfold outcome, errs, warns. destruct (m ([], [])) as [r [E W]]. reflexivity. Qed.

(** A clean record leaves the two lists as they are. *)
Lemma check_trade_clean i t :
  clean t = true -> check_trade i t ([], []) = (Ok tt, ([], [])).
Proof.
  unfold clean. intros C.
  do 8 (apply andb_true_iff in C; let X := fresh "C" in destruct C as [C X]).
  assert (R : check_required i t ([], []) = (Ok tt, ([], []))).
  { rewrite run_from_empty. destruct (check_required_run i t) as (-> & E & ->).
    rewrite (proj2 (required_all_present i t)); [reflexivity|].
    intros field Hf. rewrite forallb_forall in C. auto. }
  apply field_passes_inv in C1, C2, C3, C4, C5, C6, C7.
  destruct C7 as (v1 & G1 & T1). apply is_false_inv in T1.
  destruct C6 as (v2 & G2 & T2). apply is_false_inv in T2.
  destruct C5 as (v3 & G3 & T3).
  destruct C4 as (v4 & G4 & T4). apply is_false_inv in T4.
  destruct C3 as (v5 & G5 & T5). apply is_true_inv in T5.
  destruct C2 as (v6 & G6 & T6). apply is_false_inv in T6.
  destruct C1 as (v7 & G7 & T7).
  unfold check_trade, bind.
  rewrite R, check_entry_price_eval, G1, T1, check_exit_price_eval, G2, T2,
    check_pnl_eval, G3, T3, check_duration_eval, G4, T4,
    check_trend_strength_eval, G5, T5, check_volatility_eval, G6, T6,
    check_market_regime_eval, G7, T7.
  now apply check_time_consistency_clean.
Qed.

(** X6.  Records that satisfy every rule.  For a non-empty input in
    which every record has the thirteen fields, prices that are not
    [<= 0], a numeric pnl, a duration and a volatility that are not
    [< 0], a trend strength in [0, 1], a known market regime, and
    timestamps that parse with the exit after the entry and a computed
    duration within one second of the stored one, the validator returns
    (it does not raise) the report with [valid] true, no error, no
    warning and the number of records. *)
Theorem clean_records_pass (trades : list dict) :
  trades <> [] ->
  forallb clean trades = true ->
  verify_trade_data trades
    = Ok [("valid", VBool true); ("errors", VList []); ("warnings", VList []);
          ("total_trades", VInt (Z.of_nat (List.length trades)))].
Proof.
  intros Hne Hc.
  assert (L : forall start, for_enumerate start trades check_trade ([], []) = (Ok tt, ([], []))).
  { clear Hne. induction trades as [|t l IH]; intros start; [reflexivity|].
    simpl in Hc. apply andb_true_iff in Hc. destruct Hc as [Ht Hl].
    simpl. unfold bind at 1. rewrite (check_trade_clean start t Ht). apply IH, Hl. }
  unfold verify_trade_data. destruct trades as [|t l]; [congruence|].
  rewrite L. reflexivity.
Qed.
End ValidatorMore.

Section ClientMore.
Context `{Runtime}.

Lemma raise_for_status_ok (url : string) (r : response) :
  ~ (400 <= status_code r < 600) -> raise_for_status url r = Ok tt.
Proof.
  intros Hs. unfold raise_for_status.
  destruct ((400 <=? status_code r) && (status_code r <? 500)) eqn:E4;
    [apply andb_true_iff in E4; lia|].
  destruct ((500 <=? status_code r) && (status_code r <? 600)) eqn:E5;
    [apply andb_true_iff in E5; lia|].
  reflexivity.
Qed.

(** A fetch whose response has no error status and a JSON object as
    body. *)
Lemma fetch_json_object (self : MLTradeQuery) (url : string) (params : list (string * pyval))
    (empty : pyval) (w : world) (r : response) (d : dict) :
  server w (List.length (sent w)) (mkrequest url params None) = Responded r ->
  ~ (400 <= status_code r < 600) ->
  json r = Ok (VDict d) ->
  fetch self url params empty w
    = if truthy (get_default d "success" VNone) && contains "data" d
      then (Ok (get_default d "data" VNone), after_fetch w (mkrequest url params None))
      else (Ok empty,
            after_failed_fetch w (mkrequest url params None)
              ("❌ Error: " ++ py_str (get_default d "message" (VStr "Unknown error")))).
Proof.
  intros Hs Hst Hj.
  unfold fetch, try_except, bind, session_get, lift, ret, and_then, print, modify,
    after_fetch, after_failed_fetch.
  rewrite Hs. simpl. rewrite (raise_for_status_ok url r Hst), Hj. simpl.
  destruct (truthy (get_default d "success" VNone)); simpl; [|reflexivity].
  unfold contains, getitem, get_default.
  destruct (dict_get "data" d); reflexivity.
Qed.

(** X9.  The answer of the service.  When the response has no 4xx or
    5xx status and its body is a JSON object, each of the three
    operations returns the value under [data], whatever it is, and
    prints nothing, provided [success] is truthy and [data] is
    present; otherwise it prints [Error: ] followed by the value under
    [message] ([Unknown error] when there is none) and returns its
    empty result.  One request is sent in both cases. *)
Theorem json_object_answer (self : MLTradeQuery) (op : operation) (w : world)
    (r : response) (d : dict) :
  server w (List.length (sent w)) (request_of self op) = Responded r ->
  ~ (400 <= status_code r < 600) ->
  json r = Ok (VDict d) ->
  run_operation self op w
    = if truthy (get_default d "success" VNone) && contains "data" d
      then (Ok (get_default d "data" VNone), after_fetch w (request_of self op))
      else (Ok (empty_result op),
            after_failed_fetch w (request_of self op)
              ("❌ Error: " ++ py_str (get_default d "message" (VStr "Unknown error")))).
Proof.
  destruct op; simpl; unfold get_ml_trades, get_ml_stats, get_ml_status;
    intros Hs Hst Hj; apply (fetch_json_object _ _ _ _ _ r d); assumption.
Qed.

Lemma fetch_non_object (self : MLTradeQuery) (url : string) (params : list (string * pyval))
    (empty : pyval) (w : world) (r : response) (body : pyval) :
  server w (List.length (sent w)) (mkrequest url params None) = Responded r ->
  ~ (400 <= status_code r < 600) ->
  json r = Ok body ->
  (forall d, body <> VDict d) ->
  fetch self url params empty w = (Raise AttributeError, after_fetch w (mkrequest url params None)).
Proof.
  intros Hs Hst Hj Hnd.
  assert (G : py_get body "success" VNone = Raise AttributeError)
    by (destruct body; try reflexivity; elim (Hnd d); reflexivity).
  unfold fetch, try_except, bind, session_get, lift, ret, and_then, print, modify, after_fetch.
  rewrite Hs. simpl. rewrite (raise_for_status_ok _ r Hst), Hj. simpl. rewrite G.
  reflexivity.
Qed.

(** X10.  A body that is not an object.  When the response has no 4xx
    or 5xx status and its body is valid JSON but not an object (a list,
    a string, a number, [true], [null]), each of the three operations
    raises [AttributeError] at [data.get]: no [except] clause catches
    it, nothing is printed and no empty result is returned. *)
Theorem non_object_body_raises (self : MLTradeQuery) (op : operation) (w : world)
    (r : response) (body : pyval) :
  server w (List.length (sent w)) (request_of self op) = Responded r ->
  ~ (400 <= status_code r < 600) ->
  json r = Ok body ->
  (forall d, body <> VDict d) ->
  run_operation self op w = (Raise AttributeError, after_fetch w (request_of self op)).
Proof.
  destruct op; simpl; unfold get_ml_trades, get_ml_stats, get_ml_status;
    intros Hs Hst Hj Hnd; apply (fetch_non_object _ _ _ _ _ r body); assumption.
Qed.

Lemma fetch_effects (self : MLTradeQuery) (url : string) (params : list (string * pyval))
    (empty : pyval) (w : world) :
  let w' := snd (fetch self url params empty w) in
  files w' = files w /\ clock w' = clock w /\
  (stdout w' = stdout w \/ exists line, stdout w' = (stdout w ++ [line])%list).
Proof.
  unfold fetch, try_except, bind, session_get, lift, ret, and_then, print, modify.
  destruct (server w _ _) as [e|r]; simpl.
  - destruct (is_RequestException e); simpl; [eauto 6|].
    destruct (is_JSONDecodeError e); simpl; eauto 6.
  - repeat (match goal with
            | |- context [match ?x with _ => _ end] =>
                lazymatch x with
                | context [match _ with _ => _ end] => fail
                | _ => destruct x eqn:?
                end
            end; simpl); eauto 6.
Qed.

(** X11.  What a fetch never does.  Whatever the server does, each of
    the three operations sends exactly one request (it does not retry),
    prints at most one line, and leaves the files as they are; this
    holds also when the operation raises. *)
Theorem operation_effects_bounded (self : MLTradeQuery) (op : operation) (w : world) :
  let w' := snd (run_operation self op w) in
  sent w' = (sent w ++ [request_of self op])%list /\
  files w' = files w /\
  (stdout w' = stdout w \/ exists line, stdout w' = (stdout w ++ [line])%list).
Proof.
  destruct op; simpl; unfold get_ml_trades, get_ml_stats, get_ml_status;
    (split; [apply fetch_sent|]);
    match goal with
    | |- context [fetch ?s ?u ?p ?e ?w] =>
        destruct (fetch_effects s u p e w) as (F & _ & O)
    end; auto.
Qed.
End ClientMore.

Lemma rstrip_slash_app_slash (s : string) : rstrip_slash (s ++ "/") = rstrip_slash s.
Proof.
  induction s as [|c s IH]; [reflexivity|].
  simpl. now rewrite IH.
Qed.

Lemma rstrip_slash_slashes (s : string) :
  exists n, s = rstrip_slash s ++ slashes n.
Proof.
  induction s as [|c s [n IH]]; [exists 0%nat; reflexivity|].
  simpl. destruct (rstrip_slash s) as [|c' r] eqn:E.
  - destruct (Ascii.eqb c "/"%char) eqn:Ec.
    + apply Ascii.eqb_eq in Ec. subst c. exists (S n). simpl. f_equal. exact IH.
    + exists n. simpl. f_equal. exact IH.
  - exists n. simpl. f_equal. exact IH.
Qed.

Lemma rstrip_slash_no_trailing (s r : string) : rstrip_slash s <> r ++ "/".
Proof.
  revert r. induction s as [|c s IH]; intros r; simpl.
  - destruct r; discriminate.
  - destruct (rstrip_slash s) as [|c' q] eqn:E.
    + destruct (Ascii.eqb c "/"%char) eqn:Ec; [destruct r; discriminate|].
      destruct r as [|a r]; simpl.
      * intros E'. injection E' as ->. discriminate.
      * intros E'. injection E' as _ E'. destruct r; discriminate.
    + destruct r as [|a r]; simpl.
      * discriminate.
      * intros E'. injection E' as _ E'. exact (IH r E').
Qed.

(** X12.  The base URL.  The client keeps the configured URL without
    its trailing slashes and removes nothing else: the URL is the kept
    text followed by slashes only, the kept text does not end with a
    slash, and one more slash at the end of the configured URL gives
    the same client, hence the same three request URLs. *)
Theorem init_strips_trailing_slashes (url : string) :
  (exists n, url = database_url (init url) ++ slashes n) /\
  (forall r, database_url (init url) <> r ++ "/") /\
  init (url ++ "/") = init url /\
  (forall op, req_url (request_of (init (url ++ "/")) op)
              = req_url (request_of (init url) op)).
Proof.
  unfold init. simpl. split; [apply rstrip_slash_slashes|].
  split; [apply rstrip_slash_no_trailing|].
  rewrite rstrip_slash_app_slash. split; [reflexivity|]. intros op. reflexivity.
Qed.

Lemma file_get_put_other (other name : string) (c : file_content)
    (fs : list (string * file_content)) :
  other <> name -> file_get other (file_put name c fs) = file_get other fs.
Proof.
  intros Hne. induction fs as [|[n c'] fs IH]; simpl.
  - destruct (String.eqb other name) eqn:E; [apply String.eqb_eq in E; congruence | reflexivity].
  - destruct (String.eqb name n) eqn:E; simpl.
    + apply String.eqb_eq in E. subst n.
      destruct (String.eqb other name) eqn:E'; [apply String.eqb_eq in E'; congruence|].
      reflexivity.
    + destruct (String.eqb other n); [reflexivity | exact IH].
Qed.

Lemma for_each_app {St A} (l1 l2 : list A) (body : A -> M St unit) (s : St) :
  for_each (l1 ++ l2)%list body s
    = match for_each l1 body s with
      | (Ok _, s') => for_each l2 body s'
      | (Raise e, s') => (Raise e, s')
      end.
Proof.
  revert s. induction l1 as [|x l1 IH]; intros s; simpl; [reflexivity|].
  unfold bind. destruct (body x s) as [[[]|e] s']; [apply IH | reflexivity].
Qed.

Lemma only_file_changed_refl name w : only_file_changed name w w.
Proof. split; auto. Qed.

Lemma only_file_changed_trans name w1 w2 w3 :
  only_file_changed name w1 w2 -> only_file_changed name w2 w3 ->
  only_file_changed name w1 w3.
Proof.
  intros [S1 F1] [S2 F2]. split; [congruence|].
  intros other Hne. rewrite F2, F1; auto.
Qed.

Lemma append_row_only name row w : only_file_changed name w (snd (append_row name row w)).
Proof.
  unfold append_row, modify. simpl.
  destruct (file_get name (files w)) as [[rows|doc]|]; try apply only_file_changed_refl.
  split; [reflexivity|]. intros other Hne. simpl. now apply file_get_put_other.
Qed.

(** A computation that sends nothing and changes no file but [name]. *)
Lemma touches_only_bind {A B} (name : string) (m : M world A) (k : A -> M world B) :
  touches_only name m -> (forall a, touches_only name (k a)) -> touches_only name (bind m k).
Proof.
  intros Hm Hk w. unfold bind. specialize (Hm w).
  destruct (m w) as [[a|e] w1]; simpl in *; [|exact Hm].
  eapply only_file_changed_trans; [exact Hm | apply Hk].
Qed.

Lemma touches_only_lift {A} (name : string) (r : result A) : touches_only name (lift r).
Proof. intros w. apply only_file_changed_refl. Qed.

Lemma touches_only_print (name line : string) : touches_only name (print line).
Proof. intros w. split; auto. Qed.

Lemma touches_only_write (name : string) (c : file_content) :
  touches_only name (write_file name c).
Proof.
  intros w. unfold write_file. destruct (writable w name); [|apply only_file_changed_refl].
  split; [reflexivity|]. intros other Hne. simpl. now apply file_get_put_other.
Qed.

Lemma touches_only_append_row (name : string) (row : list string) :
  touches_only name (append_row name row).
Proof. intros w. apply append_row_only. Qed.

Lemma touches_only_for_each {A} (name : string) (l : list A) (body : A -> M world unit) :
  (forall x, touches_only name (body x)) -> touches_only name (for_each l body).
Proof.
  intros Hb. induction l as [|x l IH]; simpl.
  - intros w. apply only_file_changed_refl.
  - apply touches_only_bind; auto.
Qed.

Section ExporterMore.
Context `{Runtime}.

(** X13.  The JSON export.  For a non-empty list of records (and, when
    no file name is given, a first record that has [pair]) and the
    format [json] (in any letter case): when the file [<name>.json] can
    be opened, the export succeeds, hands the whole list as it is to
    [json.dump], so keys outside the thirteen columns are kept, and
    prints one line with the number of records and the file name; when
    the file cannot be opened, as for a default name made from a pair
    with a [/], the export raises [OSError], writes nothing and prints
    nothing. *)
Theorem export_json_writes_all (first : dict) (rest : list dict) (format_type : string)
    (filename : option string) (w : world) :
  String.eqb (lower format_type) "json" = true ->
  (filename = None -> contains "pair" first = true) ->
  export_trades (first :: rest) format_type filename w
    = if writable w (export_name first filename w ++ ".json")
      then
        (Ok tt,
         after_print
           (after_write w (export_name first filename w ++ ".json") (JsonDump (first :: rest)))
           ("📁 Exported " ++ dec (List.length (first :: rest)) ++ " trades to "
            ++ export_name first filename w ++ ".json"))
      else (Raise OSError, w).
Proof.
  intros Hjson Hpair. unfold export_trades. rewrite (export_name_run _ _ _ _ Hpair).
  rewrite Hjson. apply String.eqb_eq in Hjson. rewrite Hjson.
  change (String.eqb "json" "csv") with false. cbv iota.
  unfold export_json, bind, write_file.
  destruct (writable w (export_name first filename w ++ ".json")); reflexivity.
Qed.

(** X14.  Exports that write nothing.  An empty list gives the one line
    [No trades to export.]; a format other than csv and json gives the
    one line [Unsupported export format: <format>]; and when no file
    name is given and the first record has no [pair], the export raises
    [KeyError] whatever the format.  In the three cases no file is
    created or changed. *)
Theorem export_without_file (format_type : string) (filename : option string) (w : world) :
  export_trades [] format_type filename w = (Ok tt, after_print w "📭 No trades to export.") /\
  (forall first rest,
     String.eqb (lower format_type) "csv" = false ->
     String.eqb (lower format_type) "json" = false ->
     (filename = None -> contains "pair" first = true) ->
     export_trades (first :: rest) format_type filename w
       = (Ok tt, after_print w ("❌ Unsupported export format: " ++ format_type))) /\
  (forall first rest,
     contains "pair" first = false ->
     export_trades (first :: rest) format_type None w = (Raise (KeyError "pair"), w)).
Proof.
  split; [reflexivity|]. split.
  - intros first rest Hc Hj Hpair. unfold export_trades.
    rewrite (export_name_run _ _ _ _ Hpair), Hc, Hj. reflexivity.
  - intros first rest Hp. unfold export_trades, bind, now_stamp, lift, getitem.
    unfold contains in Hp. destruct (dict_get "pair" first); [discriminate | reflexivity].
Qed.

(** The loop over the records stops at the first record with a key
    outside the columns. *)
Lemma write_rows_stop (name : string) (good : list dict) (bad : dict) (after : list dict)
    (msg : string) :
  Forall (fun t => known_fields t = true) good ->
  dict_to_list fieldnames bad = Raise (ValueError msg) ->
  forall rows0 w,
    file_get name (files w) = Some (CsvRows rows0) ->
    for_each (good ++ bad :: after)%list (fun trade =>
      row <- lift (dict_to_list fieldnames trade) ;; append_row name (map cell_text row)) w
    = (Raise (ValueError msg),
       after_write w name (CsvRows (rows0 ++ map csv_cells good)%list)).
Proof.
  intros Hgood Hbad rows0 w Hopen.
  rewrite for_each_app, (write_rows_known name good Hgood rows0 w Hopen).
  simpl. unfold bind at 1. unfold bind at 1. unfold lift at 1. rewrite Hbad.
  reflexivity.
Qed.

(** X15.  A CSV export that fails on a record.  For the format csv, a
    file [<name>.csv] that can be opened and, when no file name is
    given, a first record that has [pair]: when the records before some
    record have the thirteen columns only and that record has a key
    outside them, the export raises the [ValueError] of
    [csv.DictWriter] for that record; the file is left with the header
    and the rows of the records before it, and the line [Exported ...]
    is not printed. *)
Theorem export_csv_stops_at_extra_field (first : dict) (rest good : list dict) (bad : dict)
    (after : list dict) (format_type : string) (filename : option string) (w : world) :
  String.eqb (lower format_type) "csv" = true ->
  (filename = None -> contains "pair" first = true) ->
  writable w (export_name first filename w ++ ".csv") = true ->
  first :: rest = (good ++ bad :: after)%list ->
  Forall (fun t => known_fields t = true) good ->
  known_fields bad = false ->
  exists msg,
    dict_to_list fieldnames bad = Raise (ValueError msg) /\
    export_trades (first :: rest) format_type filename w
      = (Raise (ValueError msg),
         after_write w (export_name first filename w ++ ".csv")
           (CsvRows (fieldnames :: map csv_cells good))).
Proof.
  intros Hcsv Hpair Hw Hsplit Hgood Hbad.
  destruct (dict_to_list_extra bad Hbad) as [msg Hmsg].
  exists msg. split; [exact Hmsg|].
  unfold export_trades. rewrite (export_name_run _ _ _ _ Hpair), Hcsv.
  rewrite (export_csv_open _ _ _ Hw).
  set (name := export_name first filename w ++ ".csv").
  unfold bind at 1. rewrite Hsplit.
  rewrite (write_rows_stop name good bad after msg Hgood Hmsg [fieldnames]);
    [|simpl; now rewrite file_get_put].
  unfold after_write. simpl. now rewrite !file_put_put.
Qed.

Lemma export_csv_only (trades : list dict) (filename : string) :
  touches_only (filename ++ ".csv") (export_csv trades filename).
Proof.
  unfold export_csv.
  apply touches_only_bind; [apply touches_only_write|intros _].
  apply touches_only_bind; [apply touches_only_append_row|intros _].
  apply touches_only_bind; [|intros _; apply touches_only_print].
  apply touches_only_for_each. intros t.
  apply touches_only_bind; [apply touches_only_lift|intros row].
  apply touches_only_append_row.
Qed.

Lemma export_json_only (trades : list dict) (filename : string) :
  touches_only (filename ++ ".json") (export_json trades filename).
Proof.
  unfold export_json.
  apply touches_only_bind; [apply touches_only_write|intros _; apply touches_only_print].
Qed.

(** X16.  What an export leaves alone.  Whatever the records, the
    format and the outcome (also when the export raises), an export
    sends no request and creates or changes no file other than
    [<name>.csv] and [<name>.json], where [<name>] is the given file
    name or the default one. *)
Theorem export_touches_one_file (first : dict) (rest : list dict) (format_type : string)
    (filename : option string) (w : world) (other : string) :
  other <> export_name first filename w ++ ".csv" ->
  other <> export_name first filename w ++ ".json" ->
  let w' := snd (export_trades (first :: rest) format_type filename w) in
  sent w' = sent w /\ file_get other (files w') = file_get other (files w).
Proof.
  intros Hcsv Hjson. cbv zeta.
  destruct (match filename with None => contains "pair" first | Some _ => true end) eqn:Hp.
  - assert (Hpair : filename = None -> contains "pair" first = true)
      by (intros ->; exact Hp).
    unfold export_trades. rewrite (export_name_run _ _ _ _ Hpair).
    set (name := export_name first filename w) in *.
    destruct (String.eqb (lower format_type) "csv").
    + destruct (export_csv_only (first :: rest) name w) as [S F]. auto.
    + destruct (String.eqb (lower format_type) "json").
      * destruct (export_json_only (first :: rest) name w) as [S F]. auto.
      * simpl. auto.
  - destruct filename as [f|]; [discriminate|].
    unfold export_trades, bind, now_stamp, lift, getitem.
    unfold contains in Hp. destruct (dict_get "pair" first); [discriminate|]. simpl. auto.
Qed.
End ExporterMore.

(* ================================================================== *)
(** ** Facts about the presenter *)

Lemma float_of_int_bool (b : bool) : exists x, float_of_int (Z.b2z b) = Ok x.
Proof. destruct b; eexists; vm_compute; reflexivity. Qed.

Lemma int_truediv_bool (b : bool) : exists x, int_truediv (Z.b2z b) 60 = Ok x.
Proof. destruct b; eexists; vm_compute; reflexivity. Qed.

Lemma is_ok_true {A} (r : result A) : is_ok r = true <-> exists a, r = Ok a.
Proof.
  destruct r; simpl; split; eauto; try discriminate. intros [a E]. discriminate.
Qed.

Lemma after_lines_nil (w : world) : after_lines w [] = w.
Proof. destruct w. unfold after_lines. simpl. now rewrite app_nil_r. Qed.

Lemma after_lines_app (w : world) (l1 l2 : list string) :
  after_lines (after_lines w l1) l2 = after_lines w (l1 ++ l2).
Proof. unfold after_lines. simpl. now rewrite app_assoc. Qed.

Lemma print_after_lines (line : string) (w : world) :
  print line w = (Ok tt, after_lines w [line]).
Proof. reflexivity. Qed.

Section PresenterFacts.
Context `{Runtime} `{Formatting}.

Lemma format_number_ok (plus : bool) (digits : nat) (v : pyval) :
  is_ok (format_number plus digits v) = formattable v.
Proof.
  destruct v as [| b | z | f | s | l | d]; simpl; try reflexivity.
  - destruct (float_of_int_bool b) as [x ->]. reflexivity.
  - destruct (float_of_int z); reflexivity.
Qed.

Lemma py_truediv_int_ok (v : pyval) : is_ok (py_truediv_int v 60) = dividable v.
Proof.
  destruct v as [| b | z | f | s | l | d]; simpl; try reflexivity.
  destruct (int_truediv_bool b) as [x ->]. reflexivity.
Qed.

Lemma read_time_ok (t : dict) (k : string) :
  is_ok (read_time (VDict t) k) = parses k t.
Proof.
  unfold read_time, parses, parse_datetime, getitem. simpl. unfold getitem.
  destruct (dict_get k t) as [[| | | |s| |]|]; simpl; try reflexivity.
  destruct (fromisoformat (replace_Z s)); reflexivity.
Qed.

(** A value that prints as a percentage is a number: it can be
    multiplied, compared with 0 and its product printed. *)
Lemma percentable_inv (plus : bool) (digits : nat) (v : pyval) :
  percentable v = true ->
  exists x gain loss text,
    py_mul_int v 100 = Ok x /\ py_gt_int v 0 = Ok gain /\ py_lt_int v 0 = Ok loss /\
    format_number plus digits x = Ok text.
Proof.
  destruct v as [| b | z | f | s | l | d]; simpl; try discriminate; intros E.
  - assert (F : exists y, float_of_int (Z.b2z b * 100) = Ok y)
      by (destruct b; eexists; vm_compute; reflexivity).
    destruct F as [y F]. do 4 eexists. repeat split. simpl. rewrite F. reflexivity.
  - apply is_ok_true in E. destruct E as [x E].
    do 4 eexists. repeat split. simpl. rewrite E. reflexivity.
  - do 4 eexists. repeat split.
Qed.

Lemma percentable_intro (plus : bool) (digits : nat) (v x : pyval) (gain : bool) :
  py_mul_int v 100 = Ok x -> py_gt_int v 0 = Ok gain ->
  is_ok (format_number plus digits x) = true ->
  percentable v = true.
Proof.
  destruct v as [| b | z | f | s | l | d]; simpl; try discriminate; try reflexivity.
  intros E _. injection E as <-. simpl.
  destruct (float_of_int (z * 100)); simpl; congruence.
Qed.

Lemma percent_ok (plus : bool) (digits : nat) (t : dict) (k : string) :
  is_ok (percent plus digits (VDict t) k) = field_passes k t percentable.
Proof.
  unfold percent, field_passes. simpl. unfold getitem.
  destruct (dict_get k t) as [v|]; simpl; [|reflexivity].
  destruct (percentable v) eqn:P.
  - destruct (percentable_inv plus digits v P) as (x & g & l & text & E1 & _ & _ & E2).
    rewrite E1. simpl. rewrite E2. reflexivity.
  - destruct v as [| b | z | f | s | l | d]; simpl in *; try discriminate; try reflexivity.
    destruct (float_of_int (z * 100)); simpl in *; congruence.
Qed.
End PresenterFacts.

Lemma py_getitem_dict (t : dict) (k : string) (v : pyval) :
  py_getitem (VDict t) k = Ok v <-> dict_get k t = Some v.
Proof.
  simpl. unfold getitem. destruct (dict_get k t); split; congruence.
Qed.

Lemma field_passes_intro (k : string) (t : dict) (test : pyval -> bool) (v : pyval) :
  dict_get k t = Some v -> test v = true -> field_passes k t test = true.
Proof. unfold field_passes. now intros ->. Qed.

Lemma contains_intro (k : string) (t : dict) (v : pyval) :
  dict_get k t = Some v -> contains k t = true.
Proof. unfold contains. now intros ->. Qed.

(** One step of a computation that returned. *)
Ltac returned H :=
  match type of H with
  | is_ok (result_bind ?r _) = true =>
      let E := fresh "E" in
      destruct r eqn:E; cbn [result_bind] in H; [cbv zeta in H|discriminate H]
  end.

Ltac use_eq :=
  match goal with
  | E : ?l = Ok _ |- context [?l] => rewrite E
  end.

Section FormatTradeFacts.
Context `{Runtime} `{Formatting}.

Lemma parses_inv (k : string) (t : dict) :
  parses k t = true -> exists d, read_time (VDict t) k = Ok d.
Proof. rewrite <- read_time_ok. apply is_ok_true. Qed.

Lemma formattable_inv (plus : bool) (digits : nat) (k : string) (t : dict) :
  field_passes k t formattable = true ->
  exists v text, py_getitem (VDict t) k = Ok v /\ format_number plus digits v = Ok text.
Proof.
  intros F. apply field_passes_inv in F. destruct F as (v & G & F).
  rewrite <- (format_number_ok plus digits) in F. apply is_ok_true in F.
  destruct F as [text F]. exists v, text. split; [now apply py_getitem_dict | exact F].
Qed.

Lemma format_trade_displayable (t : dict) :
  is_ok (format_trade (VDict t)) = true -> displayable t = true.
Proof.
  unfold format_trade. intros R. cbv zeta in R.
  repeat returned R. clear R.
  repeat match goal with
         | G : py_getitem (VDict t) _ = Ok _ |- _ => apply py_getitem_dict in G
         end.
  unfold displayable.
  repeat (apply andb_true_iff; split);
    try (rewrite <- read_time_ok; use_eq; reflexivity);
    try (eapply contains_intro; eassumption);
    try (eapply field_passes_intro; [eassumption|]).
  - eapply (percentable_intro true 2); [eassumption | eassumption |]. use_eq. reflexivity.
  - rewrite <- py_truediv_int_ok. use_eq. reflexivity.
  - rewrite <- (format_number_ok false 4). use_eq. reflexivity.
  - rewrite <- (format_number_ok false 4). use_eq. reflexivity.
  - rewrite <- (format_number_ok false 3). use_eq. reflexivity.
  - rewrite <- (format_number_ok false 3). use_eq. reflexivity.
Qed.

Lemma displayable_format_trade (t : dict) :
  displayable t = true -> is_ok (format_trade (VDict t)) = true.
Proof.
  unfold displayable. intros D.
  do 11 (apply andb_true_iff in D; let X := fresh "D" in destruct D as [D X]).
  apply parses_inv in D, D10, D9. destruct D as [d1 T1], D10 as [d2 T2], D9 as [d3 T3].
  apply field_passes_inv in D8, D7. destruct D8 as (pnl & Gp & Pp), D7 as (dur & Gd & Pd).
  destruct (percentable_inv true 2 pnl Pp) as (x & gain & loss & text & Mx & Cg & Cl & Fx).
  rewrite <- py_truediv_int_ok in Pd. apply is_ok_true in Pd. destruct Pd as [minutes Pd].
  apply contains_Some in D6, D5, D2.
  destruct D6 as [success Gs], D5 as [p Gpair], D2 as [regime Gr].
  destruct (formattable_inv false 4 _ _ D4) as (v1 & t1 & G1 & F1).
  destruct (formattable_inv false 4 _ _ D3) as (v2 & t2 & G2 & F2).
  destruct (formattable_inv false 3 _ _ D1) as (v3 & t3 & G3 & F3).
  destruct (formattable_inv false 3 _ _ D0) as (v4 & t4 & G4 & F4).
  apply py_getitem_dict in Gp, Gd, Gs, Gpair, Gr.
  unfold format_trade.
  rewrite T1, T2, T3; cbn [result_bind].
  rewrite Gp; cbn [result_bind]. rewrite Mx; cbn [result_bind].
  rewrite Gd; cbn [result_bind]. rewrite Pd; cbn [result_bind].
  rewrite Gs; cbn [result_bind]. cbv zeta. rewrite Cg; cbn [result_bind].
  rewrite Cl; cbn [result_bind].
  rewrite Gpair, G1; cbn [result_bind]. rewrite F1; cbn [result_bind].
  rewrite G2; cbn [result_bind]. rewrite F2; cbn [result_bind].
  rewrite Fx; cbn [result_bind]. rewrite Gr, G3; cbn [result_bind].
  rewrite F3; cbn [result_bind]. rewrite G4; cbn [result_bind].
  rewrite F4; cbn [result_bind].
  destruct gain; reflexivity.
Qed.

(** X17.  What [format_trade] needs.  [format_trade] returns a line
    exactly for a dictionary in which the three timestamps are strings
    that parse, pnl is a number whose hundredfold is in the float
    range, duration_seconds is a number whose sixtieth is in the float
    range, entry_price, exit_price, trend_strength and volatility are
    numbers in the float range, and success, pair and market_regime are
    present; on every other value it raises.  [id] is not needed. *)
Theorem format_trade_returns_iff (trade : pyval) :
  is_ok (format_trade trade)
    = match trade with
      | VDict t => displayable t
      | _ => false
      end.
Proof.
  destruct trade as [| b | z | f | s | l | t]; try reflexivity.
  apply eq_true_iff_eq. split.
  - apply format_trade_displayable.
  - apply displayable_format_trade.
Qed.
End FormatTradeFacts.

(** ** Computations that only print *)

Lemma prints_only_ret {A} (a : A) : prints_only (ret a).
Proof. intros w. exists []. simpl. now rewrite after_lines_nil. Qed.

Lemma prints_only_lift {A} (r : result A) : prints_only (lift r).
Proof. intros w. exists []. simpl. now rewrite after_lines_nil. Qed.

Lemma prints_only_print (line : string) : prints_only (print line).
Proof. intros w. exists [line]. reflexivity. Qed.

Lemma prints_only_bind {A B} (m : M world A) (k : A -> M world B) :
  prints_only m -> (forall a, prints_only (k a)) -> prints_only (bind m k).
Proof.
  intros Hm Hk w. unfold bind. destruct (Hm w) as [l1 E1].
  destruct (m w) as [[a|e] w1]; simpl in *; subst w1.
  - destruct (Hk a (after_lines w l1)) as [l2 E2]. exists (l1 ++ l2)%list.
    now rewrite E2, after_lines_app.
  - now exists l1.
Qed.

Lemma prints_only_when (b : bool) (m : M world unit) :
  prints_only m -> prints_only (when b m).
Proof. intros Hm. destruct b; [exact Hm | apply prints_only_ret]. Qed.

Lemma prints_only_for_each {A} (l : list A) (body : A -> M world unit) :
  (forall x, prints_only (body x)) -> prints_only (for_each l body).
Proof.
  intros Hb. induction l as [|x l IH]; simpl; [apply prints_only_ret|].
  apply prints_only_bind; auto.
Qed.

Lemma prints_only_for_enumerate {A} (l : list A) (body : nat -> A -> M world unit) :
  (forall i x, prints_only (body i x)) -> forall start, prints_only (for_enumerate start l body).
Proof.
  intros Hb. induction l as [|x l IH]; intros start; simpl; [apply prints_only_ret|].
  apply prints_only_bind; auto.
Qed.

Ltac prints_only_tac :=
  repeat first
    [ apply prints_only_print
    | apply prints_only_lift
    | apply prints_only_ret
    | apply prints_only_when
    | apply prints_only_for_each; intros ?
    | apply prints_only_for_enumerate; intros ? ?
    | apply prints_only_bind; [|intros ?] ].

Lemma code_points_nonempty (s : string) : s <> "" -> code_points s <> [].
Proof.
  destruct s as [|c s]; [congruence|]. intros _.
  unfold code_points. simpl. destruct (split_points s) as [pending points].
  destruct (is_continuation c); discriminate.
Qed.

Section DisplayFacts.
Context `{Runtime} `{Formatting}.

Lemma format_trade_ok (trade : pyval) :
  is_ok (format_trade trade) = match trade with VDict t => displayable t | _ => false end.
Proof.
  destruct trade as [| b | z | f | s | l | t]; try reflexivity.
  apply eq_true_iff_eq. split.
  - apply format_trade_displayable.
  - apply displayable_format_trade.
Qed.

Lemma display_details_prints (trade : pyval) : prints_only (display_details trade).
Proof. unfold display_details. prints_only_tac. Qed.

Lemma display_trades_prints (trades : pyval) (show_details : bool) :
  prints_only (display_trades trades show_details).
Proof.
  unfold display_trades. destruct (negb (truthy trades)); prints_only_tac.
Qed.

Lemma display_stats_prints (stats : pyval) : prints_only (display_stats stats).
Proof. unfold display_stats. prints_only_tac. Qed.

Lemma display_ml_status_prints (status : pyval) : prints_only (display_ml_status status).
Proof. unfold display_ml_status. prints_only_tac. Qed.

(** The details of a record that has [id] and a [created_at] that
    parses. *)
Lemma display_details_run (t : dict) (w : world) :
  if contains "id" t && parses "created_at" t
  then exists lines,
         display_details (VDict t) w = (Ok tt, after_lines w lines) /\ List.length lines = 3%nat
  else exists e w', display_details (VDict t) w = (Raise e, w').
Proof.
  unfold display_details, bind, lift. simpl py_getitem. unfold getitem, contains.
  destruct (dict_get "id" t) as [id|]; simpl; [|eauto].
  rewrite <- read_time_ok.
  destruct (read_time (VDict t) "created_at") as [d|e]; simpl; [|eauto].
  eexists. unfold print, modify, after_lines. simpl. rewrite <- !app_assoc. simpl.
  split; reflexivity.
Qed.

(** One iteration of the loop of [display_trades]. *)
Lemma display_item_run (show_details : bool) (i : nat) (trade : pyval) (w : world) :
  if item_ok show_details trade
  then exists lines,
         display_item show_details i trade w = (Ok tt, after_lines w lines) /\
         List.length lines = lines_per_trade show_details
  else exists e w', display_item show_details i trade w = (Raise e, w').
Proof.
  assert (B : display_item show_details i trade w
              = match format_trade trade with
                | Ok text =>
                    (print (format_2d i ++ ". " ++ text) ;;
                     when show_details (display_details trade)) w
                | Raise e => (Raise e, w)
                end) by reflexivity.
  rewrite B. clear B.
  pose proof (format_trade_ok trade) as F.
  destruct trade as [| b | z | f | s | l | t];
    try (destruct (format_trade _) as [x|e]; [simpl in F; discriminate F | simpl; eauto]; fail).
  unfold item_ok, showable.
  destruct (format_trade (VDict t)) as [text|e]; simpl in F; rewrite <- F;
    cbn [andb]; [|eauto].
  destruct show_details; unfold lines_per_trade; cbn [negb orb].
  - pose proof (display_details_run t (after_lines w [format_2d i ++ ". " ++ text])) as D.
    symmetry in F. unfold displayable in F.
    assert (P : parses "created_at" t = true).
    { do 9 (apply andb_true_iff in F; destruct F as [F _]).
      apply andb_true_iff in F. tauto. }
    rewrite P, andb_true_r in D.
    destruct (contains "id" t).
    + destruct D as (lines & E & L).
      exists ((format_2d i ++ ". " ++ text) :: lines). split; [|simpl; now rewrite L].
      etransitivity; [exact E|]. now rewrite after_lines_app.
    + destruct D as (e & w' & E). exists e, w'. exact E.
  - exists [format_2d i ++ ". " ++ text]. split; reflexivity.
Qed.

(** The loop of [display_trades]. *)
Lemma display_loop_run (show_details : bool) (items : list pyval) :
  forall (i : nat) (w : world),
    if forallb (item_ok show_details) items
    then exists lines,
           for_enumerate i items (display_item show_details) w
           = (Ok tt, after_lines w lines) /\
           List.length lines = (List.length items * lines_per_trade show_details)%nat
    else exists e w',
           for_enumerate i items (display_item show_details) w = (Raise e, w').
Proof.
  induction items as [|trade items IH]; intros i w; cbn [for_enumerate forallb].
  - exists []. rewrite after_lines_nil. auto.
  - unfold bind.
    pose proof (display_item_run show_details i trade w) as B.
    destruct (item_ok show_details trade); cbn [andb].
    + destruct B as (l1 & -> & L1).
      specialize (IH (S i) (after_lines w l1)).
      destruct (forallb (item_ok show_details) items).
      * destruct IH as (l2 & -> & L2). exists (l1 ++ l2)%list.
        rewrite after_lines_app, length_app, L1, L2. split; [reflexivity | simpl; lia].
      * exact IH.
    + destruct B as (e & w' & ->). eauto.
Qed.

Lemma forallb_item_ok (show_details : bool) (items : list pyval) :
  forallb (item_ok show_details) items
    = match dicts_of items with
      | Some records => forallb (showable show_details) records
      | None => false
      end.
Proof.
  induction items as [|v items IH]; [reflexivity|].
  simpl. destruct v as [| b | z | f | s | l | t]; try reflexivity.
  simpl. rewrite IH. destruct (dicts_of items); [reflexivity | apply andb_false_r].
Qed.

Lemma dicts_of_length (items : list pyval) (records : list dict) :
  dicts_of items = Some records -> List.length records = List.length items.
Proof.
  revert records. induction items as [|v items IH]; intros records; simpl.
  - intros E. injection E as <-. reflexivity.
  - destruct v as [| b | z | f | s | l | t]; try discriminate.
    destruct (dicts_of items) as [ds|]; [|discriminate].
    intros E. injection E as <-. simpl. f_equal. now apply IH.
Qed.

(** [display_trades] on a truthy value, step by step. *)
Lemma display_trades_steps (trades : pyval) (show_details : bool) (w : world) :
  truthy trades = true ->
  display_trades trades show_details w
    = match py_len trades with
      | Ok n =>
          let w' := after_lines w [nl ++ "🤖 ML Trade History (" ++ dec n ++ " trades):";
                                   repeat_string "=" 120] in
          match py_iter trades with
          | Ok items => for_enumerate 1 items (display_item show_details) w'
          | Raise e => (Raise e, w')
          end
      | Raise e => (Raise e, w)
      end.
Proof.
  intros T. unfold display_trades. rewrite T. cbn [negb].
  unfold bind at 1. unfold lift at 1.
  destruct (py_len trades) as [n|e]; [|reflexivity].
  unfold bind at 1. rewrite print_after_lines.
  unfold bind at 1. rewrite print_after_lines, after_lines_app.
  unfold bind at 1. unfold lift at 1.
  destruct (py_iter trades); reflexivity.
Qed.

(** [display_trades] on a truthy value. *)
Lemma display_trades_run (trades : pyval) (show_details : bool) (w : world) :
  truthy trades = true ->
  match records_of trades with
  | Some records =>
      if forallb (showable show_details) records
      then exists lines,
             display_trades trades show_details w = (Ok tt, after_lines w lines) /\
             List.length lines
               = (2 + List.length records * lines_per_trade show_details)%nat
      else exists e w', display_trades trades show_details w = (Raise e, w')
  | None => exists e w', display_trades trades show_details w = (Raise e, w')
  end.
Proof.
  intros T. rewrite (display_trades_steps trades show_details w T).
  destruct trades as [| b | z | f | s | l | d]; cbn [records_of py_len py_iter];
    try (eauto; fail).
  - (* a string: its first character is no dictionary *)
    simpl in T. apply negb_true_iff, String.eqb_neq in T.
    apply code_points_nonempty in T.
    destruct (code_points s) as [|c cs]; [congruence|].
    cbv zeta. cbn [map for_enumerate]. unfold bind at 1.
    match goal with
    | |- context [display_item ?d ?i ?v ?w0] =>
        pose proof (display_item_run d i v w0) as B
    end.
    cbn [item_ok] in B. destruct B as (e & w' & ->). eauto.
  - (* a list *)
    cbv zeta.
    match goal with
    | |- context [for_enumerate 1 l _ ?w0] =>
        pose proof (display_loop_run show_details l 1 w0) as L
    end.
    rewrite forallb_item_ok in L.
    destruct (dicts_of l) as [records|] eqn:D; [|exact L].
    destruct (forallb (showable show_details) records); [|exact L].
    destruct L as (lines & -> & Len). eexists. rewrite after_lines_app.
    split; [reflexivity|]. rewrite length_app, Len, (dicts_of_length _ _ D). reflexivity.
  - (* a dictionary: its first key is no dictionary *)
    destruct d as [|[k v] d]; [discriminate|].
    cbv zeta. cbn [keys map for_enumerate fst]. unfold bind at 1.
    match goal with
    | |- context [display_item ?d ?i ?v ?w0] =>
        pose proof (display_item_run d i v w0) as B
    end.
    cbn [item_ok] in B. destruct B as (e & w' & ->). eauto.
Qed.

(** X18.  What [display_trades] does.  On a falsy value it prints the
    one line [No ML trades found for this pair.].  On any other value
    it returns exactly when the value is a list of dictionaries each of
    which [format_trade] accepts and, with the details, has [id]; it
    has then printed the title, the rule, and one line per record, or
    four with the details.  In every case it only prints: it sends
    nothing and writes no file. *)
Theorem display_trades_returns (trades : pyval) (show_details : bool) (w : world) :
  (truthy trades = false ->
   display_trades trades show_details w
     = (Ok tt, after_lines w ["📭 No ML trades found for this pair."])) /\
  (truthy trades = true ->
   is_ok (fst (display_trades trades show_details w))
     = match records_of trades with
       | Some records => forallb (showable show_details) records
       | None => false
       end) /\
  (forall w', truthy trades = true ->
     display_trades trades show_details w = (Ok tt, w') ->
     exists records lines,
       records_of trades = Some records /\
       w' = after_lines w lines /\
       List.length lines = (2 + List.length records * lines_per_trade show_details)%nat) /\
  (exists lines, snd (display_trades trades show_details w) = after_lines w lines).
Proof.
  split; [|split; [|split]].
  - intros T. unfold display_trades. rewrite T. reflexivity.
  - intros T. pose proof (display_trades_run trades show_details w T) as R.
    destruct (records_of trades) as [records|].
    + destruct (forallb (showable show_details) records).
      * destruct R as (lines & -> & _). reflexivity.
      * destruct R as (e & w' & ->). reflexivity.
    + destruct R as (e & w' & ->). reflexivity.
  - intros w' T E. pose proof (display_trades_run trades show_details w T) as R.
    destruct (records_of trades) as [records|].
    + destruct (forallb (showable show_details) records).
      * destruct R as (lines & R & L). exists records, lines.
        rewrite R in E. injection E as <-. auto.
      * destruct R as (e & w'' & R). congruence.
    + destruct R as (e & w'' & R). congruence.
  - apply display_trades_prints.
Qed.
End DisplayFacts.

Section SummaryFacts.
Context `{Runtime} `{Formatting}.

Lemma display_stats_run (stats : pyval) (w : world) :
  if stats_ok stats
  then exists lines,
         display_stats stats w = (Ok tt, after_lines w lines) /\ List.length lines = 7%nat
  else exists e w', display_stats stats w = (Raise e, w').
Proof.
  unfold display_stats, stats_ok.
  destruct stats as [| b | z | f | s | l | t];
    try (do 2 eexists; reflexivity).
  rewrite <- (percent_ok false 1 t "win_rate"), <- (percent_ok true 2 t "avg_pnl"),
    <- (percent_ok true 2 t "avg_win"), <- (percent_ok true 2 t "avg_loss").
  unfold bind, lift. rewrite !print_after_lines. cbn [py_getitem]. unfold getitem, contains.
  destruct (dict_get "total_trades" t) as [total|]; cbn [andb]; [|eauto].
  rewrite !print_after_lines.
  destruct (percent false 1 (VDict t) "win_rate") as [x1|e]; cbn [is_ok andb]; [|eauto].
  rewrite !print_after_lines.
  destruct (percent true 2 (VDict t) "avg_pnl") as [x2|e]; cbn [is_ok andb]; [|eauto].
  rewrite !print_after_lines.
  destruct (percent true 2 (VDict t) "avg_win") as [x3|e]; cbn [is_ok andb]; [|eauto].
  rewrite !print_after_lines.
  destruct (percent true 2 (VDict t) "avg_loss") as [x4|e]; cbn [is_ok andb]; [|eauto].
  rewrite ?print_after_lines, !after_lines_app. eexists. split; reflexivity.
Qed.

Lemma display_ml_status_run (status : pyval) (w : world) :
  if status_ok status
  then exists lines,
         display_ml_status status w = (Ok tt, after_lines w lines) /\
         List.length lines = 8%nat
  else exists e w', display_ml_status status w = (Raise e, w').
Proof.
  unfold display_ml_status, status_ok.
  destruct status as [| b | z | f | s | l | t];
    try (do 2 eexists; reflexivity).
  rewrite <- (percent_ok false 1 t "min_confidence"),
    <- (percent_ok false 1 t "max_position_size"),
    <- (percent_ok false 1 t "win_rate"), <- (percent_ok true 2 t "avg_pnl").
  unfold bind, lift. rewrite !print_after_lines. cbn [py_getitem]. unfold getitem, contains.
  destruct (dict_get "enabled" t) as [enabled|]; cbn [andb]; [|eauto].
  rewrite !print_after_lines.
  destruct (percent false 1 (VDict t) "min_confidence") as [x1|e]; cbn [is_ok andb]; [|eauto].
  rewrite !print_after_lines.
  destruct (percent false 1 (VDict t) "max_position_size") as [x2|e]; cbn [is_ok andb];
    [|eauto].
  rewrite !print_after_lines.
  destruct (dict_get "total_trades" t) as [total|]; cbn [andb]; [|eauto].
  rewrite !print_after_lines.
  destruct (percent false 1 (VDict t) "win_rate") as [x3|e]; cbn [is_ok andb]; [|eauto].
  rewrite !print_after_lines.
  destruct (percent true 2 (VDict t) "avg_pnl") as [x4|e]; cbn [is_ok andb]; [|eauto].
  rewrite ?print_after_lines, !after_lines_app. eexists. split; reflexivity.
Qed.

(** X19.  The two summaries.  [display_stats] returns exactly for a
    dictionary that has [total_trades] and whose [win_rate], [avg_pnl],
    [avg_win] and [avg_loss] are numbers whose hundredfold is in the
    float range, and it has then printed seven lines;
    [display_ml_status] returns exactly for a dictionary that has
    [enabled] and [total_trades] and whose [min_confidence],
    [max_position_size], [win_rate] and [avg_pnl] are such numbers, and
    it has then printed eight lines.  On any other value they raise.
    Both only print. *)
Theorem summaries_return_iff (v : pyval) (w : world) :
  is_ok (fst (display_stats v w)) = stats_ok v /\
  is_ok (fst (display_ml_status v w)) = status_ok v /\
  (forall w', display_stats v w = (Ok tt, w') ->
     exists lines, w' = after_lines w lines /\ List.length lines = 7%nat) /\
  (forall w', display_ml_status v w = (Ok tt, w') ->
     exists lines, w' = after_lines w lines /\ List.length lines = 8%nat) /\
  (exists lines, snd (display_stats v w) = after_lines w lines) /\
  (exists lines, snd (display_ml_status v w) = after_lines w lines).
Proof.
  pose proof (display_stats_run v w) as S.
  pose proof (display_ml_status_run v w) as U.
  repeat split.
  - destruct (stats_ok v); [destruct S as (l & -> & _) | destruct S as (e & w' & ->)];
      reflexivity.
  - destruct (status_ok v); [destruct U as (l & -> & _) | destruct U as (e & w' & ->)];
      reflexivity.
  - intros w' E. destruct (stats_ok v).
    + destruct S as (l & S & L). rewrite S in E. injection E as <-. eauto.
    + destruct S as (e & w'' & S). congruence.
  - intros w' E. destruct (status_ok v).
    + destruct U as (l & U & L). rewrite U in E. injection E as <-. eauto.
    + destruct U as (e & w'' & U). congruence.
  - apply display_stats_prints.
  - apply display_ml_status_prints.
Qed.
End SummaryFacts.

(* ================================================================== *)
(** ** Facts about the command front-end *)

Section FrontEndFacts.
Context `{Runtime} `{Formatting}.

(** A fetch does not look at what was printed before it: its result,
    the line it prints (if any) and the request it sends are the same
    after any lines. *)
Lemma fetch_frame (self : MLTradeQuery) (url : string) (params : list (string * pyval))
    (empty : pyval) (w : world) :
  exists r lines,
    (List.length lines <= 1)%nat /\
    forall pre,
      fetch self url params empty (after_lines w pre)
        = (r, after_fetch (after_lines w (pre ++ lines)) (mkrequest url params None)).
Proof.
  unfold fetch, try_except, bind, session_get, lift, ret, and_then, print, modify.
  cbn [server sent stdout files clock after_lines].
  destruct (server w _ _) as [e|r]; simpl.
  - destruct (is_RequestException e); simpl.
    + exists (Ok empty), ["❌ Network error: " ++ exn_str e]. split; [simpl; lia|].
      intros pre. unfold after_fetch, after_lines. simpl. now rewrite app_assoc.
    + destruct (is_JSONDecodeError e); simpl.
      * exists (Ok empty), ["❌ JSON decode error: " ++ exn_str e]. split; [simpl; lia|].
        intros pre. unfold after_fetch, after_lines. simpl. now rewrite app_assoc.
      * exists (Raise e), []. split; [simpl; lia|].
        intros pre. unfold after_fetch, after_lines. simpl. now rewrite app_nil_r.
  - repeat (match goal with
            | |- context [match ?x with _ => _ end] =>
                lazymatch x with
                | context [match _ with _ => _ end] => fail
                | _ => destruct x eqn:?
                end
            end; simpl);
      try (eexists; exists []; split; [simpl; lia|];
           intros pre; unfold after_fetch, after_lines; simpl; now rewrite app_nil_r);
      (eexists; eexists [_]; split; [simpl; lia|];
       intros pre; unfold after_fetch, after_lines; simpl; now rewrite app_assoc).
Qed.

Lemma query_trades_run (args : Args) (w : world) :
  query_trades (init (args_database_url args)) args w
    = get_ml_trades (init (args_database_url args)) (args_pair args) (args_limit args)
        (after_lines w (opening_lines args)).
Proof.
  unfold query_trades, bind. rewrite !print_after_lines, after_lines_app. reflexivity.
Qed.

(** X20.  No trades.  When the fetch of the trades returns a falsy
    value (it failed and returned the empty list, or the service sent
    an empty list), [main] prints [No ML trades found for <pair>] and
    exits with status 1, whatever the other options are: it has sent
    the one request for the trades, printed its two opening lines, at
    most one line of the fetch and that last line, and written no
    file. *)
Theorem main_exits_1_without_trades (args : Args) (w : world) (v : pyval) :
  fst (get_ml_trades (init (args_database_url args)) (args_pair args) (args_limit args) w)
    = Ok v ->
  truthy v = false ->
  exists lines,
    (List.length lines <= 1)%nat /\
    main args w
      = (Exit 1,
         after_fetch
           (after_lines w (opening_lines args ++ lines
                           ++ ["❌ No ML trades found for " ++ args_pair args]))
           (trades_request args)).
Proof.
  intros Hv Hf. unfold main. rewrite query_trades_run.
  unfold get_ml_trades in *.
  match type of Hv with
  | fst (fetch ?s ?u ?p ?e w) = _ =>
      destruct (fetch_frame s u p e w) as (r & lines & Hl & Hframe)
  end.
  pose proof (Hframe []) as H0'. rewrite after_lines_nil in H0'.
  rewrite H0' in Hv. simpl in Hv. subst r.
  rewrite Hframe, Hf. cbn [negb].
  exists lines. split; [exact Hl|].
  unfold print, modify, after_fetch, after_lines, trades_request. simpl.
  now rewrite <- !app_assoc.
Qed.
End FrontEndFacts.

Section VerificationFacts.
Context `{Runtime} `{Formatting}.

Lemma print_bullets_run (l : list string) (w : world) :
  print_bullets (VList (map VStr l)) w = (Ok tt, after_lines w (map bullet l)).
Proof.
  unfold print_bullets, bind, lift. cbn [py_iter].
  revert w. induction l as [|m l IH]; intros w; cbn [map for_each].
  - unfold ret. now rewrite after_lines_nil.
  - unfold bind. rewrite print_after_lines, IH, after_lines_app. reflexivity.
Qed.

(** [--verify] on a report with the four keys. *)
Lemma show_report_run (n : nat) (E W : list string) (w : world) :
  let verification :=
    [("valid", VBool (Nat.eqb (List.length E) 0));
     ("errors", VList (map VStr E));
     ("warnings", VList (map VStr W));
     ("total_trades", VInt (Z.of_nat n))] in
  (print (nl ++ "🔍 Verifying trade data integrity...") ;;
   verification <- lift (Ok verification) ;;
   valid <- lift (getitem verification "valid") ;;
   (if truthy valid then print "✅ All trade data is valid!"
    else
      print "❌ Data validation errors found:" ;;
      errors <- lift (getitem verification "errors") ;;
      print_bullets errors) ;;
   warnings <- lift (getitem verification "warnings") ;;
   when (truthy warnings)
     (print (nl ++ "⚠️  Warnings:") ;;
      warnings <- lift (getitem verification "warnings") ;;
      print_bullets warnings) ;;
   print (nl ++ "📊 Verification Summary:") ;;
   total <- lift (getitem verification "total_trades") ;;
   print ("   Total trades checked: " ++ py_str total) ;;
   errors <- lift (getitem verification "errors") ;;
   n_errors <- lift (py_len errors) ;;
   print ("   Errors: " ++ dec n_errors) ;;
   warnings <- lift (getitem verification "warnings") ;;
   n_warnings <- lift (py_len warnings) ;;
   print ("   Warnings: " ++ dec n_warnings)) w
  = (Ok tt, after_lines w (summary_lines n E W)).
Proof.
  intros verification. subst verification.
  unfold bind at 1. rewrite print_after_lines.
  unfold bind at 1. unfold lift at 1.
  unfold bind at 1. unfold lift at 1. cbn [getitem dict_get String.eqb Ascii.eqb Bool.eqb].
  assert (EP : forall w0,
            (if truthy (VBool (Nat.eqb (List.length E) 0))
             then print "✅ All trade data is valid!"
             else
               print "❌ Data validation errors found:" ;;
               errors <- lift (Ok (VList (map VStr E))) ;;
               print_bullets errors) w0
            = (Ok tt,
               after_lines w0
                 match E with
                 | [] => ["✅ All trade data is valid!"]
                 | _ => "❌ Data validation errors found:" :: map bullet E
                 end)).
  { intros w0. destruct E as [|e0 E']; cbn [List.length Nat.eqb truthy]; [reflexivity|].
    unfold bind at 1. rewrite print_after_lines.
    unfold bind, lift. rewrite print_bullets_run, after_lines_app. reflexivity. }
  unfold bind at 1. rewrite EP.
  unfold bind at 1. unfold lift at 1.
  assert (WP : forall w0,
            when (truthy (VList (map VStr W)))
              (print (nl ++ "⚠️  Warnings:") ;;
               warnings <- lift (Ok (VList (map VStr W))) ;;
               print_bullets warnings) w0
            = (Ok tt,
               after_lines w0
                 match W with
                 | [] => []
                 | _ => (nl ++ "⚠️  Warnings:") :: map bullet W
                 end)).
  { intros w0. destruct W as [|w1 W']; cbn [map truthy when].
    - unfold ret. now rewrite after_lines_nil.
    - unfold bind at 1. rewrite print_after_lines.
      unfold bind, lift. rewrite (print_bullets_run (w1 :: W')), after_lines_app.
      reflexivity. }
  unfold bind at 1. rewrite WP.
  unfold bind, lift. cbn [py_len]. rewrite !length_map.
  repeat rewrite print_after_lines. rewrite !after_lines_app. reflexivity.
Qed.

(** [--verify] when the validator raises. *)
Lemma show_verification_raise (trades : list dict) (args : Args) (w : world) (e : exn) :
  args_verify args = true ->
  verify_trade_data trades = Raise e ->
  show_verification trades args w
    = (Raise e, after_lines w [nl ++ "🔍 Verifying trade data integrity..."]).
Proof.
  intros Hv Hr. unfold show_verification. rewrite Hv. cbn [when].
  unfold bind at 1. rewrite print_after_lines.
  unfold bind at 1. unfold lift at 1. rewrite Hr. reflexivity.
Qed.

(** X21.  What [--verify] prints.  For a non-empty list of records on
    which the validator returns, the verification step of [main]
    prints the opening line, then [All trade data is valid!] when the
    report has no error and otherwise the heading and every error of
    the report in order, then, when there are warnings, their heading
    and every warning in order, then the summary with the number of
    records, of errors and of warnings; it reads no key the report
    lacks.  When the validator raises, the step raises the same
    exception after its opening line.  On the empty list, whose report
    has no [warnings], the step raises [KeyError]. *)
Theorem verification_summary (trades : list dict) (args : Args) (w : world) :
  args_verify args = true ->
  (trades <> [] ->
   match verify_trade_data trades with
   | Ok report =>
       show_verification trades args w
         = (Ok tt,
            after_lines w
              (summary_lines (List.length trades) (report_errors report)
                 (report_warnings report)))
   | Raise e =>
       show_verification trades args w
         = (Raise e, after_lines w [nl ++ "🔍 Verifying trade data integrity..."])
   end) /\
  show_verification [] args w
    = (Raise (KeyError "warnings"),
       after_lines w [nl ++ "🔍 Verifying trade data integrity...";
                      "❌ Data validation errors found:";
                      bullet "No trades found"]).
Proof.
  intros Hv. split.
  - intros Hne. destruct (verify_trade_data trades) as [report|e] eqn:V.
    + destruct (verify_trade_data_nonempty _ _ Hne V) as [_ Hrep].
      unfold show_verification. rewrite Hv, V. cbn [when]. rewrite Hrep.
      unfold report_errors, report_warnings, report_list.
      cbn [dict_get String.eqb Ascii.eqb Bool.eqb]. rewrite !strings_map_VStr.
      apply show_report_run.
    + now apply show_verification_raise.
  - unfold show_verification. rewrite Hv. cbn [when verify_trade_data].
    unfold bind at 1. rewrite print_after_lines.
    unfold bind at 1. unfold lift at 1.
    unfold bind at 1. unfold lift at 1.
    cbn [getitem dict_get String.eqb Ascii.eqb Bool.eqb truthy].
    unfold bind at 1. unfold bind at 1. rewrite print_after_lines.
    unfold bind at 1. unfold lift at 1.
    rewrite (print_bullets_run ["No trades found"]), !after_lines_app.
    unfold bind, lift. reflexivity.
Qed.
End VerificationFacts.

Lemma string_app_nil_r (s : string) : s ++ "" = s.
Proof. induction s; simpl; congruence. Qed.

Lemma dicts_of_nonempty (l : list pyval) (records : list dict) :
  l <> [] -> dicts_of l = Some records -> records <> [].
Proof.
  intros Hl D. apply dicts_of_length in D. destruct records; [|discriminate].
  destruct l; [congruence | discriminate].
Qed.

Lemma records_of_nonempty (trades : pyval) (records : list dict) :
  truthy trades = true -> records_of trades = Some records -> records <> [].
Proof.
  destruct trades as [| b | z | f | s | l | d]; try discriminate. simpl.
  intros T. apply dicts_of_nonempty. destruct l; [discriminate | congruence].
Qed.

Section AfterDisplayFacts.
Context `{Runtime} `{Formatting}.

Lemma parses_contains (k : string) (t : dict) : parses k t = true -> contains k t = true.
Proof. unfold parses, contains. destruct (dict_get k t); [reflexivity | discriminate]. Qed.

Lemma field_passes_contains (k : string) (t : dict) (test : pyval -> bool) :
  field_passes k t test = true -> contains k t = true.
Proof. unfold field_passes, contains. destruct (dict_get k t); [reflexivity | discriminate]. Qed.

(** A record [format_trade] accepts has every required field but,
    possibly, [id]. *)
Lemma displayable_fields (t : dict) (field : string) :
  displayable t = true -> In field required_fields -> field <> "id" ->
  contains field t = true.
Proof.
  unfold displayable. intros D.
  do 11 (apply andb_true_iff in D; let X := fresh "D" in destruct D as [D X]).
  apply parses_contains in D, D10, D9.
  apply field_passes_contains in D8, D7, D4, D3, D1, D0.
  unfold required_fields. simpl.
  intros [<-|[<-|[<-|[<-|[<-|[<-|[<-|[<-|[<-|[<-|[<-|[<-|[<-|[]]]]]]]]]]]]]] Hid;
    congruence.
Qed.

Lemma percentable_numeric (v : pyval) : percentable v = true -> isinstance_int_float v = true.
Proof. destruct v; simpl; congruence. Qed.

Lemma parses_inv_string (k : string) (t : dict) :
  parses k t = true ->
  exists s d, dict_get k t = Some (VStr s) /\ fromisoformat (replace_Z s) = inr d.
Proof.
  unfold parses. destruct (dict_get k t) as [[| | | |s| |]|]; try discriminate.
  destruct (fromisoformat (replace_Z s)) as [msg|d] eqn:P; [discriminate|]. eauto.
Qed.

(** The errors of a record [format_trade] accepts, in a run of the
    validator that ended normally. *)
Lemma displayable_errors (i : nat) (t : dict) (m : string) :
  displayable t = true ->
  outcome (check_trade i t) = Ok tt ->
  In m (errs (check_trade i t)) ->
  exists text rest,
    In text display_error_tags /\ m = trade_msg i (text ++ rest) /\
    (contains "id" t = true -> text <> "Missing required field 'id'").
Proof.
  intros D Hrun Hm.
  destruct (check_trade_run i t Hrun) as (O & E & _). rewrite E in Hm. clear E.
  destruct O as (_ & _ & _ & _ & _ & _ & _ & _ & Ot).
  destruct (check_duration_shape i t) as [Ed _].
  destruct (check_trend_strength_shape i t) as [Et _].
  destruct (check_volatility_shape i t) as [Ev _].
  destruct (check_market_regime_shape i t) as [Er _].
  rewrite Ed, Et, Ev, Er in Hm. simpl in Hm.
  repeat (apply in_app_or in Hm; destruct Hm as [Hm|Hm]).
  - (* a missing field: it is [id] *)
    destruct (check_required_run i t) as (_ & E & _). rewrite E in Hm.
    apply in_map_iff in Hm. destruct Hm as (field & <- & Hf).
    apply filter_In in Hf. destruct Hf as [Hreq Hc]. apply negb_true_iff in Hc.
    assert (field = "id").
    { destruct (string_dec field "id") as [|Hne]; [assumption|].
      rewrite (displayable_fields t field D Hreq Hne) in Hc. discriminate. }
    subst field. exists "Missing required field 'id'", "".
    split; [simpl; tauto|]. split; [now rewrite string_app_nil_r | congruence].
  - destruct (check_entry_price_shape i t) as [S _]. rewrite Forall_forall in S.
    destruct (S _ Hm) as (tag & rest & [<-|[]] & ->).
    exists "Invalid entry_price (", rest. split; [simpl; tauto|]. split; [reflexivity|].
    discriminate.
  - destruct (check_exit_price_shape i t) as [S _]. rewrite Forall_forall in S.
    destruct (S _ Hm) as (tag & rest & [<-|[]] & ->).
    exists "Invalid exit_price (", rest. split; [simpl; tauto|]. split; [reflexivity|].
    discriminate.
  - (* pnl is a number *)
    exfalso. unfold displayable in D.
    do 8 (apply andb_true_iff in D; destruct D as [D _]).
    apply andb_true_iff in D. destruct D as [_ D].
    apply field_passes_inv in D. destruct D as (v & G & P).
    unfold errs in Hm. rewrite check_pnl_eval, G, (percentable_numeric v P) in Hm.
    exact Hm.
  - (* the two timestamps parse *)
    unfold displayable in D.
    do 10 (apply andb_true_iff in D; destruct D as [D _]).
    apply andb_true_iff in D. destruct D as [Dn Dx].
    apply parses_inv_string in Dn, Dx.
    destruct Dn as (s_in & entry & Gin & Pin), Dx as (s_out & exit & Gout & Pout).
    destruct (check_time_consistency_parsed i t _ _ _ _ Gin Gout Pin Pout Ot)
      as (c & _ & E & _).
    rewrite E in Hm. destruct c; [|contradiction]. destruct Hm as [<-|[]].
    exists "Exit time before or equal to entry time", "".
    split; [simpl; tauto|]. split; [now rewrite string_app_nil_r | discriminate].
Qed.

(** X22.  Verification after display.  [main] verifies the records
    only after [display_trades] has printed them.  For records that
    [display_trades] has printed, every error of the report the
    validator returns is [Missing required field 'id'] (and only when
    the details were not shown), [Invalid entry_price],
    [Invalid exit_price] or [Exit time before or equal to entry time]:
    no other field can be missing, pnl has a numeric type and the
    timestamps parse, or [display_trades] would have raised. *)
Theorem verification_after_display (trades : pyval) (show_details : bool) (w w' : world)
    (records : list dict) (report : dict) :
  truthy trades = true ->
  display_trades trades show_details w = (Ok tt, w') ->
  records_of trades = Some records ->
  verify_trade_data records = Ok report ->
  forall m, In m (report_errors report) ->
    exists k text rest,
      (1 <= k <= List.length records)%nat /\
      In text display_error_tags /\
      m = "Trade " ++ dec k ++ ": " ++ text ++ rest /\
      (show_details = true -> text <> "Missing required field 'id'").
Proof.
  intros T Hd Hrec Hv m Hm.
  pose proof (display_trades_run trades show_details w T) as R. rewrite Hrec in R.
  destruct (forallb (showable show_details) records) eqn:Hshow;
    [|destruct R as (e & w'' & R); congruence].
  clear R. rewrite forallb_forall in Hshow.
  pose proof (records_of_nonempty _ _ T Hrec) as Hne.
  destruct (verify_trade_data_findings _ _ Hne Hv) as (F & E & _).
  rewrite Forall_forall in F. rewrite E in Hm.
  apply in_flat_map in Hm. destruct Hm as ([i t] & Hin & Hm). simpl in Hm.
  pose proof (F _ Hin) as Hrun. simpl in Hrun.
  pose proof Hin as Hnth. apply enumerate_In in Hnth. destruct Hnth as [_ Hnth].
  rewrite Nat.sub_0_r in Hnth.
  assert (Hs : showable show_details t = true) by (eapply Hshow, nth_error_In, Hnth).
  unfold showable in Hs. apply andb_true_iff in Hs. destruct Hs as [D Hid].
  destruct (displayable_errors i t m D Hrun Hm) as (text & rest & Htag & -> & Hnot).
  exists (S i), text, rest. repeat split; try assumption.
  - lia.
  - assert (i < List.length records)%nat by (apply nth_error_Some; congruence). lia.
  - intros ->. simpl in Hid. apply Hnot, Hid.
Qed.
End AfterDisplayFacts.

(** ** Requests and files of a computation *)

Lemma sends_bind {A B} (m : M world A) (k : A -> M world B) (r1 r2 : list request) :
  sends m r1 -> (forall a, sends (k a) r2) -> sends (bind m k) (r1 ++ r2).
Proof.
  intros Hm Hk w. unfold bind. destruct (Hm w) as (n1 & L1 & S1 & O1).
  destruct (m w) as [[a|e] w1]; simpl in *.
  - specialize (O1 eq_refl). subst n1.
    destruct (Hk a w1) as (n2 & L2 & S2 & O2).
    exists (List.length r1 + n2)%nat. rewrite length_app. split; [lia|].
    split.
    + rewrite S2, S1, firstn_all, firstn_app_2, app_assoc. reflexivity.
    + intros Ok2. rewrite (O2 Ok2). reflexivity.
  - exists n1. rewrite length_app. split; [lia|]. split; [|discriminate].
    rewrite S1, firstn_app.
    replace (n1 - List.length r1)%nat with 0%nat by lia.
    simpl. now rewrite app_nil_r.
Qed.

Lemma sends_bind_nil {A B} (m : M world A) (k : A -> M world B) (r : list request) :
  sends m [] -> (forall a, sends (k a) r) -> sends (bind m k) r.
Proof. intros Hm Hk. apply (sends_bind m k [] r); assumption. Qed.

Lemma sends_prints {A} (m : M world A) : prints_only m -> sends m [].
Proof.
  intros Hm w. destruct (Hm w) as [lines E]. exists 0%nat. rewrite E. simpl.
  split; [lia|]. split; [now rewrite app_nil_r | reflexivity].
Qed.

Lemma sends_ret {A} (a : A) : sends (ret a) [].
Proof. apply sends_prints, prints_only_ret. Qed.

Lemma sends_when (b : bool) (m : M world unit) (r : list request) :
  sends m r -> sends (when b m) (if b then r else []).
Proof. intros Hm. destruct b; [exact Hm | apply sends_ret]. Qed.

Lemma keeps_files_bind {A B} (m : M world A) (k : A -> M world B) :
  keeps_files m -> (forall a, keeps_files (k a)) -> keeps_files (bind m k).
Proof.
  intros Hm Hk w. unfold bind. specialize (Hm w).
  destruct (m w) as [[a|e] w1]; simpl in *; [|exact Hm].
  now rewrite Hk.
Qed.

Lemma keeps_files_prints {A} (m : M world A) : prints_only m -> keeps_files m.
Proof. intros Hm w. destruct (Hm w) as [lines E]. now rewrite E. Qed.

Lemma keeps_files_when (b : bool) (m : M world unit) :
  keeps_files m -> keeps_files (when b m).
Proof. intros Hm. destruct b; [exact Hm | intros w; reflexivity]. Qed.

Section RequestFacts.
Context `{Runtime} `{Formatting}.

Lemma sends_fetch (self : MLTradeQuery) (url : string) (params : list (string * pyval))
    (empty : pyval) :
  sends (fetch self url params empty) [mkrequest url params None].
Proof.
  intros w. exists 1%nat. split; [simpl; lia|]. split; [|reflexivity].
  apply fetch_sent.
Qed.

Lemma keeps_files_fetch (self : MLTradeQuery) (url : string) (params : list (string * pyval))
    (empty : pyval) :
  keeps_files (fetch self url params empty).
Proof. intros w. apply (fetch_effects self url params empty w). Qed.

Lemma sends_show_stats (client : MLTradeQuery) (args : Args) :
  sends (show_stats client args)
    (if args_stats args then [request_of client (GetStats (args_pair args))] else []).
Proof.
  unfold show_stats. apply sends_when.
  rewrite <- (app_nil_r [_]). apply sends_bind; [apply sends_fetch|].
  intros stats. apply sends_prints, prints_only_when, display_stats_prints.
Qed.

Lemma sends_show_status (client : MLTradeQuery) (args : Args) :
  sends (show_status client args)
    (if args_status args then [request_of client GetStatus] else []).
Proof.
  unfold show_status. apply sends_when.
  rewrite <- (app_nil_r [_]). apply sends_bind; [apply sends_fetch|].
  intros status. apply sends_prints, prints_only_when, display_ml_status_prints.
Qed.

Lemma print_bullets_prints (items : pyval) : prints_only (print_bullets items).
Proof. unfold print_bullets. prints_only_tac. Qed.

Lemma show_verification_prints (trades : list dict) (args : Args) :
  prints_only (show_verification trades args).
Proof.
  unfold show_verification. apply prints_only_when.
  apply prints_only_bind; [apply prints_only_print|intros _].
  apply prints_only_bind; [apply prints_only_lift|intros verification].
  apply prints_only_bind; [apply prints_only_lift|intros valid].
  apply prints_only_bind.
  - destruct (truthy valid); [apply prints_only_print|].
    apply prints_only_bind; [apply prints_only_print|intros _].
    apply prints_only_bind; [apply prints_only_lift|intros errors].
    apply print_bullets_prints.
  - intros _.
    apply prints_only_bind; [apply prints_only_lift|intros warnings].
    apply prints_only_bind.
    + apply prints_only_when.
      apply prints_only_bind; [apply prints_only_print|intros _].
      apply prints_only_bind; [apply prints_only_lift|intros ws].
      apply print_bullets_prints.
    + intros _. prints_only_tac.
Qed.

Lemma export_trades_sent (trades : list dict) (format_type : string)
    (filename : option string) (w : world) :
  sent (snd (export_trades trades format_type filename w)) = sent w.
Proof.
  destruct trades as [|first rest]; [reflexivity|].
  unfold export_trades. unfold bind at 1.
  destruct filename as [f|].
  - unfold ret. destruct (String.eqb (lower format_type) "csv").
    + apply (export_csv_only (first :: rest) f w).
    + destruct (String.eqb (lower format_type) "json"); [|reflexivity].
      apply (export_json_only (first :: rest) f w).
  - unfold bind, now_stamp, lift, ret.
    destruct (getitem first "pair") as [p|e]; [|reflexivity].
    destruct (String.eqb (lower format_type) "csv").
    + match goal with
      | |- context [export_csv ?l ?f ?w0] => apply (export_csv_only l f w0)
      end.
    + destruct (String.eqb (lower format_type) "json"); [|reflexivity].
      match goal with
      | |- context [export_json ?l ?f ?w0] => apply (export_json_only l f w0)
      end.
Qed.

Lemma sends_run_export (trades : list dict) (args : Args) : sends (run_export trades args) [].
Proof.
  intros w. exists 0%nat. split; [simpl; lia|]. split; [|reflexivity].
  simpl. rewrite app_nil_r. unfold run_export.
  destruct (args_export args); [apply export_trades_sent | reflexivity].
Qed.

Lemma sends_after_display (client : MLTradeQuery) (args : Args) (trades : list dict) :
  sends (after_display client args trades)
    ((if args_stats args then [request_of client (GetStats (args_pair args))] else [])
     ++ (if args_status args then [request_of client GetStatus] else [])).
Proof.
  unfold after_display.
  apply sends_bind; [apply sends_show_stats|intros _].
  rewrite <- (app_nil_r (if args_status args then _ else _)).
  apply sends_bind; [apply sends_show_status|intros _].
  apply sends_bind_nil; [apply sends_prints, show_verification_prints|intros _].
  apply sends_bind_nil; [apply sends_run_export|intros _].
  apply sends_prints, prints_only_print.
Qed.

Lemma keeps_files_after_display (client : MLTradeQuery) (args : Args) (trades : list dict) :
  args_export args = None -> keeps_files (after_display client args trades).
Proof.
  intros Hx. unfold after_display, show_stats, show_status, run_export. rewrite Hx.
  apply keeps_files_bind; [|intros _].
  { apply keeps_files_when, keeps_files_bind; [apply keeps_files_fetch|intros stats].
    apply keeps_files_prints, prints_only_when, display_stats_prints. }
  apply keeps_files_bind; [|intros _].
  { apply keeps_files_when, keeps_files_bind; [apply keeps_files_fetch|intros status].
    apply keeps_files_prints, prints_only_when, display_ml_status_prints. }
  apply keeps_files_bind; [apply keeps_files_prints, show_verification_prints|intros _].
  apply keeps_files_bind; [intros w; reflexivity|intros _].
  apply keeps_files_prints, prints_only_print.
Qed.

(** When the steps after the display return, the last line is the
    one of the completion. *)
Lemma after_display_last (client : MLTradeQuery) (args : Args) (trades : list dict)
    (w w' : world) :
  after_display client args trades w = (Ok tt, w') ->
  exists w1, w' = after_lines w1 [nl ++ "✅ Query completed successfully!"].
Proof.
  unfold after_display, bind.
  destruct (show_stats client args w) as [[[]|e] w1]; [|discriminate].
  destruct (show_status client args w1) as [[[]|e] w2]; [|discriminate].
  destruct (show_verification trades args w2) as [[[]|e] w3]; [|discriminate].
  destruct (run_export trades args w3) as [[[]|e] w4]; [|discriminate].
  rewrite print_after_lines. intros E. injection E as <-. eauto.
Qed.

(** [main], step by step. *)
Lemma main_steps (args : Args) (w : world) :
  exists r lines,
    (List.length lines <= 1)%nat /\
    let w1 := after_fetch (after_lines w (opening_lines args ++ lines)) (trades_request args) in
    fst (get_ml_trades (init (args_database_url args)) (args_pair args) (args_limit args) w)
      = r /\
    main args w
      = match r with
        | Raise e => (Uncaught e, w1)
        | Ok trades =>
            if negb (truthy trades) then
              (Exit 1, snd (print ("❌ No ML trades found for " ++ args_pair args) w1))
            else
              match display_trades trades (args_details args) w1 with
              | (Raise e, w2) => (Uncaught e, w2)
              | (Ok _, w2) =>
                  match records_of trades with
                  | None => (Unmodelled, w2)
                  | Some records =>
                      match after_display (init (args_database_url args)) args records w2 with
                      | (Raise e, w3) => (Uncaught e, w3)
                      | (Ok _, w3) => (Exit 0, w3)
                      end
                  end
              end
        end.
Proof.
  unfold main. rewrite query_trades_run. unfold get_ml_trades.
  match goal with
  | |- context [fetch ?s ?u ?p ?e w] =>
      destruct (fetch_frame s u p e w) as (r & lines & Hl & Hframe)
  end.
  exists r, lines. split; [exact Hl|]. cbv zeta.
  pose proof (Hframe []) as H0'. rewrite after_lines_nil in H0'.
  rewrite H0', Hframe. split; reflexivity.
Qed.

(** X23.  The requests of a run.  [main] sends the request for the
    trades first, then the one for the statistics when [--stats] is
    given, then the one for the status when [--status] is given, and
    no other: a run sends a non-empty initial part of this list, and
    the whole list when it ends with status 0.  Without [--export] no
    file is created or changed. *)
Theorem main_requests (args : Args) (w : world) :
  exists n,
    (1 <= n <= List.length (requests_of args))%nat /\
    sent (snd (main args w)) = (sent w ++ firstn n (requests_of args))%list /\
    (fst (main args w) = Exit 0 -> n = List.length (requests_of args)) /\
    (args_export args = None -> files (snd (main args w)) = files w).
Proof.
  destruct (main_steps args w) as (r & lines & _ & _ & ->).
  set (w1 := after_fetch (after_lines w (opening_lines args ++ lines)) (trades_request args)).
  assert (S1 : sent w1 = (sent w ++ [trades_request args])%list) by reflexivity.
  assert (F1 : files w1 = files w) by reflexivity.
  set (client := init (args_database_url args)).
  set (rest := ((if args_stats args then [request_of client (GetStats (args_pair args))]
                 else [])
                ++ (if args_status args then [request_of client GetStatus] else []))%list).
  assert (Hreq : requests_of args = trades_request args :: rest) by reflexivity.
  rewrite Hreq. clear Hreq.
  assert (Stop : exists n,
            (1 <= n <= List.length (trades_request args :: rest))%nat /\
            sent w1 = (sent w ++ firstn n (trades_request args :: rest))%list /\
            files w1 = files w).
  { exists 1%nat. cbn [List.length firstn]. split; [lia|]. split; [exact S1 | exact F1]. }
  destruct r as [trades|e].
  - destruct (negb (truthy trades)).
    + destruct Stop as (n & Ln & Sn & Fn). exists n. cbn [fst snd].
      split; [exact Ln|]. split; [exact Sn|]. split; [discriminate | intros _; exact Fn].
    + destruct (display_trades_prints trades (args_details args) w1) as [ls D].
      destruct (display_trades trades (args_details args) w1) as [[[]|e] w2];
        cbn [snd] in D; subst w2.
      * destruct (records_of trades) as [records|].
        -- destruct (sends_after_display client args records (after_lines w1 ls))
             as (n & Ln & Sn & On).
           fold rest in Ln, Sn, On.
           pose proof (keeps_files_after_display client args records) as Kf.
           destruct (after_display client args records (after_lines w1 ls))
             as [[[]|e] w3] eqn:A; cbn [fst snd is_ok] in Sn, On; cbn [fst snd].
           ++ exists (S n). cbn [List.length firstn]. split; [lia|]. split.
              { rewrite Sn. change (sent (after_lines w1 ls)) with (sent w1).
                rewrite S1, <- app_assoc. reflexivity. }
              split.
              { intros _. rewrite (On eq_refl). reflexivity. }
              intros Hx. specialize (Kf Hx (after_lines w1 ls)). rewrite A in Kf. exact Kf.
           ++ exists (S n). cbn [List.length firstn]. split; [lia|]. split.
              { rewrite Sn. change (sent (after_lines w1 ls)) with (sent w1).
                rewrite S1, <- app_assoc. reflexivity. }
              split; [discriminate|].
              intros Hx. specialize (Kf Hx (after_lines w1 ls)). rewrite A in Kf. exact Kf.
        -- destruct Stop as (n & Ln & Sn & Fn). exists n. cbn [fst snd].
           split; [exact Ln|]. split; [exact Sn|]. split; [discriminate | intros _; exact Fn].
      * destruct Stop as (n & Ln & Sn & Fn). exists n. cbn [fst snd].
        split; [exact Ln|]. split; [exact Sn|]. split; [discriminate | intros _; exact Fn].
  - destruct Stop as (n & Ln & Sn & Fn). exists n. cbn [fst snd].
    split; [exact Ln|]. split; [exact Sn|]. split; [discriminate | intros _; exact Fn].
Qed.

(** The ways [main] ends, by the constructor of the termination. *)
Lemma main_ends (args : Args) (w : world) :
  fst (main args w) <> Unmodelled /\
  (forall code, fst (main args w) = Exit code -> code = 0 \/ code = 1) /\
  (fst (main args w) = Exit 1 <->
   exists v,
     fst (get_ml_trades (init (args_database_url args)) (args_pair args) (args_limit args) w)
       = Ok v /\ truthy v = false) /\
  (fst (main args w) = Exit 0 ->
   exists before,
     stdout (snd (main args w))
       = (before ++ [(nl ++ "✅ Query completed successfully!")%string])%list).
Proof.
  destruct (main_steps args w) as (r & lines & _ & Hr & ->).
  set (w1 := after_fetch (after_lines w (opening_lines args ++ lines)) (trades_request args)).
  rewrite Hr. clear Hr.
  destruct r as [trades|e].
  - destruct (truthy trades) eqn:T; cbn [negb].
    + pose proof (display_trades_run trades (args_details args) w1 T) as R.
      assert (No1 : ~ exists v, Ok trades = Ok v /\ truthy v = false).
      { intros (v & E & Fv). injection E as <-. congruence. }
      destruct (records_of trades) as [records|].
      * destruct (forallb (showable (args_details args)) records).
        -- destruct R as (ls & -> & _).
           destruct (after_display _ args records (after_lines w1 ls)) as [[[]|e] w3] eqn:A;
             simpl fst; simpl snd.
           ++ split; [discriminate|]. split; [intros c E; injection E as <-; auto|].
              split; [split; [discriminate | intros X; elim (No1 X)]|]. intros _.
              apply after_display_last in A. destruct A as (w' & ->).
              exists (stdout w'). reflexivity.
           ++ split; [discriminate|]. split; [discriminate|].
              split; [split; [discriminate | intros X; elim (No1 X)] | discriminate].
        -- destruct R as (e & w2 & ->). simpl.
           split; [discriminate|]. split; [discriminate|].
           split; [split; [discriminate | intros X; elim (No1 X)] | discriminate].
      * destruct R as (e & w2 & ->). simpl.
        split; [discriminate|]. split; [discriminate|].
        split; [split; [discriminate | intros X; elim (No1 X)] | discriminate].
    + simpl. split; [discriminate|]. split; [intros c E; injection E as <-; auto|].
      split; [split; [eauto | reflexivity] | discriminate].
  - simpl. split; [discriminate|]. split; [discriminate|].
    split; [split; [discriminate | intros (v & E & _); discriminate] | discriminate].
Qed.

(** X24.  How [main] ends once [parse_args] has returned the options
    (lines 275-329).  A run ends in one of three ways: [main] returns,
    it calls [sys.exit(1)] at line 286, or an exception escapes; so the
    exit status of the process is 0 or 1.  [main] never goes on after
    [display_trades] with a value that is not a list of dictionaries.
    [sys.exit(1)] is reached exactly when the fetch of the trades
    returned a falsy value; the exit status is 1 exactly when that
    happened or an exception escaped; and a run with exit status 0 has
    printed [Query completed successfully!] as its last line. *)
Theorem main_terminations (args : Args) (w : world) :
  fst (main args w) <> Unmodelled /\
  (fst (main args w) = Exit 0 \/ fst (main args w) = Exit 1 \/
   exists e, fst (main args w) = Uncaught e) /\
  (exit_status (fst (main args w)) = Some 0 \/ exit_status (fst (main args w)) = Some 1) /\
  (fst (main args w) = Exit 1 <->
   exists v,
     fst (get_ml_trades (init (args_database_url args)) (args_pair args) (args_limit args) w)
       = Ok v /\ truthy v = false) /\
  (exit_status (fst (main args w)) = Some 1 <->
   (exists v,
      fst (get_ml_trades (init (args_database_url args)) (args_pair args) (args_limit args) w)
        = Ok v /\ truthy v = false) \/
   exists e, fst (main args w) = Uncaught e) /\
  (exit_status (fst (main args w)) = Some 0 ->
   exists before,
     stdout (snd (main args w))
       = (before ++ [(nl ++ "✅ Query completed successfully!")%string])%list).
Proof.
  destruct (main_ends args w) as (Hm & Hcode & Hone & Hzero).
  assert (Hways : fst (main args w) = Exit 0 \/ fst (main args w) = Exit 1 \/
                  exists e, fst (main args w) = Uncaught e).
  { destruct (fst (main args w)) as [code|e|] eqn:E.
    - destruct (Hcode code eq_refl) as [-> | ->]; auto.
    - right. right. now exists e.
    - now elim Hm. }
  split; [exact Hm|]. split; [exact Hways|]. split; [|split; [exact Hone|split]].
  - destruct Hways as [-> | [-> | [e ->]]]; simpl; auto.
  - rewrite <- Hone. split.
    + intros E. destruct Hways as [E0 | [E1 | [e Ee]]]; [|now left | right; now exists e].
      rewrite E0 in E. discriminate.
    + intros [-> | [e ->]]; reflexivity.
  - intros E. apply Hzero.
    destruct Hways as [E0 | [E1 | [e Ee]]]; [exact E0 | rewrite E1 in E | rewrite Ee in E];
      discriminate.
Qed.
End RequestFacts.

(* ================================================================== *)
(** ** Further concrete runs *)


(** A record whose entry price is 0. *)
Lemma nonpositive_price_reported_once_witness :
  exists report,
    verify_trade_data [trade_zero_price] = Ok report /\
    exists c,
      py_le_int (VInt 0) 0 = Ok c /\
      count_if (String.prefix ("Trade " ++ dec (0 + 1) ++ ": Invalid " ++ "entry_price" ++ " ("))
               (report_errors report)
        = (if c then 1%nat else 0%nat) /\
      (VInt 0 = VFloat S754_nan -> c = false).
Proof.
  eexists. split; [vm_compute; reflexivity|].
  apply (nonpositive_price_reported_once [trade_zero_price] _ 0 trade_zero_price
           "entry_price" (VInt 0));
    [vm_compute; reflexivity | reflexivity | simpl; tauto | reflexivity].
Defined.

(** The record of the specification with a trend strength of 1.5. *)
Lemma range_warnings_reported_once_witness :
  exists report,
    verify_trade_data [trade_trend_out_of_range] = Ok report /\
    (forall v, dict_get "duration_seconds" trade_trend_out_of_range = Some v ->
       exists c, py_lt_int v 0 = Ok c /\
         count_if (String.prefix ("Trade " ++ dec (0 + 1) ++ ": Negative duration ("))
                  (report_warnings report) = if c then 1%nat else 0%nat) /\
    (forall v, dict_get "volatility" trade_trend_out_of_range = Some v ->
       exists c, py_lt_int v 0 = Ok c /\
         count_if (String.prefix ("Trade " ++ dec (0 + 1) ++ ": Negative volatility ("))
                  (report_warnings report) = if c then 1%nat else 0%nat) /\
    (forall v, dict_get "trend_strength" trade_trend_out_of_range = Some v ->
       exists c, in_unit_interval v = Ok c /\
         count_if (String.prefix ("Trade " ++ dec (0 + 1) ++ ": Trend strength out of range ("))
                  (report_warnings report) = if c then 0%nat else 1%nat).
Proof.
  eexists. split; [vm_compute; reflexivity|].
  apply (range_warnings_reported_once [trade_trend_out_of_range] _ 0 trade_trend_out_of_range);
    [vm_compute; reflexivity | reflexivity].
Defined.

(** A record whose market regime is [Sideways]. *)
Lemma unknown_market_regime_warned_once_witness :
  exists report,
    verify_trade_data [trade_unknown_regime] = Ok report /\
    count_if (String.prefix ("Trade " ++ dec (0 + 1) ++ ": Unknown market regime ("))
             (report_warnings report)
      = (if in_strings (VStr "Sideways") valid_regimes then 0%nat else 1%nat) /\
    (in_strings (VStr "Sideways") valid_regimes = true <->
     exists s, VStr "Sideways" = VStr s /\ In s ["Consolidating"; "Trending"; "Volatile"]).
Proof.
  eexists. split; [vm_compute; reflexivity|].
  apply (unknown_market_regime_warned_once [trade_unknown_regime] _ 0 trade_unknown_regime
           (VStr "Sideways"));
    [vm_compute; reflexivity | reflexivity | reflexivity].
Defined.

(** The record of the specification, then the one with a price of 0. *)
Lemma valid_iff_records_error_free_witness :
  exists report,
    verify_trade_data [sample_trade; trade_zero_price] = Ok report /\
    (dict_get "valid" report = Some (VBool true)
     <-> Forall error_free [sample_trade; trade_zero_price]).
Proof.
  eexists. split; [vm_compute; reflexivity|].
  apply (valid_iff_records_error_free [sample_trade; trade_zero_price]);
    [discriminate | vm_compute; reflexivity].
Defined.

(** Two records, the second without [pair]. *)
Lemma messages_name_a_record_witness :
  exists report,
    verify_trade_data [sample_trade; trade_without_pair] = Ok report /\
    (forall m, In m (report_errors report) ->
       exists k text rest,
         (1 <= k <= List.length [sample_trade; trade_without_pair])%nat /\
         In text error_tags /\ m = "Trade " ++ dec k ++ ": " ++ text ++ rest) /\
    (forall m, In m (report_warnings report) ->
       exists k text rest,
         (1 <= k <= List.length [sample_trade; trade_without_pair])%nat /\
         In text warning_tags /\ m = "Trade " ++ dec k ++ ": " ++ text ++ rest) /\
    dict_get "total_trades" report
      = Some (VInt (Z.of_nat (List.length [sample_trade; trade_without_pair]))).
Proof.
  eexists. split; [vm_compute; reflexivity|].
  apply (messages_name_a_record [sample_trade; trade_without_pair]);
    [discriminate | vm_compute; reflexivity].
Defined.

(** The record of the specification, twice. *)
Lemma clean_records_pass_witness :
  forallb clean [sample_trade; sample_trade] = true /\
  verify_trade_data [sample_trade; sample_trade]
    = Ok [("valid", VBool true); ("errors", VList []); ("warnings", VList []);
          ("total_trades", VInt (Z.of_nat (List.length [sample_trade; sample_trade])))].
Proof.
  split; [vm_compute; reflexivity|].
  apply (clean_records_pass [sample_trade; sample_trade]);
    [discriminate | vm_compute; reflexivity].
Defined.

(** A record whose exit time is the text [yesterday], and a record
    whose entry time is the text [garbage] and that has no exit time. *)
Lemma malformed_timestamp_reported_once_witness :
  exists report,
    verify_trade_data [trade_malformed_time; trade_unmatched_time] = Ok report /\
    (In ("Trade " ++ dec (0 + 1) ++ ": Invalid datetime format: "
         ++ "Invalid isoformat string: 'yesterday'") (report_errors report) /\
     count_if (String.prefix ("Trade " ++ dec (0 + 1) ++ ": Invalid datetime format: "))
              (report_errors report) = 1%nat /\
     count_if (String.prefix ("Trade " ++ dec (0 + 1) ++ ": Exit time before or equal to entry time"))
              (report_errors report) = 0%nat /\
     count_if (String.prefix ("Trade " ++ dec (0 + 1) ++ ": Duration mismatch ("))
              (report_warnings report) = 0%nat) /\
    count_if (String.prefix ("Trade " ++ dec (1 + 1) ++ ": Invalid datetime format: "))
             (report_errors report) = 0%nat.
Proof.
  assert (Hr : exists report,
             verify_trade_data [trade_malformed_time; trade_unmatched_time] = Ok report)
    by (eexists; vm_compute; reflexivity).
  destruct Hr as [report Hr]. exists report. split; [exact Hr|]. split.
  - apply (proj1 (malformed_timestamp_reported_once
                    [trade_malformed_time; trade_unmatched_time] report 0 trade_malformed_time
                    Hr eq_refl)
                 "2024-01-01T00:00:00Z" "Invalid isoformat string: 'yesterday'");
      [reflexivity | reflexivity |].
    right. exists (mkdatetime 63839664000000000 (Some 0)), "yesterday".
    repeat split; vm_compute; reflexivity.
  - apply (proj2 (malformed_timestamp_reported_once
                    [trade_malformed_time; trade_unmatched_time] report 1 trade_unmatched_time
                    Hr eq_refl)).
    right. reflexivity.
Defined.

(** A record whose pnl is the text [0.1]. *)
Lemma pnl_type_reported_once_witness :
  exists report,
    verify_trade_data [trade_string_pnl] = Ok report /\
    count_if (String.prefix ("Trade " ++ dec (0 + 1) ++ ": Invalid pnl type ("))
             (report_errors report)
      = (if isinstance_int_float (VStr "0.1") then 0%nat else 1%nat) /\
    (isinstance_int_float (VStr "0.1") = true <->
     (exists b, VStr "0.1" = VBool b) \/ (exists z, VStr "0.1" = VInt z)
     \/ (exists f, VStr "0.1" = VFloat f)) /\
    (forall j u, outcome (check_pnl j u) = Ok tt).
Proof.
  eexists. split; [vm_compute; reflexivity|].
  apply (pnl_type_reported_once [trade_string_pnl] _ 0 trade_string_pnl (VStr "0.1"));
    [vm_compute; reflexivity | reflexivity | reflexivity].
Defined.

(** A fetch of the trades from a server that answers 200 with one
    record. *)
Lemma json_object_answer_witness :
  run_operation (init DEFAULT_DATABASE_URL) (GetTrades DEFAULT_PAIR 20) answers_200
    = if truthy (get_default [("success", VBool true); ("data", VList [VDict sample_trade])]
                             "success" VNone)
         && contains "data" [("success", VBool true); ("data", VList [VDict sample_trade])]
      then (Ok (get_default [("success", VBool true); ("data", VList [VDict sample_trade])]
                            "data" VNone),
            after_fetch answers_200
              (request_of (init DEFAULT_DATABASE_URL) (GetTrades DEFAULT_PAIR 20)))
      else (Ok (empty_result (GetTrades DEFAULT_PAIR 20)),
            after_failed_fetch answers_200
              (request_of (init DEFAULT_DATABASE_URL) (GetTrades DEFAULT_PAIR 20))
              ("❌ Error: "
               ++ py_str (get_default [("success", VBool true);
                                       ("data", VList [VDict sample_trade])]
                                      "message" (VStr "Unknown error")))).
Proof.
  apply (json_object_answer (init DEFAULT_DATABASE_URL) (GetTrades DEFAULT_PAIR 20) answers_200
           (mkresponse 200 "OK"
              (Ok (VDict [("success", VBool true); ("data", VList [VDict sample_trade])]))));
    [reflexivity | simpl; lia | reflexivity].
Defined.

(** A fetch of the status from a server whose body is a list. *)
Lemma non_object_body_raises_witness :
  run_operation (init DEFAULT_DATABASE_URL) GetStatus answers_list
    = (Raise AttributeError,
       after_fetch answers_list (request_of (init DEFAULT_DATABASE_URL) GetStatus)).
Proof.
  apply (non_object_body_raises (init DEFAULT_DATABASE_URL) GetStatus answers_list
           (mkresponse 200 "OK" (Ok (VList [VDict sample_trade])))
           (VList [VDict sample_trade]));
    [reflexivity | simpl; lia | reflexivity | discriminate].
Defined.

(** A JSON export of a record with one more key, under the default
    file name. *)
Lemma export_json_writes_all_witness :
  export_trades [trade_extra_field] "JSON" None unreachable
    = if writable unreachable (export_name trade_extra_field None unreachable ++ ".json")
      then
        (Ok tt,
         after_print
           (after_write unreachable (export_name trade_extra_field None unreachable ++ ".json")
              (JsonDump [trade_extra_field]))
           ("📁 Exported " ++ dec (List.length [trade_extra_field]) ++ " trades to "
            ++ export_name trade_extra_field None unreachable ++ ".json"))
      else (Raise OSError, unreachable).
Proof.
  apply (export_json_writes_all trade_extra_field [] "JSON" None unreachable);
    [reflexivity | reflexivity].
Defined.

(** A CSV export of three records, the second with one more key. *)
Lemma export_csv_stops_at_extra_field_witness :
  exists msg,
    dict_to_list fieldnames trade_extra_field = Raise (ValueError msg) /\
    export_trades trades_second_extra "csv" (Some "trades") unreachable
      = (Raise (ValueError msg),
         after_write unreachable (export_name sample_trade (Some "trades") unreachable ++ ".csv")
           (CsvRows (fieldnames :: map csv_cells [sample_trade]))).
Proof.
  apply (export_csv_stops_at_extra_field sample_trade [trade_extra_field; sample_trade]
           [sample_trade] trade_extra_field [sample_trade] "csv" (Some "trades") unreachable);
    [reflexivity | discriminate | reflexivity | reflexivity | repeat constructor | reflexivity].
Defined.

(** The same export leaves the file [notes.txt] alone. *)
Lemma export_touches_one_file_witness :
  sent (snd (export_trades trades_second_extra "csv" (Some "trades") unreachable))
    = sent unreachable /\
  file_get "notes.txt"
    (files (snd (export_trades trades_second_extra "csv" (Some "trades") unreachable)))
    = file_get "notes.txt" (files unreachable).
Proof.
  apply (export_touches_one_file sample_trade [trade_extra_field; sample_trade] "csv"
           (Some "trades") unreachable "notes.txt");
    [vm_compute; discriminate | vm_compute; discriminate].
Defined.

(** A run against a server that cannot be reached. *)
Lemma main_exits_1_without_trades_witness :
  exists lines,
    (List.length lines <= 1)%nat /\
    main default_args unreachable
      = (Exit 1,
         after_fetch
           (after_lines unreachable
              (opening_lines default_args ++ lines
               ++ ["❌ No ML trades found for " ++ args_pair default_args]))
           (trades_request default_args)).
Proof.
  apply (main_exits_1_without_trades default_args unreachable (VList []));
    [vm_compute; reflexivity | reflexivity].
Defined.

(** The verification of two records, the second with a price of 0. *)
Lemma verification_summary_witness :
  ([sample_trade; trade_zero_price] <> [] ->
   match verify_trade_data [sample_trade; trade_zero_price] with
   | Ok report =>
       show_verification [sample_trade; trade_zero_price] verify_args unreachable
         = (Ok tt,
            after_lines unreachable
              (summary_lines (List.length [sample_trade; trade_zero_price])
                 (report_errors report) (report_warnings report)))
   | Raise e =>
       show_verification [sample_trade; trade_zero_price] verify_args unreachable
         = (Raise e, after_lines unreachable [nl ++ "🔍 Verifying trade data integrity..."])
   end) /\
  show_verification [] verify_args unreachable
    = (Raise (KeyError "warnings"),
       after_lines unreachable [nl ++ "🔍 Verifying trade data integrity...";
                                "❌ Data validation errors found:";
                                bullet "No trades found"]).
Proof.
  apply (verification_summary [sample_trade; trade_zero_price] verify_args unreachable).
  reflexivity.
Defined.

(** The display, then the verification, of a record with a price of 0. *)
Lemma verification_after_display_witness :
  exists w' report,
    display_trades (VList [VDict trade_zero_price]) true unreachable = (Ok tt, w') /\
    verify_trade_data [trade_zero_price] = Ok report /\
    forall m, In m (report_errors report) ->
      exists k text rest,
        (1 <= k <= List.length [trade_zero_price])%nat /\
        In text display_error_tags /\
        m = "Trade " ++ dec k ++ ": " ++ text ++ rest /\
        (true = true -> text <> "Missing required field 'id'").
Proof.
  eexists. eexists. split; [vm_compute; reflexivity|]. split; [vm_compute; reflexivity|].
  eapply (verification_after_display (VList [VDict trade_zero_price]) true unreachable);
    [reflexivity | vm_compute; reflexivity | reflexivity | vm_compute; reflexivity].
Defined.
